(** * async_easyapi: the generic data-access layer, embedded and verified

    The development follows the three source variants of the repository:
    - [async_easyapi/dao.py] and [async_easyapi/controller.py]
      (module [AsyncEasyapi]),
    - [async_esayapi/dao.py], the older collection-valued variant
      (module [AsyncEsayapi]),
    - [easyapi/dao.py], the synchronous variant (module [Easyapi]).

    Python values, dictionaries and exceptions live in [Py]; SQL
    statements as SQLAlchemy builds them live in [Sql], and their
    meaning on stored rows in [Storage]. *)

From Stdlib Require Import String Ascii List ZArith Bool Lia Permutation.
Import ListNotations.
Local Open Scope string_scope.
Local Open Scope Z_scope.
Local Open Scope list_scope.

(* ===================================================================== *)
(** ** Python values, dictionaries, exceptions *)
(* ===================================================================== *)

Module Py.

(** Scalars a record or a filter can carry.  [STime] is a
    [datetime.datetime]; [SNone] is [None]. *)
Inductive scalar : Type :=
| SNone
| SBool (b : bool)
| SInt (z : Z)
| SStr (s : string)
| STime (t : Z).

(** A filter value: a bare scalar or a list of scalars. *)
Inductive pyval : Type :=
| PScalar (s : scalar)
| PList (l : list scalar).

Definition scalar_eqb (a b : scalar) : bool :=
  match a, b with
  | SNone, SNone => true
  | SBool x, SBool y => Bool.eqb x y
  | SInt x, SInt y => Z.eqb x y
  | SStr x, SStr y => String.eqb x y
  | STime x, STime y => Z.eqb x y
  | _, _ => false
  end.

(** Python truthiness ([if v:], [not v]). *)
Definition scalar_truthy (s : scalar) : bool :=
  match s with
  | SNone => false
  | SBool b => b
  | SInt z => negb (Z.eqb z 0)
  | SStr s => negb (String.eqb s "")
  | STime _ => true
  end.

Definition truthy (v : pyval) : bool :=
  match v with
  | PScalar s => scalar_truthy s
  | PList [] => false
  | PList (_ :: _) => true
  end.

(** A [dict]: insertion-ordered, so an association list, oldest entry
    first.  A Python dict never holds a key twice: [dict_wf]. *)
Definition dict (A : Type) : Type := list (string * A).

Definition keys {A} (d : dict A) : list string := map fst d.

Definition dict_wf {A} (d : dict A) : Prop := NoDup (keys d).

(** [d.get(k)] / [k in d]. *)
Fixpoint dict_get {A} (k : string) (d : dict A) : option A :=
  match d with
  | [] => None
  | (k', v) :: rest => if String.eqb k k' then Some v else dict_get k rest
  end.

Definition dict_mem {A} (k : string) (d : dict A) : bool :=
  match dict_get k d with Some _ => true | None => false end.

(** [d[k] = v]: overwrite in place, or append a new entry. *)
Fixpoint dict_set {A} (k : string) (v : A) (d : dict A) : dict A :=
  match d with
  | [] => [(k, v)]
  | (k', v') :: rest =>
      if String.eqb k k' then (k', v) :: rest else (k', v') :: dict_set k v rest
  end.

(** [new = dict(); for key, value in data.items(): new[key] = value]. *)
Definition dict_copy {A} (d : dict A) : dict A :=
  fold_left (fun acc kv => dict_set (fst kv) (snd kv) acc) d [].

(** Exceptions the code can meet.  The first three are the classes
    [controller.py] imports from [sqlalchemy.exc]; the next four are the
    remaining DB-API error classes of the same hierarchy;
    [ArgumentError] is what SQLAlchemy raises on an expression it cannot
    build; [UserError] stands for whatever else the caller's own code
    raises.  [err_info] of a [BusinessError] is [str(e)], kept as the
    message. *)
Inductive exn : Type :=
| OperationalError (msg : string)
| IntegrityError (msg : string)
| DataError (msg : string)
| ProgrammingError (msg : string)
| InternalError (msg : string)
| InterfaceError (msg : string)
| NotSupportedError (msg : string)
| AttributeError (name : string)
| IndexError
| TypeError
| ArgumentError
| BusinessError (code http_code : Z) (err_info : string)
| UserError (msg : string).

Definition str (e : exn) : string :=
  match e with
  | OperationalError m | IntegrityError m | DataError m
  | ProgrammingError m | InternalError m | InterfaceError m
  | NotSupportedError m | UserError m => m
  | AttributeError n => n
  | IndexError => "list index out of range"
  | TypeError => "unsupported operand type"
  | ArgumentError => "SQL expression object expected"
  | BusinessError _ _ m => m
  end.

(** Outcome of a call: a value, or a raised exception. *)
Inductive result (A : Type) : Type :=
| Ok (a : A)
| Raise (e : exn).
Arguments Ok {A} a.
Arguments Raise {A} e.

Definition bind {A B} (r : result A) (f : A -> result B) : result B :=
  match r with
  | Ok a => f a
  | Raise e => Raise e
  end.

(** [for x in xs: acc = body(x, acc)], stopping at the first raise. *)
Fixpoint for_each {A S} (xs : list A) (body : A -> S -> result S) (acc : S)
  : result S :=
  match xs with
  | [] => Ok acc
  | x :: rest => bind (body x acc) (for_each rest body)
  end.

(** [s.startswith(p)] and [s[n:]]. *)
Definition startswith (p s : string) : bool := String.prefix p s.

Definition drop (n : nat) (s : string) : string :=
  String.substring n (String.length s - n) s.

End Py.
Import Py.

Declare Scope py_scope.
Delimit Scope py_scope with py.
Notation "x <- c ;; k" := (bind c (fun x => k))
  (at level 61, c at next level, right associativity) : py_scope.
Local Open Scope py_scope.

(* ===================================================================== *)
(** ** SQL statements and their meaning on stored rows *)
(* ===================================================================== *)

Module Sql.

(** The bound table: [cls.__db__[cls.__tablename__]].  [table.c] is
    SQLAlchemy's column collection: it has one attribute per column, and
    besides them the attributes of the collection object itself, its
    methods [keys], [values], [items], [get] and so on.  Which names
    those are depends on the SQLAlchemy release, so the table carries
    them: [members]. *)
Record table : Type := mkTable {
  tablename : string;
  columns : list string;
  members : list string
}.

(** What an attribute lookup on [table.c] gives: a column, or a bound
    method of the collection. *)
Inductive attribute : Type :=
| Column (name : string)
| Member (name : string).

Definition is_member (t : table) (name : string) : bool :=
  existsb (String.eqb name) (members t).

(** The name resolves to a column: the collection's own attributes are
    found first and hide a column of the same name. *)
Definition is_column (t : table) (name : string) : bool :=
  negb (is_member t name) && existsb (String.eqb name) (columns t).

(** [hasattr(table.c, name)]. *)
Definition hasattr_c (t : table) (name : string) : bool :=
  is_member t name || existsb (String.eqb name) (columns t).

(** [getattr(table.c, name)]: raises when the collection has no such
    attribute. *)
Definition getattr_c (t : table) (name : string) : result attribute :=
  if is_member t name then Ok (Member name)
  else if existsb (String.eqb name) (columns t) then Ok (Column name)
  else Raise (AttributeError name).

Inductive cmp : Type := Gt | Ge | Lt | Le.

(** Expressions handed to [sql.where].  [PFalse] is what [where(False)]
    becomes, the clause no row passes. *)
Inductive pred : Type :=
| PCmp (op : cmp) (col : string) (v : scalar)
| PLike (col : string) (pattern : scalar)
| PIn (col : string) (vs : list scalar)
| PEq (col : string) (v : pyval)
| PFalse.

(** [a.like], [a.in_], [a.desc]: a column has the method, a bound
    method of the collection has no such attribute. *)
Definition method_of (method : string) (a : attribute) : result string :=
  match a with
  | Column c => Ok c
  | Member _ => Raise (AttributeError method)
  end.

(** [a > v] and the like.  On a column SQLAlchemy refuses [None],
    [True] and [False] for every operator but [=] and [!=]; a bound
    method is not ordered against anything. *)
Definition compare (op : cmp) (a : attribute) (v : scalar) : result pred :=
  match a with
  | Member _ => Raise TypeError
  | Column c =>
      match v with
      | SNone | SBool _ => Raise ArgumentError
      | _ => Ok (PCmp op c v)
      end
  end.

(** [a == v]: a column expression, or plain [False] for a bound method,
    which is equal to no value. *)
Definition equals (a : attribute) (v : pyval) : pred :=
  match a with
  | Column c => PEq c v
  | Member _ => PFalse
  end.

Inductive projection : Type := AllColumns | CountStar.

(** A [select]: successive [where] calls are conjoined, so the clause is
    a list of conjuncts in call order. *)
Record select : Type := mkSelect {
  proj : projection;
  wheres : list pred;
  limit_ : option Z;
  offset_ : option Z;
  order_by_ : list (string * bool)   (* column, descending? *)
}.

Definition select_from (p : projection) : select :=
  mkSelect p [] None None [].

Definition where_ (p : pred) (s : select) : select :=
  mkSelect (proj s) (wheres s ++ [p]) (limit_ s) (offset_ s) (order_by_ s).

Definition add_wheres (ps : list pred) (s : select) : select :=
  mkSelect (proj s) (wheres s ++ ps) (limit_ s) (offset_ s) (order_by_ s).

Definition limit (n : Z) (s : select) : select :=
  mkSelect (proj s) (wheres s) (Some n) (offset_ s) (order_by_ s).

Definition offset (n : Z) (s : select) : select :=
  mkSelect (proj s) (wheres s) (limit_ s) (Some n) (order_by_ s).

Definition order_by (col : string) (descending : bool) (s : select) : select :=
  mkSelect (proj s) (wheres s) (limit_ s) (offset_ s)
           (order_by_ s ++ [(col, descending)]).

(** Data-changing statements: [table.update()], [table.delete()],
    [table.insert()]. *)
Inductive stmt : Type :=
| Update (conds : list pred) (values : dict scalar)
| Delete (conds : list pred)
| Insert (values : dict scalar).

Definition is_physical_delete (s : stmt) : bool :=
  match s with Delete _ => true | _ => false end.

End Sql.
Import Sql.

(* ===================================================================== *)
(** ** The storage backend *)
(* ===================================================================== *)

Module Storage.

(** A stored row, column name to value; a column the row does not list
    reads as NULL. *)
Definition row : Type := dict scalar.
Definition db : Type := list row.

Definition field (r : row) (c : string) : scalar :=
  match dict_get c r with
  | Some v => v
  | None => SNone
  end.

Definition is_none (s : scalar) : bool :=
  match s with SNone => true | _ => false end.

(** What the repository leaves to the database engine and its driver:
    the ordering behind [<], [<=], [>], [>=], the matching of a [LIKE]
    pattern, and what [column = <list>] means once a driver has bound a
    Python list to one parameter. *)
Class Backend : Type := {
  compare_holds : cmp -> scalar -> scalar -> bool;
  like_holds : scalar -> scalar -> bool;
  eq_list_holds : scalar -> list scalar -> bool
}.

(** Modelled from the spec: the storage backend that executes the
    statements ([db_util.MysqlDB.execute] is not among the sources).
    [column == None] is rendered [IS NULL] by SQLAlchemy; [=] and [IN]
    are never true of a NULL field. *)
Definition eval_pred `{Backend} (r : row) (p : pred) : bool :=
  match p with
  | PCmp op c v => compare_holds op (field r c) v
  | PLike c pat => like_holds (field r c) pat
  | PIn c vs => negb (is_none (field r c)) && existsb (scalar_eqb (field r c)) vs
  | PEq c (PScalar SNone) => is_none (field r c)
  | PEq c (PScalar v) => scalar_eqb (field r c) v
  | PEq c (PList vs) => eq_list_holds (field r c) vs
  | PFalse => false
  end.

(** A row passes a [WHERE] clause when every conjunct holds. *)
Definition satisfies `{Backend} (conds : list pred) (r : row) : bool :=
  forallb (eval_pred r) conds.

(** [SET k = v, ...] on one row. *)
Definition assign (values : dict scalar) (r : row) : row :=
  fold_left (fun acc kv => dict_set (fst kv) (snd kv) acc) values r.

(** Modelled from the spec: executing a data-changing statement. *)
Definition execute `{Backend} (s : stmt) (rows : db) : db :=
  match s with
  | Update conds values =>
      map (fun r => if satisfies conds r then assign values r else r) rows
  | Delete conds => filter (fun r => negb (satisfies conds r)) rows
  | Insert values => rows ++ [assign values []]
  end.

(** Modelled from the spec: [res.first()] on a select without ordering,
    the first stored row that passes the clause. *)
Definition first_row `{Backend} (s : select) (rows : db) : option row :=
  hd_error (filter (satisfies (wheres s)) rows).

(** Modelled from the spec: [type_to_json] ([easyapi_tools.util]) is not
    among the sources; section 4.3 has it turn native timestamp, decimal
    and binary values into JSON-safe scalars, column by column.  The
    conversion of one value is left to the codec. *)
Class JsonCodec : Type := {
  json_scalar : scalar -> scalar
}.

Definition type_to_json `{JsonCodec} (data : row) : row :=
  map (fun kv => (fst kv, json_scalar (snd kv))) data.

End Storage.
Import Storage.

(* ===================================================================== *)
(** ** async_easyapi/dao.py *)
(* ===================================================================== *)

Module AsyncEasyapi.

(** *** Transaction *)

(** Calls the scope makes on the engine, the connection and the
    transaction. *)
Inductive call : Type := Acquire | Begin | Commit | Rollback | Close.

(** The driver decides, per call, whether it returns or raises. *)
Definition driver : Type := call -> option exn.

(** An awaited computation: the calls it made, in order, and how it
    ended. *)
Definition io (A : Type) : Type := (list call * result A)%type.

Definition ret {A} (a : A) : io A := ([], Ok a).
Definition raise {A} (e : exn) : io A := ([], Raise e).

Definition io_bind {A B} (m : io A) (k : A -> io B) : io B :=
  match m with
  | (tr, Ok a) => let '(tr', r) := k a in (tr ++ tr', r)
  | (tr, Raise e) => (tr, Raise e)
  end.

Definition await (d : driver) (c : call) : io unit :=
  ([c], match d c with None => Ok tt | Some e => Raise e end).

(** [try: body / except Exception as e: handler(e)]. *)
Definition try_except {A} (body : io A) (handler : exn -> io A) : io A :=
  match body with
  | (tr, Ok a) => (tr, Ok a)
  | (tr, Raise e) => let '(tr', r) := handler e in (tr ++ tr', r)
  end.

(** [try: body / finally: fin]: [fin] always runs; when it raises, its
    exception replaces the outcome of [body]. *)
Definition try_finally {A} (body : io A) (fin : io unit) : io A :=
  let '(tr, r) := body in
  match fin with
  | (tr', Ok _) => (tr ++ tr', r)
  | (tr', Raise e') => (tr ++ tr', Raise e')
  end.

Definition aenter (d : driver) : io unit :=
  io_bind (await d Acquire) (fun _ => await d Begin).

(** [__aexit__(self, exc_type, exc, tb)]: the exception of the enclosed
    block is received and not looked at. *)
Definition aexit (d : driver) (exc : option exn) : io unit :=
  try_finally
    (try_except (await d Commit)
                (fun e => io_bind (await d Rollback) (fun _ => raise e)))
    (await d Close).

(** [async with get_tx(db) as conn: body].  [__aexit__] returns [None],
    so an exception of the body is re-raised after it. *)
Definition async_with {A} (exit_ : option exn -> io unit) (d : driver)
    (body : io A) : io A :=
  io_bind (aenter d) (fun _ =>
    match body with
    | (tr, Ok a) =>
        let '(tr', r) := exit_ None in
        (tr ++ tr', match r with Ok _ => Ok a | Raise e' => Raise e' end)
    | (tr, Raise e) =>
        let '(tr', r) := exit_ (Some e) in
        (tr ++ tr', match r with Ok _ => Raise e | Raise e' => Raise e' end)
    end).

Definition transaction {A} (d : driver) (body : io A) : io A :=
  async_with (aexit d) d body.

(** *** search_sql *)

Definition as_list (v : pyval) : list scalar :=
  match v with
  | PList l => l
  | PScalar s => [s]
  end.

(** [v + '%']. *)
Definition add_percent (v : scalar) : result string :=
  match v with
  | SStr s => Ok (String.append s "%")
  | _ => Raise TypeError
  end.

(** The expressions [search_sql] hands to [where]:
    [getattr(table.c, col) > v], [getattr(table.c, col).like(v + '%')],
    [getattr(table.c, col).in_(values)] and
    [getattr(table.c, col) == values[0]], each evaluated left to
    right. *)
Definition cmp_clause (t : table) (op : cmp) (col : string) (v : scalar)
  : result pred :=
  a <- getattr_c t col ;; compare op a v.

Definition like_clause (t : table) (col : string) (v : scalar)
  : result pred :=
  a <- getattr_c t col ;;
  c <- method_of "like" a ;;
  pat <- add_percent v ;;
  Ok (PLike c (SStr pat)).

Definition in_clause (t : table) (col : string) (values : list scalar)
  : result pred :=
  a <- getattr_c t col ;;
  c <- method_of "in_" a ;;
  Ok (PIn c values).

Definition eq_clause (t : table) (col : string) (values : list scalar)
  : result pred :=
  a <- getattr_c t col ;;
  match values with
  | v0 :: _ => Ok (equals a (PScalar v0))
  | [] => Raise IndexError
  end.

(** One pass of the loop body of [search_sql] for key [k]. *)
Definition search_key (t : table) (k : string) (v : pyval) (sql : select)
  : result select :=
  let values := as_list v in
  if startswith "_gt_" k then
    for_each values (fun v sql =>
      p <- cmp_clause t Gt (drop 4 k) v ;; Ok (where_ p sql)) sql
  else if startswith "_gte_" k then
    for_each values (fun v sql =>
      p <- cmp_clause t Ge (drop 5 k) v ;; Ok (where_ p sql)) sql
  else if startswith "_lt_" k then
    for_each values (fun v sql =>
      p <- cmp_clause t Lt (drop 4 k) v ;; Ok (where_ p sql)) sql
  else if startswith "_lte_" k then
    for_each values (fun v sql =>
      p <- cmp_clause t Le (drop 5 k) v ;; Ok (where_ p sql)) sql
  else if startswith "_like_" k then
    for_each values (fun v sql =>
      p <- like_clause t (drop 6 k) v ;; Ok (where_ p sql)) sql
  else if startswith "_in_" k then
    p <- in_clause t (drop 4 k) values ;; Ok (where_ p sql)
  else
    p <- eq_clause t k values ;; Ok (where_ p sql).

(** [for k in query.keys(): ... query[k] ...], in insertion order. *)
Fixpoint search_sql (sql : select) (query : dict pyval) (t : table)
  : result select :=
  match query with
  | [] => Ok sql
  | (k, v) :: rest => sql' <- search_key t k v sql ;; search_sql sql' rest t
  end.

(** *** BaseDao and BusinessBaseDao *)

(** [None] in the value universe at hand. *)
Class HasNone (A : Type) : Type := py_none : A.
#[global] Instance scalar_none : HasNone scalar := SNone.
#[global] Instance pyval_none : HasNone pyval := PScalar SNone.

(** The class a classmethod is called on. *)
Inductive dao_class : Type := BaseDao | BusinessBaseDao.

Definition reformatter {A} `{HasNone A} (cls : dao_class) (unscoped : bool)
    (data : dict A) : dict A :=
  match cls with
  | BaseDao => data
  | BusinessBaseDao =>
      let new_data := dict_copy data in
      if negb unscoped && negb (dict_mem "deleted_at" data)
      then dict_set "deleted_at" py_none new_data
      else new_data
  end.

(** Both classes end in [type_to_json(data)]. *)
Definition formatter `{JsonCodec} (cls : dao_class) (data : row) : row :=
  type_to_json data.

(** [getattr(table.c, name, table.c.id)]: the default is evaluated
    before the lookup, and the lookup finds whatever attribute the
    collection has of that name. *)
Definition getattr_or_id (t : table) (name : scalar) : result attribute :=
  id <- getattr_c t "id" ;;
  match name with
  | SStr n =>
      match getattr_c t n with
      | Ok a => Ok a
      | Raise _ => Ok id
      end
  | _ => Raise TypeError
  end.

(** [sql.order_by(a.desc())] and [sql.order_by(a)]: a bound method has
    no [desc], and is no expression to order by. *)
Definition ordered (a : attribute) (descending : bool) (sql : select)
  : result select :=
  if descending
  then c <- method_of "desc" a ;; Ok (order_by c true sql)
  else match a with
       | Column c => Ok (order_by c false sql)
       | Member _ => Raise ArgumentError
       end.

(** The common head of every read: default, reformat, filter. *)
Definition filtered (cls : dao_class) (unscoped : bool) (p : projection)
    (query : option (dict pyval)) (t : table) : result select :=
  let query := match query with None => [] | Some q => q end in
  let query := reformatter cls unscoped query in
  let sql := select_from p in
  match query with
  | [] => Ok sql
  | _ :: _ => search_sql sql query t
  end.

Definition first_sql (cls : dao_class) (unscoped : bool)
    (query : option (dict pyval)) (sorter_key : string) (t : table)
  : result select :=
  sql <- filtered cls unscoped AllColumns query t ;;
  a <- getattr_or_id t (SStr sorter_key) ;;
  ordered a true sql.

Definition last_sql (cls : dao_class) (unscoped : bool)
    (query : option (dict pyval)) (sorter_key : string) (t : table)
  : result select :=
  sql <- filtered cls unscoped AllColumns query t ;;
  a <- getattr_or_id t (SStr sorter_key) ;;
  ordered a false sql.

Definition get_sql (cls : dao_class) (unscoped : bool)
    (query : option (dict pyval)) (t : table) : result select :=
  filtered cls unscoped AllColumns query t.

Definition count_sql (cls : dao_class) (unscoped : bool)
    (query : option (dict pyval)) (t : table) : result select :=
  filtered cls unscoped CountStar query t.

(** The pager block of [query]; [pager.get] gives [None] for a key that
    is not there. *)
Definition paginate (pager : option (dict Z)) (sql : select) : select :=
  match pager with
  | None => sql
  | Some pager =>
      let per_page := dict_get "_per_page" pager in
      let page := dict_get "_page" pager in
      let sql :=
        match per_page with
        | Some n => if Z.eqb n 0 then sql else limit n sql
        | None => sql
        end in
      match page with
      | Some p =>
          if Z.eqb p 0 then sql
          else match per_page with
               | None => limit 30 (offset ((p - 1) * 30) sql)
               | Some n => offset ((p - 1) * n) sql
               end
      | None => sql
      end
  end.

(** The sorter block of [query]. *)
Definition sort (sorter : option (dict scalar)) (t : table) (sql : select)
  : result select :=
  let sorter := match sorter with None => [] | Some s => s end in
  let order := match dict_get "_order_by" sorter with
               | Some v => v | None => SStr "id" end in
  let desc := match dict_get "_desc" sorter with
              | Some v => scalar_truthy v | None => true end in
  if desc
  then a <- getattr_or_id t order ;; ordered a true sql
  else a <- getattr_or_id t order ;; ordered a false sql.

Definition query_sql (cls : dao_class) (unscoped : bool)
    (query : option (dict pyval)) (pager : option (dict Z))
    (sorter : option (dict scalar)) (t : table) : result select :=
  sql <- filtered cls unscoped AllColumns query t ;;
  sort sorter t (paginate pager sql).

(** [get], run against stored rows. *)
Definition get `{Backend} `{JsonCodec} (cls : dao_class) (unscoped : bool)
    (query : option (dict pyval)) (t : table) (rows : db)
  : result (option row) :=
  sql <- get_sql cls unscoped query t ;;
  match first_row sql rows with
  | None => Ok None
  | Some data => Ok (Some (formatter cls data))
  end.

(** [BaseDao.insert]. *)
Definition insert (cls : dao_class) (unscoped : bool)
    (data : option (dict scalar)) : option stmt :=
  match data with
  | None => None
  | Some data => Some (Insert (reformatter cls unscoped data))
  end.

(** [getattr(table.c, key)] once [hasattr(table.c, key)] has
    answered yes. *)
Definition attribute_of (t : table) (key : string) : attribute :=
  if is_member t key then Member key else Column key.

(** The where loop shared by [update] and [delete]. *)
Definition where_known (t : table) (where_dict : dict pyval) : list pred :=
  fold_left (fun conds kv =>
               if hasattr_c t (fst kv)
               then conds ++ [equals (attribute_of t (fst kv)) (snd kv)]
               else conds)
            where_dict [].

(** [BaseDao.update]. *)
Definition update (cls : dao_class) (unscoped : bool)
    (where_dict : option (dict pyval)) (data : dict scalar) (t : table)
  : stmt :=
  let where_dict := match where_dict with None => [] | Some w => w end in
  let where_dict := reformatter cls unscoped where_dict in
  let data := reformatter cls unscoped data in
  Update (where_known t where_dict) data.

(** [BaseDao.delete]. *)
Definition delete (cls : dao_class) (unscoped : bool)
    (where_dict : option (dict pyval)) (t : table) : stmt :=
  let where_dict := match where_dict with None => [] | Some w => w end in
  let where_dict := reformatter cls unscoped where_dict in
  Delete (where_known t where_dict).

(** [BusinessBaseDao.update]; [now] is [datetime.datetime.now()]. *)
Definition business_update (now : Z) (where_dict : option (dict pyval))
    (data : dict scalar) (unscoped : bool) (modify_by : string) (t : table)
  : stmt :=
  let data := dict_set "updated_at" (STime now) data in
  let data := dict_set "updated_by" (SStr modify_by) data in
  update BusinessBaseDao unscoped where_dict data t.

(** [BusinessBaseDao.delete]. *)
Definition business_delete (now : Z) (where_dict : option (dict pyval))
    (unscoped : bool) (modify_by : string) (t : table) : stmt :=
  let where_dict := match where_dict with None => [] | Some w => w end in
  let data := [] in
  let data := dict_set "deleted_at" (STime now) data in
  let data := dict_set "updated_by" (SStr modify_by) data in
  update BusinessBaseDao unscoped (Some where_dict) data t.

(** [BusinessBaseDao.insert]. *)
Definition business_insert (now : Z) (data : option (dict scalar))
    (modify_by : string) (unscoped : bool) : option stmt :=
  let data := match data with None => [] | Some d => d end in
  let data := dict_set "created_at" (STime now) data in
  let data := dict_set "created_by" (SStr modify_by) data in
  insert BusinessBaseDao unscoped (Some data).

End AsyncEasyapi.

(* ===================================================================== *)
(** ** async_easyapi/controller.py *)
(* ===================================================================== *)

Module Controller.

(** [cls.__dao__] as the controller sees it: each call either returns or
    raises. *)
Record dao : Type := mkDao {
  dao_query : dict pyval -> option (dict Z) -> option (dict scalar)
              -> result (list row);
  dao_count : dict pyval -> result Z;
  dao_insert : dict scalar -> result Z;
  dao_update : dict pyval -> dict scalar -> result Z;
  dao_delete : dict pyval -> result Z
}.

(** [except (OperationalError, IntegrityError, DataError) as e:
       raise BusinessError(code=500, http_code=500, err_info=str(e))]. *)
Definition caught (e : exn) : bool :=
  match e with
  | OperationalError _ | IntegrityError _ | DataError _ => true
  | _ => false
  end.

Definition guarded {A} (r : result A) : result A :=
  match r with
  | Ok a => Ok a
  | Raise e => if caught e then Raise (BusinessError 500 500 (str e))
               else Raise e
  end.

(** [asyncio.gather(a, b)]: both results, or the exception that came
    first; [b_first] says which one did when both raise. *)
Definition gather {A B} (b_first : bool) (a : result A) (b : result B)
  : result (A * B) :=
  match a, b with
  | Ok x, Ok y => Ok (x, y)
  | Raise e, Ok _ => Raise e
  | Ok _, Raise e => Raise e
  | Raise ea, Raise eb => Raise (if b_first then eb else ea)
  end.

(** [cls.__validator__.validate], when the controller has a
    validator: it returns an error text or [None], or raises, like any
    call. *)
Definition validator : Type := dict scalar -> result (option string).

(** The validation block of [insert] and [update]; it stands outside
    their [try]. *)
Definition validate (v : option validator) (data : dict scalar)
  : result unit :=
  match v with
  | None => Ok tt
  | Some check =>
      err <- check data ;;
      match err with
      | Some err => Raise (BusinessError 500 200 err)
      | None => Ok tt
      end
  end.

Definition get (d : dao) (id : Z) : result (option row) :=
  let query := [("id", PScalar (SInt id))] in
  data <- guarded (dao_query d query None None) ;;
  match data with
  | [] => Ok None
  | r :: _ => Ok (Some r)
  end.

Definition query (d : dao) (b_first : bool) (q : dict pyval)
    (pager : option (dict Z)) (sorter : option (dict scalar))
  : result (list row * Z) :=
  guarded (gather b_first (dao_query d q pager sorter) (dao_count d q)).

Definition insert (d : dao) (v : option validator) (data : dict scalar)
  : result Z :=
  _ <- validate v data ;;
  guarded (dao_insert d data).

Definition update (d : dao) (v : option validator) (id : Z)
    (data : dict scalar) : result Z :=
  _ <- validate v data ;;
  let query := [("id", PScalar (SInt id))] in
  guarded (dao_update d query data).

Definition delete (d : dao) (id : Z) : result Z :=
  let query := [("id", PScalar (SInt id))] in
  guarded (dao_delete d query).

End Controller.

(* ===================================================================== *)
(** ** async_esayapi/dao.py *)
(* ===================================================================== *)

Module AsyncEsayapi.

Import AsyncEasyapi.

(** [__aexit__] of this variant: no [finally], the connection is never
    closed. *)
Definition aexit (d : driver) (exc : option exn) : io unit :=
  try_except (await d Commit)
             (fun e => io_bind (await d Rollback) (fun _ => raise e)).

Definition transaction {A} (d : driver) (body : io A) : io A :=
  async_with (aexit d) d body.

(** [for v in values]: a list gives its elements, a string its
    characters, anything else is not iterable. *)
Definition iterate (values : pyval) : result (list scalar) :=
  match values with
  | PList l => Ok l
  | PScalar (SStr s) =>
      Ok (map (fun c => SStr (String c EmptyString)) (list_ascii_of_string s))
  | PScalar _ => Raise TypeError
  end.

(** [.like(v)] in [query], [.like("%" + v)] in [count]. *)
Inductive like_style : Type := LikeAsIs | LikePercentBefore.

(** The argument and the call of [like]: the concatenation needs a
    string; the call itself takes any value but [None], [True] and
    [False], which SQLAlchemy refuses. *)
Definition like_pattern (st : like_style) (v : scalar) : result scalar :=
  match st with
  | LikeAsIs =>
      match v with
      | SNone | SBool _ => Raise ArgumentError
      | _ => Ok v
      end
  | LikePercentBefore =>
      match v with
      | SStr s => Ok (SStr (String.append "%" s))
      | _ => Raise TypeError
      end
  end.

Definition each_value (values : pyval) (body : scalar -> select -> result select)
    (sql : select) : result select :=
  vs <- iterate values ;; for_each vs body sql.

Definition like_clause (st : like_style) (t : table) (col : string)
    (v : scalar) : result pred :=
  a <- getattr_c t col ;;
  c <- method_of "like" a ;;
  pat <- like_pattern st v ;;
  Ok (PLike c pat).

(** One pass of the filter loop of [query] and [count]. *)
Definition filter_key (st : like_style) (t : table) (k : string)
    (values : pyval) (sql : select) : result select :=
  if negb (truthy values) then Ok sql
  else if startswith "_gt_" k then
    each_value values (fun v sql =>
      p <- cmp_clause t Gt (drop 4 k) v ;; Ok (where_ p sql)) sql
  else if startswith "_gte_" k then
    each_value values (fun v sql =>
      p <- cmp_clause t Ge (drop 5 k) v ;; Ok (where_ p sql)) sql
  else if startswith "_lt_" k then
    each_value values (fun v sql =>
      p <- cmp_clause t Lt (drop 4 k) v ;; Ok (where_ p sql)) sql
  else if startswith "_lte_" k then
    each_value values (fun v sql =>
      p <- cmp_clause t Le (drop 5 k) v ;; Ok (where_ p sql)) sql
  else if startswith "_like_" k then
    each_value values (fun v sql =>
      p <- like_clause st t (drop 6 k) v ;; Ok (where_ p sql)) sql
  else
    a <- getattr_c t k ;;
    c <- method_of "in_" a ;;
    vs <- iterate values ;;
    Ok (where_ (PIn c vs) sql).

Fixpoint filter_items (st : like_style) (t : table) (query : dict pyval)
    (sql : select) : result select :=
  match query with
  | [] => Ok sql
  | (k, values) :: rest =>
      sql' <- filter_key st t k values sql ;; filter_items st t rest sql'
  end.

(** [if query: for k, values in query.items(): ...]. *)
Definition query_filter (st : like_style) (t : table)
    (query : option (dict pyval)) (sql : select) : result select :=
  match query with
  | None | Some [] => Ok sql
  | Some q => filter_items st t q sql
  end.

End AsyncEsayapi.

(* ===================================================================== *)
(** ** easyapi/dao.py *)
(* ===================================================================== *)

Module Easyapi.

Definition ignore_columns : list string :=
  ["created_at"; "deleted_at"; "updated_at"].

Definition is_ignored (key : string) : bool :=
  existsb (String.eqb key) ignore_columns.

(** [BusinessBaseDao.formatter]. *)
Definition formatter `{JsonCodec} (data : row) : row :=
  let new_data :=
    fold_left (fun acc kv =>
                 if negb (is_ignored (fst kv))
                 then dict_set (fst kv) (snd kv) acc
                 else acc)
              data [] in
  type_to_json new_data.

(** [BusinessBaseDao.reformatter]: here [unscoped] is read from the data
    itself. *)
Definition reformatter (data : row) : row :=
  let new_data := dict_copy data in
  let unscoped := match dict_get "unscoped" data with
                  | Some v => scalar_truthy v
                  | None => false
                  end in
  if negb unscoped && negb (dict_mem "deleted_at" data)
  then dict_set "deleted_at" SNone new_data
  else new_data.

End Easyapi.

(* ===================================================================== *)
(** ** The conjuncts of a filter, apart from the query *)
(* ===================================================================== *)

Module Clauses.

Import AsyncEasyapi.

(** The expressions of a loop, in order, up to the first that raises. *)
Fixpoint traverse {A B} (f : A -> result B) (xs : list A) : result (list B) :=
  match xs with
  | [] => Ok []
  | x :: rest => y <- f x ;; ys <- traverse f rest ;; Ok (y :: ys)
  end.

(** What one key of [search_sql] hands to [where], pass by pass. *)
Definition key_clauses (t : table) (k : string) (v : pyval)
  : result (list pred) :=
  let values := as_list v in
  if startswith "_gt_" k then traverse (cmp_clause t Gt (drop 4 k)) values
  else if startswith "_gte_" k then traverse (cmp_clause t Ge (drop 5 k)) values
  else if startswith "_lt_" k then traverse (cmp_clause t Lt (drop 4 k)) values
  else if startswith "_lte_" k then traverse (cmp_clause t Le (drop 5 k)) values
  else if startswith "_like_" k then traverse (like_clause t (drop 6 k)) values
  else if startswith "_in_" k then
    p <- in_clause t (drop 4 k) values ;; Ok [p]
  else
    p <- eq_clause t k values ;; Ok [p].

Fixpoint clauses (t : table) (query : dict pyval) : result (list pred) :=
  match query with
  | [] => Ok []
  | (k, v) :: rest =>
      ps <- key_clauses t k v ;; qs <- clauses t rest ;; Ok (ps ++ qs)
  end.

End Clauses.

(* ===================================================================== *)
(** ** The filter language, as the specification words it *)
(* ===================================================================== *)

Module FilterSpec.

Import AsyncEasyapi.

Inductive operator : Type :=
| OpGt | OpGte | OpLt | OpLte | OpLike | OpIn | OpEq.

(** The prefix table of section 4.1. *)
Definition recognized : list (string * operator) :=
  [("_gt_", OpGt); ("_gte_", OpGte); ("_lt_", OpLt); ("_lte_", OpLte);
   ("_like_", OpLike); ("_in_", OpIn)].

(** The longest recognized prefix that matches, if any. *)
Definition longest_match (k : string) : option (string * operator) :=
  fold_left
    (fun best po =>
       if startswith (fst po) k
       then match best with
            | Some (p, _) =>
                if Nat.ltb (String.length p) (String.length (fst po))
                then Some po else best
            | None => Some po
            end
       else best)
    recognized None.

(** Operator and column of a key: strip the longest matching prefix. *)
Definition classify (k : string) : operator * string :=
  match longest_match k with
  | Some (p, op) => (op, drop (String.length p) k)
  | None => (OpEq, k)
  end.

Definition text (v : scalar) : string :=
  match v with SStr s => s | _ => "" end.

(** The predicates one key stands for, row by row of the table: one
    comparison per value, one [IN] over the whole list, or equality with
    the first value. *)
Definition key_preds (k : string) (v : pyval) : list pred :=
  let values := as_list v in
  let (op, col) := classify k in
  match op with
  | OpGt => map (PCmp Gt col) values
  | OpGte => map (PCmp Ge col) values
  | OpLt => map (PCmp Lt col) values
  | OpLte => map (PCmp Le col) values
  | OpLike => map (fun v => PLike col (SStr (String.append (text v) "%")))
                   values
  | OpIn => [PIn col values]
  | OpEq => match values with
            | v0 :: _ => [PEq col (PScalar v0)]
            | [] => []
            end
  end.

(** The conjuncts of a whole filter mapping. *)
Definition compile (query : dict pyval) : list pred :=
  flat_map (fun kv => key_preds (fst kv) (snd kv)) query.

Definition is_str (v : scalar) : bool :=
  match v with SStr _ => true | _ => false end.

Definition is_empty {A} (l : list A) : bool :=
  match l with [] => true | _ => false end.

(** A value an ordering comparison takes: anything but [None], [True]
    and [False]. *)
Definition comparable (v : scalar) : bool :=
  match v with
  | SNone | SBool _ => false
  | _ => true
  end.

(** A key the compiler can resolve against the table: its name is that
    of a column whenever it is looked up, an equality key has a value to
    compare with, [LIKE] values are strings, and the values of an
    ordering comparison are comparable. *)
Definition resolves (t : table) (k : string) (v : pyval) : bool :=
  let values := as_list v in
  let (op, col) := classify k in
  match op with
  | OpEq => is_column t col && negb (is_empty values)
  | OpIn => is_column t col
  | OpLike => is_empty values || (is_column t col && forallb is_str values)
  | _ => is_empty values || (is_column t col && forallb comparable values)
  end.

Definition well_formed (t : table) (query : dict pyval) : bool :=
  forallb (fun kv => resolves t (fst kv) (snd kv)) query.

(** The column a key names once its prefix is stripped. *)
Definition column (k : string) : string := snd (classify k).

(** The operators compiled by a loop over the values. *)
Definition is_loop (op : operator) : bool :=
  match op with
  | OpGt | OpGte | OpLt | OpLte | OpLike => true
  | OpIn | OpEq => false
  end.

(** The four ordering comparisons among them. *)
Definition is_ordering (op : operator) : bool :=
  match op with
  | OpGt | OpGte | OpLt | OpLte => true
  | OpLike | OpIn | OpEq => false
  end.

(** A key without recognized prefix. *)
Definition unprefixed (k : string) : bool :=
  match longest_match k with None => true | Some _ => false end.

Definition is_scalar (v : pyval) : bool :=
  match v with PScalar _ => true | PList _ => false end.

(** A where-condition that [update] and the reads understand alike:
    whatever key is a column of the table is a bare column name and
    carries one scalar.  ([update] compares the raw key with the raw
    value and passes over every key that is no column.) *)
Definition plain_where (t : table) (where_dict : dict pyval) : bool :=
  forallb (fun kv =>
             if hasattr_c t (fst kv)
             then unprefixed (fst kv) && is_scalar (snd kv)
             else true)
          where_dict.

(** Whether compiling the key looks its column up at all: a comparison
    loop does so once per value, hence never for an empty list. *)
Definition looks_up (k : string) (v : pyval) : bool :=
  match fst (classify k) with
  | OpIn | OpEq => true
  | _ => negb (is_empty (as_list v))
  end.

End FilterSpec.

(* ===================================================================== *)
(** ** The metaclass of the data-access classes *)
(* ===================================================================== *)

Module Meta.

(** A class attribute: [None], a string, or some other object (the
    database binding). *)
Inductive attr : Type :=
| ANone
| AStr (s : string)
| AObj (tag : string).

Definition attr_truthy (a : attr) : bool :=
  match a with
  | ANone => false
  | AStr s => negb (String.eqb s "")
  | AObj _ => true
  end.

(** [needle in hay]. *)
Definition contains (needle hay : string) : bool :=
  match String.index 0 needle hay with
  | Some _ => true
  | None => false
  end.

(** [name[:-3]]. *)
Definition but_last3 (name : string) : string :=
  String.substring 0 (String.length name - 3) name.

(** Outcome of [__new__]: the attributes of the class created, or
    [NotImplementedError]. *)
Inductive creation : Type :=
| Created (attrs : dict attr)
| NotImplemented (msg : string).

Section WithStr2hump.

(** [str2hump] is imported from [easyapi_tools.util] ([.util] in the
    other variants), which is not among the sources. *)
Variable str2hump : string -> string.

(** The body shared by the three [DaoMetaClass.__new__]; they differ in
    how they recognise the base class. *)
Definition dao_new (is_base : string -> bool) (name : string)
    (attrs : dict attr) : creation :=
  if is_base name then Created attrs
  else
    match dict_get "__db__" attrs with
    | None | Some ANone => NotImplemented "Should have __db__ value."
    | Some _ =>
        let derived := AStr (String.append (str2hump (but_last3 name)) "s") in
        let tablename :=
          match dict_get "__tablename__" attrs with
          | Some a => if attr_truthy a then a else derived
          | None => derived
          end in
        Created (dict_set "__tablename__" tablename attrs)
    end.

(** [async_easyapi] and [easyapi]: [if "BaseDao" in name]. *)
Definition DaoMetaClass_new : string -> dict attr -> creation :=
  dao_new (contains "BaseDao").

(** [async_esayapi]: [if name == "BaseDao"]. *)
Definition DaoMetaClass_new_esayapi : string -> dict attr -> creation :=
  dao_new (String.eqb "BaseDao").

End WithStr2hump.

End Meta.

(* ===================================================================== *)
(** ** easyapi/dao.py: the reads and writes of the synchronous variant *)
(* ===================================================================== *)

Module EasyapiDao.

Import AsyncEasyapi.

(** [BusinessBaseDao.reformatter] on a filter or where mapping; the
    flag [unscoped] is an entry of the mapping. *)
Definition business_reformatter (data : dict pyval) : dict pyval :=
  let new_data := dict_copy data in
  let unscoped := match dict_get "unscoped" data with
                  | Some v => truthy v
                  | None => false
                  end in
  if negb unscoped && negb (dict_mem "deleted_at" data)
  then dict_set "deleted_at" (PScalar SNone) new_data
  else new_data.

(** [cls.reformatter(query)] where [query] may still be [None]:
    [BaseDao] hands it back, [BusinessBaseDao] calls [None.items()]. *)
Definition reformatter (cls : dao_class) (data : option (dict pyval))
  : result (option (dict pyval)) :=
  match cls with
  | BaseDao => Ok data
  | BusinessBaseDao =>
      match data with
      | None => Raise (AttributeError "items")
      | Some d => Ok (Some (business_reformatter d))
      end
  end.

(** The head of every read: reformat, then filter when there is
    something to filter on.  [search_sql] is the function of
    [async_easyapi], line for line. *)
Definition filtered (cls : dao_class) (p : projection)
    (query : option (dict pyval)) (t : table) : result select :=
  query <- reformatter cls query ;;
  match query with
  | None | Some [] => Ok (select_from p)
  | Some q => search_sql (select_from p) q t
  end.

Definition get_sql (cls : dao_class) (query : option (dict pyval))
    (t : table) : result select :=
  filtered cls AllColumns query t.

Definition count_sql (cls : dao_class) (query : option (dict pyval))
    (t : table) : result select :=
  filtered cls CountStar query t.

(** The where mapping of [update] and [delete], after [reformatter]:
    [if where_dict is not None: for key, value in ...]. *)
Definition where_clause (cls : dao_class) (where_dict : option (dict pyval))
    (t : table) : result (list pred) :=
  where_dict <- reformatter cls where_dict ;;
  match where_dict with
  | None => Ok []
  | Some w => Ok (where_known t w)
  end.

(** [BaseDao.delete]. *)
Definition delete (cls : dao_class) (where_dict : option (dict pyval))
    (t : table) : result stmt :=
  conds <- where_clause cls where_dict t ;;
  Ok (Delete conds).

End EasyapiDao.

(* ===================================================================== *)
(** ** A small table to run the code on *)
(* ===================================================================== *)

Module Sample.

(** A business table with the audit columns. *)
Definition users : table :=
  mkTable "users"
    ["id"; "name"; "age"; "created_at"; "created_by"; "updated_at";
     "updated_by"; "deleted_at"]
    ["keys"; "values"; "items"; "get"; "contains_column"].

(** An engine that orders integers and timestamps, matches [LIKE]
    patterns of the form [prefix%], and refuses a list bound to [=]. *)
Definition order_holds (op : cmp) (a b : scalar) : bool :=
  match a, b with
  | SInt x, SInt y | STime x, STime y =>
      match op with
      | Gt => Z.ltb y x
      | Ge => Z.leb y x
      | Lt => Z.ltb x y
      | Le => Z.leb x y
      end
  | _, _ => false
  end.

Definition prefix_like (a pattern : scalar) : bool :=
  match a, pattern with
  | SStr s, SStr pattern =>
      String.prefix
        (String.substring 0 (String.length pattern - 1) pattern) s
  | _, _ => false
  end.

#[export] Instance engine : Backend := {
  compare_holds := order_holds;
  like_holds := prefix_like;
  eq_list_holds := fun _ _ => false
}.

(** A codec that turns a timestamp into its epoch number and leaves
    JSON-safe scalars alone. *)
Definition epoch_text (v : scalar) : scalar :=
  match v with
  | STime t => SInt t
  | other => other
  end.

#[export] Instance codec : JsonCodec := { json_scalar := epoch_text }.

Definition alice : row :=
  [("id", SInt 1); ("name", SStr "alice"); ("age", SInt 30);
   ("created_at", STime 100); ("created_by", SStr "root");
   ("updated_at", SNone); ("updated_by", SNone); ("deleted_at", SNone)].

Definition bob : row :=
  [("id", SInt 2); ("name", SStr "bob"); ("age", SInt 41);
   ("created_at", STime 110); ("created_by", SStr "root");
   ("updated_at", SNone); ("updated_by", SNone); ("deleted_at", SNone)].

Definition carol_deleted : row :=
  [("id", SInt 3); ("name", SStr "carol"); ("age", SInt 25);
   ("created_at", STime 120); ("created_by", SStr "root");
   ("updated_at", SNone); ("updated_by", SStr "root");
   ("deleted_at", STime 150)].

Definition stored : db := [alice; bob; carol_deleted].

(** A data layer every call of which raises [e]. *)
Definition failing_dao (e : exn) : Controller.dao :=
  Controller.mkDao (fun _ _ _ => Raise e) (fun _ => Raise e)
                   (fun _ => Raise e) (fun _ _ => Raise e) (fun _ => Raise e).

End Sample.

(* ===================================================================== *)
(** ** Facts about strings and dictionaries *)
(* ===================================================================== *)

Section DictFacts.

Context {A : Type}.
Implicit Types (d : dict A) (k : string) (v : A).

Lemma dict_get_set k k' v d :
  dict_get k (dict_set k' v d) =
  if String.eqb k k' then Some v else dict_get k d.
Proof.
  induction d as [|[k0 v0] d IH]; simpl.
  - reflexivity.
  - destruct (String.eqb k' k0) eqn:E; simpl.
    + apply String.eqb_eq in E; subst k0.
      destruct (String.eqb k k'); reflexivity.
    + rewrite IH. destruct (String.eqb k k0) eqn:E0; [|reflexivity].
      apply String.eqb_eq in E0; subst k0.
      destruct (String.eqb k k') eqn:E1; [|reflexivity].
      apply String.eqb_eq in E1; subst k'.
      rewrite String.eqb_refl in E; discriminate.
Qed.

Lemma dict_get_None k d : dict_get k d = None <-> ~ In k (keys d).
Proof.
  induction d as [|[k0 v0] d IH]; simpl.
  - tauto.
  - destruct (String.eqb k k0) eqn:E.
    + apply String.eqb_eq in E; subst. split; [discriminate|tauto].
    + apply String.eqb_neq in E. rewrite IH. split.
      * intros H [H1|H1]; [congruence|tauto].
      * tauto.
Qed.

Lemma dict_set_fresh k v d :
  ~ In k (keys d) -> dict_set k v d = d ++ [(k, v)].
Proof.
  induction d as [|[k0 v0] d IH]; simpl; intros H.
  - reflexivity.
  - destruct (String.eqb k k0) eqn:E.
    + apply String.eqb_eq in E; subst; tauto.
    + rewrite IH by tauto. reflexivity.
Qed.

Lemma keys_app d1 d2 : keys (d1 ++ d2) = keys d1 ++ keys d2.
Proof. apply map_app. Qed.

(** Copying entry by entry rebuilds a dictionary as it was. *)
Lemma copy_onto d : forall acc,
  NoDup (keys acc ++ keys d) ->
  fold_left (fun acc kv => dict_set (fst kv) (snd kv) acc) d acc = acc ++ d.
Proof.
  induction d as [|[k0 v0] d IH]; simpl; intros acc H.
  - now rewrite app_nil_r.
  - rewrite dict_set_fresh.
    + rewrite IH.
      * now rewrite <- app_assoc.
      * rewrite keys_app; simpl. rewrite <- app_assoc. exact H.
    + apply NoDup_remove_2 in H. intros Hin; apply H, in_or_app; now left.
Qed.

Lemma dict_copy_id d : dict_wf d -> dict_copy d = d.
Proof. intros H. unfold dict_copy. now rewrite copy_onto. Qed.

Lemma dict_mem_false k d : dict_mem k d = false <-> ~ In k (keys d).
Proof.
  unfold dict_mem. rewrite <- dict_get_None.
  destruct (dict_get k d); split; congruence.
Qed.

Lemma dict_get_app k d1 d2 :
  dict_get k (d1 ++ d2) =
  match dict_get k d1 with Some v => Some v | None => dict_get k d2 end.
Proof.
  induction d1 as [|[k0 v0] d1 IH]; simpl; [reflexivity|].
  destruct (String.eqb k k0); [reflexivity|exact IH].
Qed.

Lemma dict_get_In k v d : dict_get k d = Some v -> In (k, v) d.
Proof.
  induction d as [|[k0 v0] d IH]; simpl; [discriminate|].
  destruct (String.eqb k k0) eqn:E.
  - apply String.eqb_eq in E; subst. intros [= ->]; now left.
  - auto.
Qed.

Lemma In_dict_get k v d : dict_wf d -> In (k, v) d -> dict_get k d = Some v.
Proof.
  unfold dict_wf.
  induction d as [|[k0 v0] d IH]; simpl; [tauto|].
  intros Hnd [H|H].
  - injection H as -> ->. now rewrite String.eqb_refl.
  - inversion Hnd as [|? ? Hn Hnd']; subst.
    destruct (String.eqb k k0) eqn:E.
    + apply String.eqb_eq in E; subst. exfalso; apply Hn.
      change k0 with (fst (k0, v)). now apply in_map.
    + auto.
Qed.

End DictFacts.

Section StringFacts.

(** Two prefixes of one string are prefixes of one another. *)
Lemma prefix_comparable (p q : string) : forall k,
  String.prefix p k = true -> String.prefix q k = true ->
  String.prefix p q = true \/ String.prefix q p = true.
Proof.
  revert q; induction p as [|a p IH]; intros q k Hp Hq.
  - left; destruct q; reflexivity.
  - destruct q as [|b q]; [right; reflexivity|].
    destruct k as [|c k]; [discriminate|].
    simpl in *.
    destruct (ascii_dec a c); [|discriminate].
    destruct (ascii_dec b c); [|discriminate].
    subst a b. destruct (ascii_dec c c); [|congruence].
    eauto.
Qed.

Lemma prefix_exclusive (p q k : string) :
  String.prefix p q = false -> String.prefix q p = false ->
  startswith p k = true -> startswith q k = false.
Proof.
  unfold startswith; intros Hpq Hqp Hp.
  destruct (String.prefix q k) eqn:Hq; [|reflexivity].
  destruct (prefix_comparable p q k Hp Hq); congruence.
Qed.

End StringFacts.

(* ===================================================================== *)
(** ** The filter compiler *)
(* ===================================================================== *)

Section FilterCompiler.

Import AsyncEasyapi FilterSpec.

Lemma add_wheres_nil sql : add_wheres [] sql = sql.
Proof. destruct sql; unfold add_wheres; simpl. now rewrite app_nil_r. Qed.

Lemma add_wheres_app ps qs sql :
  add_wheres qs (add_wheres ps sql) = add_wheres (ps ++ qs) sql.
Proof. unfold add_wheres; simpl. now rewrite app_assoc. Qed.

Lemma where_add p sql : where_ p sql = add_wheres [p] sql.
Proof. reflexivity. Qed.

Lemma substring_all s : String.substring 0 (String.length s) s = s.
Proof. induction s; simpl; congruence. Qed.

(** The if-chain of [search_sql] picks the longest matching prefix. *)
Lemma classify_chain k :
  classify k =
  if startswith "_gt_" k then (OpGt, drop 4 k)
  else if startswith "_gte_" k then (OpGte, drop 5 k)
  else if startswith "_lt_" k then (OpLt, drop 4 k)
  else if startswith "_lte_" k then (OpLte, drop 5 k)
  else if startswith "_like_" k then (OpLike, drop 6 k)
  else if startswith "_in_" k then (OpIn, drop 4 k)
  else (OpEq, k).
Proof.
  unfold classify, longest_match, recognized; simpl.
  destruct (startswith "_gt_" k) eqn:E1.
  { rewrite (prefix_exclusive "_gt_" "_gte_" k), (prefix_exclusive "_gt_" "_lt_" k),
      (prefix_exclusive "_gt_" "_lte_" k), (prefix_exclusive "_gt_" "_like_" k),
      (prefix_exclusive "_gt_" "_in_" k) by (reflexivity || exact E1).
    reflexivity. }
  destruct (startswith "_gte_" k) eqn:E2.
  { rewrite (prefix_exclusive "_gte_" "_lt_" k),
      (prefix_exclusive "_gte_" "_lte_" k), (prefix_exclusive "_gte_" "_like_" k),
      (prefix_exclusive "_gte_" "_in_" k) by (reflexivity || exact E2).
    reflexivity. }
  destruct (startswith "_lt_" k) eqn:E3.
  { rewrite (prefix_exclusive "_lt_" "_lte_" k), (prefix_exclusive "_lt_" "_like_" k),
      (prefix_exclusive "_lt_" "_in_" k) by (reflexivity || exact E3).
    reflexivity. }
  destruct (startswith "_lte_" k) eqn:E4.
  { rewrite (prefix_exclusive "_lte_" "_like_" k),
      (prefix_exclusive "_lte_" "_in_" k) by (reflexivity || exact E4).
    reflexivity. }
  destruct (startswith "_like_" k) eqn:E5.
  { rewrite (prefix_exclusive "_like_" "_in_" k) by (reflexivity || exact E5).
    reflexivity. }
  destruct (startswith "_in_" k); reflexivity.
Qed.

(** A loop of [where] calls adds the expressions it evaluates, and
    nothing when one of them raises. *)
Lemma for_each_traverse (f : scalar -> result pred) vs : forall sql,
  for_each vs (fun v sql => p <- f v ;; Ok (where_ p sql)) sql
  = (ps <- Clauses.traverse f vs ;; Ok (add_wheres ps sql)).
Proof.
  induction vs as [|v vs IH]; intros sql; simpl.
  - now rewrite add_wheres_nil.
  - destruct (f v) as [p|e]; simpl; [|reflexivity].
    rewrite IH. destruct (Clauses.traverse f vs) as [ps|e]; simpl; [|reflexivity].
    now rewrite where_add, add_wheres_app.
Qed.

(** One key: the query it returns is the query it was given with the
    conjuncts of the key appended. *)
Lemma search_key_clauses t k v sql :
  search_key t k v sql
  = (ps <- Clauses.key_clauses t k v ;; Ok (add_wheres ps sql)).
Proof.
  unfold search_key, Clauses.key_clauses.
  destruct (startswith "_gt_" k); [apply for_each_traverse|].
  destruct (startswith "_gte_" k); [apply for_each_traverse|].
  destruct (startswith "_lt_" k); [apply for_each_traverse|].
  destruct (startswith "_lte_" k); [apply for_each_traverse|].
  destruct (startswith "_like_" k); [apply for_each_traverse|].
  destruct (startswith "_in_" k).
  - destruct (in_clause t (drop 4 k) (as_list v)); reflexivity.
  - destruct (eq_clause t k (as_list v)); reflexivity.
Qed.

Lemma search_sql_clauses t query : forall sql,
  search_sql sql query t
  = (ps <- Clauses.clauses t query ;; Ok (add_wheres ps sql)).
Proof.
  induction query as [|[k v] q IH]; intros sql; simpl.
  - now rewrite add_wheres_nil.
  - rewrite search_key_clauses.
    destruct (Clauses.key_clauses t k v) as [ps|e]; simpl; [|reflexivity].
    rewrite IH. destruct (Clauses.clauses t q) as [qs|e]; simpl; [|reflexivity].
    now rewrite add_wheres_app.
Qed.

Lemma traverse_ok {A B} (f : A -> result B) (g : A -> B) vs :
  (forall v, In v vs -> f v = Ok (g v)) ->
  Clauses.traverse f vs = Ok (map g vs).
Proof.
  induction vs as [|v vs IH]; intros H; simpl; [reflexivity|].
  rewrite (H v) by now left. simpl. rewrite IH; [reflexivity|].
  intros v' Hv'. apply H. now right.
Qed.

Lemma getattr_column t c : is_column t c = true -> getattr_c t c = Ok (Column c).
Proof.
  unfold is_column, getattr_c. intros H. apply andb_prop in H as [Hm Hc].
  apply negb_true_iff in Hm. now rewrite Hm, Hc.
Qed.

Lemma is_column_hasattr t c : is_column t c = true -> hasattr_c t c = true.
Proof.
  unfold is_column, hasattr_c. intros H. apply andb_prop in H as [_ Hc].
  rewrite Hc. apply orb_true_r.
Qed.

Lemma is_column_attribute t c :
  is_column t c = true -> attribute_of t c = Column c.
Proof.
  unfold is_column, attribute_of. intros H. apply andb_prop in H as [Hm _].
  apply negb_true_iff in Hm. now rewrite Hm.
Qed.

Lemma getattr_missing t c :
  hasattr_c t c = false -> getattr_c t c = Raise (AttributeError c).
Proof.
  unfold hasattr_c, getattr_c. intros H. apply orb_false_elim in H as [Hm Hc].
  now rewrite Hm, Hc.
Qed.

Lemma cmp_loop t op col values :
  is_empty values || (is_column t col && forallb comparable values) = true ->
  Clauses.traverse (cmp_clause t op col) values = Ok (map (PCmp op col) values).
Proof.
  destruct values as [|v0 vs]; [reflexivity|]. cbn [is_empty orb].
  intros H. apply andb_prop in H as [Hc Hv].
  apply traverse_ok. intros v Hin.
  unfold cmp_clause. rewrite getattr_column by exact Hc. simpl.
  rewrite forallb_forall in Hv. specialize (Hv v Hin). now destruct v.
Qed.

Lemma like_loop t col values :
  is_empty values || (is_column t col && forallb is_str values) = true ->
  Clauses.traverse (like_clause t col) values
  = Ok (map (fun v => PLike col (SStr (String.append (text v) "%"))) values).
Proof.
  destruct values as [|v0 vs]; [reflexivity|]. cbn [is_empty orb].
  intros H. apply andb_prop in H as [Hc Hv].
  apply traverse_ok. intros v Hin.
  unfold like_clause. rewrite getattr_column by exact Hc. simpl.
  rewrite forallb_forall in Hv. specialize (Hv v Hin).
  destruct v; try discriminate. reflexivity.
Qed.

(** One key: what [search_sql] adds is what the table of operators says. *)
Lemma key_clauses_refines t k v :
  resolves t k v = true -> Clauses.key_clauses t k v = Ok (key_preds k v).
Proof.
  unfold resolves, key_preds, Clauses.key_clauses.
  rewrite classify_chain.
  destruct (startswith "_gt_" k); [apply cmp_loop|].
  destruct (startswith "_gte_" k); [apply cmp_loop|].
  destruct (startswith "_lt_" k); [apply cmp_loop|].
  destruct (startswith "_lte_" k); [apply cmp_loop|].
  destruct (startswith "_like_" k); [apply like_loop|].
  destruct (startswith "_in_" k).
  - intros Hc. unfold in_clause. rewrite getattr_column by exact Hc. reflexivity.
  - intros H. apply andb_prop in H as [Hc Hne].
    unfold eq_clause. rewrite getattr_column by exact Hc. simpl.
    destruct (as_list v); [discriminate|reflexivity].
Qed.

Lemma clauses_refines t query :
  well_formed t query = true -> Clauses.clauses t query = Ok (compile query).
Proof.
  induction query as [|[k v] q IH]; intros H; simpl; [reflexivity|].
  simpl in H. apply andb_prop in H as [Hk Hq].
  rewrite key_clauses_refines by exact Hk. simpl.
  now rewrite IH.
Qed.

Lemma search_key_refines t k v sql :
  resolves t k v = true ->
  search_key t k v sql = Ok (add_wheres (key_preds k v) sql).
Proof.
  intros H. rewrite search_key_clauses, key_clauses_refines by exact H.
  reflexivity.
Qed.

Lemma search_sql_refines t query : forall sql,
  well_formed t query = true ->
  search_sql sql query t = Ok (add_wheres (compile query) sql).
Proof.
  intros sql H. rewrite search_sql_clauses, clauses_refines by exact H.
  reflexivity.
Qed.

(** A clause is a conjunction. *)
Lemma satisfies_app `{Backend} ps qs r :
  satisfies (ps ++ qs) r = satisfies ps r && satisfies qs r.
Proof. apply forallb_app. Qed.

Lemma satisfies_compile `{Backend} query r :
  satisfies (compile query) r =
  forallb (fun kv => satisfies (key_preds (fst kv) (snd kv)) r) query.
Proof.
  induction query as [|[k v] q IH]; simpl; [reflexivity|].
  unfold compile in *; simpl. now rewrite satisfies_app, IH.
Qed.

(** Keys spelled prefix-then-column classify as the table says. *)
Lemma drop_prefix (p c : string) :
  drop (String.length p) (String.append p c) = c.
Proof.
  unfold drop. induction p as [|a p IH]; simpl.
  - rewrite Nat.sub_0_r. apply substring_all.
  - exact IH.
Qed.

Lemma startswith_append (p c : string) :
  startswith p (String.append p c) = true.
Proof.
  unfold startswith. induction p as [|a p IH]; simpl.
  - now destruct c.
  - destruct (ascii_dec a a); [exact IH|congruence].
Qed.

Lemma classify_prefixed c :
  classify (String.append "_gt_" c) = (OpGt, c)
  /\ classify (String.append "_gte_" c) = (OpGte, c)
  /\ classify (String.append "_lt_" c) = (OpLt, c)
  /\ classify (String.append "_lte_" c) = (OpLte, c)
  /\ classify (String.append "_like_" c) = (OpLike, c)
  /\ classify (String.append "_in_" c) = (OpIn, c).
Proof.
  repeat split; rewrite classify_chain;
    repeat match goal with
    | |- context [startswith ?p (String.append ?p ?c)] =>
        rewrite (startswith_append p c)
    | |- context [startswith ?q (String.append ?p ?c)] =>
        rewrite (prefix_exclusive p q (String.append p c))
          by (reflexivity || apply startswith_append)
    end;
    f_equal;
    first [ exact (drop_prefix "_gt_" c) | exact (drop_prefix "_gte_" c)
          | exact (drop_prefix "_lt_" c) | exact (drop_prefix "_lte_" c)
          | exact (drop_prefix "_like_" c) | exact (drop_prefix "_in_" c) ].
Qed.

End FilterCompiler.

(* ===================================================================== *)
(** ** Reads: filter, paging, ordering *)
(* ===================================================================== *)

Section Reads.

Import AsyncEasyapi FilterSpec.

Lemma well_formed_app t q1 q2 :
  well_formed t (q1 ++ q2) = well_formed t q1 && well_formed t q2.
Proof. apply forallb_app. Qed.

(** Whenever [search_sql] returns, it has only added conjuncts, and
    the same ones whatever query it was given. *)
Lemma search_sql_inv t query sql s :
  search_sql sql query t = Ok s ->
  exists ps, Clauses.clauses t query = Ok ps /\ s = add_wheres ps sql.
Proof.
  rewrite search_sql_clauses.
  destruct (Clauses.clauses t query) as [ps|e]; simpl; [|discriminate].
  intros [= <-]. eauto.
Qed.

Lemma filtered_clauses cls unscoped p query t :
  filtered cls unscoped p query t
  = (ps <- Clauses.clauses t
             (reformatter cls unscoped
                match query with Some q => q | None => [] end) ;;
     Ok (add_wheres ps (select_from p))).
Proof.
  unfold filtered.
  destruct (reformatter cls unscoped _) as [|kv q'] eqn:E.
  - reflexivity.
  - apply search_sql_clauses.
Qed.

Lemma filtered_inv cls unscoped p query t s :
  filtered cls unscoped p query t = Ok s ->
  exists ps, s = add_wheres ps (select_from p).
Proof.
  rewrite filtered_clauses.
  destruct (Clauses.clauses t _) as [ps|e]; simpl; [|discriminate].
  intros [= <-]. eauto.
Qed.

Lemma paginate_frame pager sql :
  wheres (paginate pager sql) = wheres sql
  /\ order_by_ (paginate pager sql) = order_by_ sql
  /\ proj (paginate pager sql) = proj sql.
Proof.
  unfold paginate. destruct pager as [pg|]; [|auto].
  destruct (dict_get "_per_page" pg) as [n|], (dict_get "_page" pg) as [p|];
    repeat match goal with |- context [Z.eqb ?a ?b] => destruct (Z.eqb a b) end;
    auto.
Qed.

Lemma ordered_inv a descending sql s :
  ordered a descending sql = Ok s ->
  exists c, a = Column c /\ s = order_by c descending sql.
Proof.
  unfold ordered. destruct descending, a as [c|m]; simpl;
    try discriminate; intros [= <-]; eauto.
Qed.

(** The lookup behind an ordering, for a name the collection does not
    claim for itself. *)
Lemma getattr_or_id_plain t name :
  is_column t "id" = true ->
  is_member t name = false ->
  getattr_or_id t (SStr name)
  = Ok (Column (if hasattr_c t name then name else "id")).
Proof.
  intros Hid Hm. unfold getattr_or_id.
  rewrite getattr_column by exact Hid. cbn [bind].
  unfold getattr_c, hasattr_c. rewrite Hm. cbn [orb].
  now destruct (existsb (String.eqb name) (columns t)).
Qed.

Lemma sort_inv sorter t sql s :
  sort sorter t sql = Ok s ->
  exists c d, s = order_by c d sql.
Proof.
  unfold sort.
  destruct (match dict_get "_desc" _ with Some v => scalar_truthy v | None => true end);
    destruct (getattr_or_id t _) as [a|e]; cbn [bind]; try discriminate;
    intros H; apply ordered_inv in H as (c & _ & ->); eauto.
Qed.

Lemma query_sql_inv cls unscoped query pager sorter t s :
  query_sql cls unscoped query pager sorter t = Ok s ->
  exists sql0,
    filtered cls unscoped AllColumns query t = Ok sql0
    /\ sort sorter t (paginate pager sql0) = Ok s
    /\ limit_ sql0 = None /\ offset_ sql0 = None /\ order_by_ sql0 = [].
Proof.
  unfold query_sql.
  destruct (filtered cls unscoped AllColumns query t) as [sql0|e] eqn:F;
    simpl; [|discriminate].
  intros H. exists sql0. split; [reflexivity|]. split; [exact H|].
  apply filtered_inv in F as [ps ->]. auto.
Qed.

Lemma sort_returns sorter t sql :
  is_column t "id" = true ->
  (forall srt v, sorter = Some srt -> dict_get "_order_by" srt = Some v ->
     exists name, v = SStr name /\ is_member t name = false) ->
  exists s, sort sorter t sql = Ok s.
Proof.
  intros Hid Hsort. unfold sort.
  set (srt := match sorter with Some s => s | None => [] end).
  assert (O : exists name,
            match dict_get "_order_by" srt with
            | Some v => v | None => SStr "id" end = SStr name
            /\ is_member t name = false).
  { destruct (dict_get "_order_by" srt) as [v|] eqn:G.
    - destruct sorter as [srt0|]; [|discriminate].
      exact (Hsort srt0 v eq_refl G).
    - exists "id". split; [reflexivity|].
      unfold is_column in Hid. apply andb_prop in Hid as [Hm _].
      now apply negb_true_iff in Hm. }
  destruct O as (name & -> & Hm).
  rewrite getattr_or_id_plain by assumption. cbn [bind].
  destruct (match dict_get "_desc" srt with
            | Some v => scalar_truthy v | None => true end); simpl; eauto.
Qed.

(** [query] builds its statement whenever the filter resolves, the
    table has an [id] column and the sorter names its column by a
    string that is no attribute of the collection itself. *)
Lemma query_sql_returns cls unscoped query pager sorter t :
  well_formed t (reformatter cls unscoped
                   match query with Some q => q | None => [] end) = true ->
  is_column t "id" = true ->
  (forall srt v, sorter = Some srt -> dict_get "_order_by" srt = Some v ->
     exists name, v = SStr name /\ is_member t name = false) ->
  exists s, query_sql cls unscoped query pager sorter t = Ok s.
Proof.
  intros Hwf Hid Hsort. unfold query_sql.
  rewrite filtered_clauses, clauses_refines by exact Hwf. cbn [bind].
  now apply sort_returns.
Qed.

End Reads.

(** C2.  Paging in [BaseDao.query].  Whenever the query is built: with
    no pager there is neither limit nor offset; with a per-page size
    alone the limit is that size and there is no offset; with a page
    alone the offset is [(page-1)*30] and the limit 30; with both the
    offset is [(page-1)*per_page] and the limit [per_page].  Page and
    per-page are the positive integers of the pager, so neither is 0. *)
Theorem query_paging :
  forall cls unscoped query pager sorter t s,
    AsyncEasyapi.query_sql cls unscoped query pager sorter t = Ok s ->
    (pager = None -> limit_ s = None /\ offset_ s = None)
    /\ (forall pg n, pager = Some pg -> dict_get "_per_page" pg = Some n ->
          n <> 0 -> limit_ s = Some n)
    /\ (forall pg n, pager = Some pg -> dict_get "_per_page" pg = Some n ->
          dict_get "_page" pg = None -> n <> 0 -> offset_ s = None)
    /\ (forall pg p, pager = Some pg -> dict_get "_per_page" pg = None ->
          dict_get "_page" pg = Some p -> p <> 0 ->
          offset_ s = Some ((p - 1) * 30) /\ limit_ s = Some 30)
    /\ (forall pg p n, pager = Some pg -> dict_get "_per_page" pg = Some n ->
          dict_get "_page" pg = Some p -> n <> 0 -> p <> 0 ->
          offset_ s = Some ((p - 1) * n) /\ limit_ s = Some n).
Proof.
  intros cls unscoped query pager sorter t s H.
  apply query_sql_inv in H as (sql0 & _ & Hs & Hl & Ho & _).
  apply sort_inv in Hs as (c & d & ->).
  unfold AsyncEasyapi.paginate. simpl.
  split; [intros ->; auto|].
  split.
  { intros pg n -> Hn Hz. rewrite Hn.
    apply Z.eqb_neq in Hz. rewrite Hz.
    destruct (dict_get "_page" pg) as [p|]; [|reflexivity].
    destruct (Z.eqb p 0); reflexivity. }
  split.
  { intros pg n -> Hn Hp Hz. rewrite Hn, Hp.
    apply Z.eqb_neq in Hz. rewrite Hz. exact Ho. }
  split.
  { intros pg p -> Hn Hp Hz. rewrite Hn, Hp.
    apply Z.eqb_neq in Hz. now rewrite Hz. }
  intros pg p n -> Hn Hp Hzn Hzp. rewrite Hn, Hp.
  apply Z.eqb_neq in Hzn, Hzp. now rewrite Hzn, Hzp.
Qed.

Lemma query_paging_witness :
  let pg := [("_page", 3); ("_per_page", 10)] in
  exists s,
    AsyncEasyapi.query_sql AsyncEasyapi.BaseDao false None (Some pg) None
      Sample.users = Ok s
    /\ offset_ s = Some 20 /\ limit_ s = Some 10.
Proof.
  intros pg.
  eexists. split; [reflexivity|].
  destruct (query_paging AsyncEasyapi.BaseDao false None (Some pg) None
              Sample.users _ eq_refl) as (_ & _ & _ & _ & H).
  apply (H pg 3 10); try reflexivity; discriminate.
Defined.







(* ===================================================================== *)
(** ** Unknown columns: strict reads, lenient writes *)
(* ===================================================================== *)

Section UnknownColumns.

Import AsyncEasyapi FilterSpec.

Lemma key_clauses_unknown t k v :
  hasattr_c t (column k) = false ->
  looks_up k v = true ->
  Clauses.key_clauses t k v = Raise (AttributeError (column k)).
Proof.
  unfold column, looks_up, Clauses.key_clauses. rewrite classify_chain.
  assert (L : forall col (f : string -> scalar -> result pred),
            (forall v, f col v = (a <- getattr_c t col ;; f col v)) ->
            hasattr_c t col = false ->
            negb (is_empty (as_list v)) = true ->
            Clauses.traverse (f col) (as_list v) = Raise (AttributeError col)).
  { intros col f Hf Hc Hv. destruct (as_list v) as [|v0 vs]; [discriminate|].
    simpl. rewrite Hf, getattr_missing by exact Hc. reflexivity. }
  assert (C : forall op col v,
            cmp_clause t op col v = (a <- getattr_c t col ;; cmp_clause t op col v)).
  { intros op col v0. unfold cmp_clause. now destruct (getattr_c t col). }
  assert (K : forall col v,
            like_clause t col v = (a <- getattr_c t col ;; like_clause t col v)).
  { intros col v0. unfold like_clause. now destruct (getattr_c t col). }
  destruct (startswith "_gt_" k); [apply (L _ (cmp_clause t Gt)); apply C|].
  destruct (startswith "_gte_" k); [apply (L _ (cmp_clause t Ge)); apply C|].
  destruct (startswith "_lt_" k); [apply (L _ (cmp_clause t Lt)); apply C|].
  destruct (startswith "_lte_" k); [apply (L _ (cmp_clause t Le)); apply C|].
  destruct (startswith "_like_" k); [apply (L _ (like_clause t)); apply K|].
  destruct (startswith "_in_" k); cbn [fst snd]; intros Hc _.
  - unfold in_clause. now rewrite getattr_missing.
  - unfold eq_clause. now rewrite getattr_missing.
Qed.

Lemma search_key_unknown t k v sql :
  hasattr_c t (column k) = false ->
  looks_up k v = true ->
  search_key t k v sql = Raise (AttributeError (column k)).
Proof.
  intros Hc Hl. now rewrite search_key_clauses, key_clauses_unknown.
Qed.

(** The compiler stops at the first key that fails. *)
Lemma search_sql_stops t pre k v post e : forall sql,
  well_formed t pre = true ->
  (forall sql, search_key t k v sql = Raise e) ->
  search_sql sql (pre ++ (k, v) :: post) t = Raise e.
Proof.
  induction pre as [|[k0 v0] pre IH]; intros sql Hwf Hk; simpl.
  - now rewrite Hk.
  - simpl in Hwf. apply andb_prop in Hwf as [H0 Hwf].
    rewrite search_key_refines by exact H0. simpl. now apply IH.
Qed.

(** What [reformatter] hands on, for a dictionary without repeated
    keys: the entries as they were, then perhaps [deleted_at: None]. *)
Lemma reformatter_shape {A} `{HasNone A} cls unscoped (d : dict A) :
  dict_wf d ->
  reformatter cls unscoped d =
  d ++ match cls with
       | BaseDao => []
       | BusinessBaseDao =>
           if negb unscoped && negb (dict_mem "deleted_at" d)
           then [("deleted_at", py_none)] else []
       end.
Proof.
  intros Hwf. destruct cls; simpl.
  - now rewrite app_nil_r.
  - rewrite dict_copy_id by exact Hwf.
    destruct unscoped; simpl; [now rewrite app_nil_r|].
    destruct (dict_mem "deleted_at" d) eqn:M; simpl.
    + now rewrite app_nil_r.
    + apply dict_set_fresh. now apply dict_mem_false.
Qed.

Lemma where_known_onto t d : forall acc,
  fold_left (fun conds kv =>
               if hasattr_c t (fst kv)
               then conds ++ [equals (attribute_of t (fst kv)) (snd kv)]
               else conds) d acc
  = acc ++ map (fun kv => equals (attribute_of t (fst kv)) (snd kv))
             (filter (fun kv => hasattr_c t (fst kv)) d).
Proof.
  induction d as [|[k v] d IH]; intros acc; simpl.
  - now rewrite app_nil_r.
  - rewrite IH. destruct (hasattr_c t k); simpl; [|reflexivity].
    now rewrite <- app_assoc.
Qed.

(** The where loop keeps the keys the collection answers to, in
    order. *)
Lemma where_known_filter t d :
  where_known t d =
  map (fun kv => equals (attribute_of t (fst kv)) (snd kv))
      (filter (fun kv => hasattr_c t (fst kv)) d).
Proof. unfold where_known. now rewrite where_known_onto. Qed.

Lemma where_known_app t d1 d2 :
  where_known t (d1 ++ d2) = where_known t d1 ++ where_known t d2.
Proof. now rewrite !where_known_filter, filter_app, map_app. Qed.

Lemma dict_wf_remove {A} (pre post : dict A) kv :
  dict_wf (pre ++ kv :: post) -> dict_wf (pre ++ post).
Proof.
  unfold dict_wf. rewrite !keys_app. simpl. apply NoDup_remove_1.
Qed.

Lemma dict_mem_remove {A} k k' (v : A) pre post :
  String.eqb k k' = false ->
  dict_mem k (pre ++ (k', v) :: post) = dict_mem k (pre ++ post).
Proof.
  intros E. unfold dict_mem. rewrite !dict_get_app. simpl. now rewrite E.
Qed.

(** A where key that is no column leaves the where clause as it would
    be without the key, whatever [reformatter] injects. *)
Lemma where_known_skips t cls unscoped pre k (v : pyval) post :
  dict_wf (pre ++ (k, v) :: post) ->
  hasattr_c t k = false ->
  where_known t (reformatter cls unscoped (pre ++ (k, v) :: post))
  = where_known t (reformatter cls unscoped (pre ++ post)).
Proof.
  intros Hwf Hk.
  rewrite !reformatter_shape by eauto using dict_wf_remove.
  rewrite !where_known_app.
  f_equal.
  - rewrite !where_known_filter. simpl. now rewrite Hk.
  - destruct cls; [reflexivity|].
    destruct (String.eqb "deleted_at" k) eqn:E.
    + apply String.eqb_eq in E; subst k.
      assert (M : dict_mem "deleted_at" (pre ++ ("deleted_at", v) :: post) = true).
      { unfold dict_mem. rewrite dict_get_app. simpl.
        now destruct (dict_get "deleted_at" pre). }
      rewrite M, andb_false_r.
      destruct (negb unscoped && negb (dict_mem "deleted_at" (pre ++ post)));
        [|reflexivity].
      unfold where_known. cbn [fold_left fst snd]. now rewrite Hk.
    + now rewrite dict_mem_remove.
Qed.

End UnknownColumns.

(** C3, as the code has it.  A filter key whose stripped remainder
    (and the key itself) is no attribute of the table's column
    collection, so neither a column nor a method of the collection, met
    after keys that resolve and with a column lookup to make: every
    read ([get], [first], [last], [query], [count]) fails with the
    attribute error naming the stripped remainder, the failure the
    specification calls SchemaError; whereas [update] and [delete]
    given the same key in their where-condition build exactly the
    statement they build without it. *)
Theorem unknown_column_asymmetry :
  forall t cls unscoped pre k (v : pyval) post,
    dict_wf (pre ++ (k, v) :: post) ->
    FilterSpec.well_formed t pre = true ->
    hasattr_c t (FilterSpec.column k) = false ->
    hasattr_c t k = false ->
    FilterSpec.looks_up k v = true ->
    let q := pre ++ (k, v) :: post in
    let err := AttributeError (FilterSpec.column k) in
    (AsyncEasyapi.get_sql cls unscoped (Some q) t = Raise err
     /\ (forall key, AsyncEasyapi.first_sql cls unscoped (Some q) key t = Raise err)
     /\ (forall key, AsyncEasyapi.last_sql cls unscoped (Some q) key t = Raise err)
     /\ (forall pager sorter,
           AsyncEasyapi.query_sql cls unscoped (Some q) pager sorter t = Raise err)
     /\ AsyncEasyapi.count_sql cls unscoped (Some q) t = Raise err)
    /\ (forall data,
          AsyncEasyapi.update cls unscoped (Some q) data t
          = AsyncEasyapi.update cls unscoped (Some (pre ++ post)) data t)
    /\ AsyncEasyapi.delete cls unscoped (Some q) t
       = AsyncEasyapi.delete cls unscoped (Some (pre ++ post)) t.
Proof.
  intros t cls unscoped pre k v post Hwf Hpre Hcol Hkey Hlook q err.
  assert (F : forall p, AsyncEasyapi.filtered cls unscoped p (Some q) t = Raise err).
  { intros p. unfold AsyncEasyapi.filtered.
    rewrite reformatter_shape by exact Hwf.
    unfold q. rewrite <- app_assoc. simpl.
    destruct (pre ++ (k, v) :: post ++ _) as [|kv rest] eqn:E.
    - destruct pre; discriminate.
    - rewrite <- E. apply search_sql_stops; [exact Hpre|].
      intros sql. now apply search_key_unknown. }
  split.
  { unfold AsyncEasyapi.get_sql, AsyncEasyapi.first_sql, AsyncEasyapi.last_sql,
      AsyncEasyapi.query_sql, AsyncEasyapi.count_sql.
    rewrite !F. repeat split. }
  split.
  - intros data. unfold AsyncEasyapi.update.
    unfold q. now rewrite where_known_skips.
  - unfold AsyncEasyapi.delete. unfold q. now rewrite where_known_skips.
Qed.

Lemma unknown_column_asymmetry_witness :
  let q := [("name", PScalar (SStr "bob")); ("_gt_height", PList [SInt 180])] in
  AsyncEasyapi.get_sql AsyncEasyapi.BaseDao false (Some q) Sample.users
    = Raise (AttributeError "height")
  /\ AsyncEasyapi.update AsyncEasyapi.BaseDao false (Some q)
       [("age", SInt 42)] Sample.users
     = Update [PEq "name" (PScalar (SStr "bob"))] [("age", SInt 42)].
Proof.
  intros q.
  assert (Hwf : dict_wf q).
  { unfold dict_wf, q; simpl.
    constructor; [|constructor; [|constructor]]; simpl; intuition discriminate. }
  destruct (unknown_column_asymmetry Sample.users AsyncEasyapi.BaseDao false
              [("name", PScalar (SStr "bob"))] "_gt_height"
              (PList [SInt 180]) [] Hwf eq_refl eq_refl eq_refl eq_refl)
    as ((Hget & _) & Hupd & _).
  split; [exact Hget|].
  etransitivity; [exact (Hupd [("age", SInt 42)])|reflexivity].
Defined.

(** C3 as stated fails: [height] and [keys] are no columns of the
    table, yet a comparison on [height] with an empty list compiles,
    its loop never looking the column up; and [keys], which the column
    collection has as a method, compiles in a read to a condition that
    is false, and is not skipped by [delete], which then removes
    nothing where it removes every row without the key. *)
Lemma unknown_column_read_succeeds :
  existsb (String.eqb "height") (columns Sample.users) = false
  /\ existsb (String.eqb "keys") (columns Sample.users) = false
  /\ AsyncEasyapi.get_sql AsyncEasyapi.BaseDao false
       (Some [("_gt_height", PList [])]) Sample.users
     = Ok (select_from AllColumns)
  /\ AsyncEasyapi.get_sql AsyncEasyapi.BaseDao false
       (Some [("keys", PScalar (SInt 5))]) Sample.users
     = Ok (where_ PFalse (select_from AllColumns))
  /\ AsyncEasyapi.delete AsyncEasyapi.BaseDao false
       (Some [("keys", PScalar (SInt 5))]) Sample.users
     = Delete [PFalse]
  /\ AsyncEasyapi.delete AsyncEasyapi.BaseDao false (Some []) Sample.users
     = Delete []
  /\ @execute Sample.engine (Delete [PFalse]) Sample.stored = Sample.stored
  /\ @execute Sample.engine (Delete []) Sample.stored = [].
Proof.
  repeat split.
Qed.

(* ===================================================================== *)
(** ** Stored rows under update and insert *)
(* ===================================================================== *)

Section StoredRows.

Import AsyncEasyapi FilterSpec.

Lemma keys_dict_set {A} k (v : A) d :
  keys (dict_set k v d) = if dict_mem k d then keys d else keys d ++ [k].
Proof.
  unfold dict_mem.
  induction d as [|[k0 v0] d IH]; simpl; [reflexivity|].
  destruct (String.eqb k k0) eqn:E; simpl; [reflexivity|].
  rewrite IH. now destruct (dict_get k d).
Qed.

Lemma dict_wf_set {A} k (v : A) d : dict_wf d -> dict_wf (dict_set k v d).
Proof.
  unfold dict_wf. intros H. rewrite keys_dict_set.
  destruct (dict_mem k d) eqn:M; [exact H|].
  apply dict_mem_false in M.
  apply NoDup_rev in H. rewrite <- (rev_involutive (keys d ++ [k])).
  apply NoDup_rev. rewrite rev_app_distr. simpl.
  constructor; [|exact H]. now rewrite <- in_rev.
Qed.

Lemma dict_wf_reformatter {A} `{HasNone A} cls unscoped (d : dict A) :
  dict_wf d -> dict_wf (reformatter cls unscoped d).
Proof.
  intros Hwf. destruct cls; simpl; [exact Hwf|].
  rewrite dict_copy_id by exact Hwf.
  destruct (negb unscoped && negb (dict_mem "deleted_at" d));
    [now apply dict_wf_set|exact Hwf].
Qed.

Lemma assign_get_other values : forall r c,
  ~ In c (keys values) -> dict_get c (assign values r) = dict_get c r.
Proof.
  unfold assign.
  induction values as [|[k v] vs IH]; intros r c Hc; simpl in *; [reflexivity|].
  rewrite IH by tauto. rewrite dict_get_set.
  destruct (String.eqb c k) eqn:E; [|reflexivity].
  apply String.eqb_eq in E. subst; tauto.
Qed.

Lemma assign_get_set values : forall r c v,
  dict_wf values -> dict_get c values = Some v ->
  dict_get c (assign values r) = Some v.
Proof.
  unfold assign, dict_wf.
  induction values as [|[k0 v0] vs IH]; intros r c v Hnd Hget; simpl in *;
    [discriminate|].
  inversion Hnd as [|? ? Hn Hnd']; subst.
  destruct (String.eqb c k0) eqn:E.
  - apply String.eqb_eq in E. subst k0. injection Hget as ->.
    change (fold_left _ vs ?a) with (assign vs a).
    rewrite assign_get_other by exact Hn.
    rewrite dict_get_set. now rewrite String.eqb_refl.
  - now apply IH.
Qed.

Lemma field_assign_other values r c :
  ~ In c (keys values) -> field (assign values r) c = field r c.
Proof. intros H. unfold field. now rewrite assign_get_other. Qed.

Lemma field_assign_set values r c v :
  dict_wf values -> dict_get c values = Some v ->
  field (assign values r) c = v.
Proof. intros Hwf H. unfold field. now rewrite (assign_get_set _ _ _ v). Qed.

(** A clause fails as soon as one conjunct does, and conversely. *)
Lemma satisfies_false_In `{Backend} conds r p :
  In p conds -> eval_pred r p = false -> satisfies conds r = false.
Proof.
  intros Hin Hp. unfold satisfies.
  destruct (forallb (eval_pred r) conds) eqn:E; [|reflexivity].
  rewrite forallb_forall in E. rewrite (E p Hin) in Hp. discriminate.
Qed.

Lemma satisfies_false_inv `{Backend} conds r :
  satisfies conds r = false -> exists p, In p conds /\ eval_pred r p = false.
Proof.
  unfold satisfies. induction conds as [|p ps IH]; simpl; [discriminate|].
  destruct (eval_pred r p) eqn:E; simpl.
  - intros Hps. destruct (IH Hps) as (p' & Hin & Hp'). eauto.
  - eauto.
Qed.

(** Equality with a scalar, read off the stored field. *)
Lemma eval_eq_scalar `{Backend} r c s :
  eval_pred r (PEq c (PScalar s)) = scalar_eqb (field r c) s.
Proof. simpl. destruct s, (field r c); reflexivity. Qed.

Lemma scalar_eqb_eq a b : scalar_eqb a b = true <-> a = b.
Proof.
  destruct a, b; simpl; split; intros E; try discriminate; try reflexivity;
    try (apply Bool.eqb_prop in E; now subst);
    try (apply Z.eqb_eq in E; now subst);
    try (apply String.eqb_eq in E; now subst);
    injection E as ->;
    auto using Bool.eqb_reflx, Z.eqb_refl, String.eqb_refl.
Qed.

(** An equality key of the filter shows up as a conjunct of the
    compiled clause. *)
Lemma compile_holds_eq query k s :
  In (k, PScalar s) query -> unprefixed k = true ->
  In (PEq k (PScalar s)) (compile query).
Proof.
  intros Hin Hk. unfold compile. apply in_flat_map.
  exists (k, PScalar s). split; [exact Hin|].
  unfold key_preds, classify, unprefixed in *. simpl.
  destruct (longest_match k); [discriminate|]. now left.
Qed.

Lemma where_known_In t d p :
  In p (where_known t d) ->
  exists k v,
    p = equals (attribute_of t k) v /\ In (k, v) d /\ hasattr_c t k = true.
Proof.
  rewrite where_known_filter, in_map_iff.
  intros ([k v] & <- & Hin). apply filter_In in Hin as [Hin Hc].
  exists k, v. auto.
Qed.

Lemma plain_where_In t d k v :
  plain_where t d = true -> In (k, v) d -> hasattr_c t k = true ->
  unprefixed k = true /\ exists s, v = PScalar s.
Proof.
  unfold plain_where. rewrite forallb_forall. intros H Hin Hc.
  specialize (H _ Hin). simpl in H. rewrite Hc in H.
  apply andb_prop in H as [Hu Hs]. split; [exact Hu|].
  destruct v; [eauto|discriminate].
Qed.

Lemma first_row_none `{Backend} s (rows : db) :
  (forall r, In r rows -> satisfies (wheres s) r = false) ->
  first_row s rows = None.
Proof.
  intros H0. unfold first_row.
  induction rows as [|r rows IH]; simpl; [reflexivity|].
  rewrite (H0 r) by now left. apply IH. intros r' Hr'. apply H0. now right.
Qed.

End StoredRows.

(* ===================================================================== *)
(** ** Soft delete *)
(* ===================================================================== *)

Section SoftDelete.

Import AsyncEasyapi FilterSpec.

Lemma filtered_compiles cls unscoped p query t :
  let q := reformatter cls unscoped
             match query with Some q => q | None => [] end in
  well_formed t q = true ->
  filtered cls unscoped p query t = Ok (add_wheres (compile q) (select_from p)).
Proof.
  intros q Hwf. unfold filtered. fold q.
  destruct q as [|kv q'] eqn:E.
  - reflexivity.
  - now apply search_sql_refines.
Qed.

Lemma well_formed_In t q k v :
  well_formed t q = true -> In (k, v) q -> resolves t k v = true.
Proof.
  unfold well_formed. rewrite forallb_forall. intros H Hin. exact (H _ Hin).
Qed.

Lemma deleted_at_unprefixed : classify "deleted_at" = (OpEq, "deleted_at").
Proof. reflexivity. Qed.

(** An unprefixed key of a filter that resolves names a column. *)
Lemma resolved_column t q k v :
  well_formed t q = true -> In (k, v) q -> unprefixed k = true ->
  is_column t k = true.
Proof.
  intros Hwf Hin Hu. pose proof (well_formed_In _ _ _ _ Hwf Hin) as R.
  unfold resolves, classify, unprefixed in *.
  destruct (longest_match k); [discriminate|].
  now apply andb_prop in R as [R _].
Qed.

(** A scoped read always carries a condition on [deleted_at]; unless the
    caller asked for rows deleted at the very instant [now], a row
    stamped [now] fails it. *)
Lemma scoped_read_excludes t (w : dict pyval) now :
  dict_wf w ->
  plain_where t w = true ->
  well_formed t (reformatter BusinessBaseDao false w) = true ->
  dict_get "deleted_at" w <> Some (PScalar (STime now)) ->
  exists s,
    In (PEq "deleted_at" (PScalar s))
       (compile (reformatter BusinessBaseDao false w))
    /\ s <> STime now.
Proof.
  intros Hwf Hplain Hres Hnow.
  rewrite reformatter_shape in * by exact Hwf. simpl negb in *. simpl andb in *.
  destruct (dict_mem "deleted_at" w) eqn:M; simpl in *.
  - rewrite app_nil_r in *. unfold dict_mem in M.
    destruct (dict_get "deleted_at" w) as [v|] eqn:G; [|discriminate].
    apply dict_get_In in G.
    assert (Hc : hasattr_c t "deleted_at" = true).
    { apply is_column_hasattr.
      now apply (resolved_column t w "deleted_at" v). }
    destruct (plain_where_In _ _ _ _ Hplain G Hc) as (Hu & s & ->).
    exists s. split; [now apply compile_holds_eq|congruence].
  - exists SNone. split; [|discriminate].
    apply compile_holds_eq; [|reflexivity].
    apply in_or_app; right; now left.
Qed.

(** Rows of the table after a business delete: none passes the scoped
    read of the same filter. *)
Lemma deleted_rows_invisible `{Backend} t (w : dict pyval) unscoped now who r :
  dict_wf w ->
  plain_where t w = true ->
  well_formed t (reformatter BusinessBaseDao false w) = true ->
  dict_get "deleted_at" w <> Some (PScalar (STime now)) ->
  let conds := where_known t (reformatter BusinessBaseDao unscoped w) in
  let values := [("deleted_at", STime now); ("updated_by", SStr who)] in
  satisfies (compile (reformatter BusinessBaseDao false w))
            (if satisfies conds r then assign values r else r) = false.
Proof.
  intros Hwf Hplain Hres Hnow conds values.
  destruct (satisfies conds r) eqn:S.
  - destruct (scoped_read_excludes t w now Hwf Hplain Hres Hnow) as (s & Hin & Hs).
    apply (satisfies_false_In _ _ _ Hin).
    rewrite eval_eq_scalar.
    rewrite (field_assign_set values r "deleted_at" (STime now)).
    + destruct (scalar_eqb (STime now) s) eqn:E; [|reflexivity].
      apply scalar_eqb_eq in E. congruence.
    + unfold dict_wf, values; simpl.
      constructor; [|constructor; [|constructor]]; simpl; intuition discriminate.
    + reflexivity.
  - apply satisfies_false_inv in S as (p & Hp & Hev).
    apply where_known_In in Hp as (k & v & -> & Hin & Hc).
    assert (Sub : forall kv, In kv w ->
              In kv (reformatter BusinessBaseDao false w)).
    { intros kv Hkv. rewrite reformatter_shape by exact Hwf.
      apply in_or_app; now left. }
    rewrite reformatter_shape in Hin by exact Hwf.
    apply in_app_or in Hin as [Hin|Hin].
    + destruct (plain_where_In _ _ _ _ Hplain Hin Hc) as (Hu & s & ->).
      rewrite (is_column_attribute t k) in Hev
        by exact (resolved_column _ _ _ _ Hres (Sub _ Hin) Hu).
      apply (satisfies_false_In _ _ (PEq k (PScalar s))); [|exact Hev].
      apply compile_holds_eq; [|exact Hu]. now apply Sub.
    + destruct unscoped; simpl in Hin; [contradiction|].
      destruct (dict_mem "deleted_at" w) eqn:M; simpl in Hin; [contradiction|].
      destruct Hin as [[= <- <-]|[]].
      assert (Hin' : In ("deleted_at", PScalar SNone)
                        (reformatter BusinessBaseDao false w)).
      { rewrite reformatter_shape by exact Hwf. simpl. rewrite M. simpl.
        apply in_or_app; right; now left. }
      rewrite (is_column_attribute t "deleted_at") in Hev
        by exact (resolved_column _ _ _ _ Hres Hin' eq_refl).
      apply (satisfies_false_In _ _ (PEq "deleted_at" (PScalar SNone)));
        [|exact Hev].
      now apply compile_holds_eq.
Qed.

End SoftDelete.

(** C4, as the code has it.  The business delete builds an UPDATE,
    never a DELETE, whose values are [deleted_at] := now and
    [updated_by] := the caller.  For a where-condition the reads and
    [update] understand alike (each key the column collection has is a
    bare name carrying one scalar) and whose filter the read resolves
    (each key names a column), a business [get] of the same filter
    without [unscoped], run after that UPDATE, returns [None]: the read
    carries a condition on [deleted_at] that no stamped row passes.  A
    filter asking for the rows deleted at the very instant [now] is set
    aside. *)
Theorem soft_delete :
  forall (B : Backend) (J : JsonCodec) (t : table) (rows : db) (now : Z)
         (where_dict : option (dict pyval)) (unscoped : bool)
         (modify_by : string),
    let w := match where_dict with Some w => w | None => [] end in
    let statement :=
      AsyncEasyapi.business_delete now where_dict unscoped modify_by t in
    (statement =
       Update (AsyncEasyapi.where_known t
                 (AsyncEasyapi.reformatter AsyncEasyapi.BusinessBaseDao
                    unscoped w))
              [("deleted_at", STime now); ("updated_by", SStr modify_by)]
     /\ is_physical_delete statement = false)
    /\ (dict_wf w ->
        FilterSpec.plain_where t w = true ->
        FilterSpec.well_formed t
          (AsyncEasyapi.reformatter AsyncEasyapi.BusinessBaseDao false w) = true ->
        dict_get "deleted_at" w <> Some (PScalar (STime now)) ->
        AsyncEasyapi.get AsyncEasyapi.BusinessBaseDao false where_dict t
          (execute statement rows) = Ok None).
Proof.
  intros B J t rows now where_dict unscoped modify_by w statement.
  assert (E : statement =
              Update (AsyncEasyapi.where_known t
                        (AsyncEasyapi.reformatter AsyncEasyapi.BusinessBaseDao
                           unscoped w))
                     [("deleted_at", STime now); ("updated_by", SStr modify_by)]).
  { unfold statement, AsyncEasyapi.business_delete, AsyncEasyapi.update.
    fold w. f_equal. now destruct unscoped. }
  split; [split; [exact E|now rewrite E]|].
  intros Hwf Hplain Hres Hnow.
  unfold AsyncEasyapi.get, AsyncEasyapi.get_sql.
  rewrite filtered_compiles by exact Hres. fold w. cbn [bind].
  rewrite first_row_none; [reflexivity|].
  intros r' Hr'. rewrite E in Hr'. simpl in Hr'.
  apply in_map_iff in Hr' as (r & <- & _).
  simpl. now apply deleted_rows_invisible.
Qed.

Lemma soft_delete_witness :
  let w := [("name", PScalar (SStr "bob"))] in
  let get := @AsyncEasyapi.get Sample.engine Sample.codec
               AsyncEasyapi.BusinessBaseDao false (Some w) Sample.users in
  get Sample.stored <> Ok None
  /\ get (@execute Sample.engine
            (AsyncEasyapi.business_delete 200 (Some w) false "root"
               Sample.users) Sample.stored) = Ok None.
Proof.
  intros w get. split; [discriminate|].
  apply (soft_delete Sample.engine Sample.codec Sample.users Sample.stored 200
           (Some w) false "root").
  - unfold dict_wf, w; simpl. constructor; [|constructor]. simpl; tauto.
  - reflexivity.
  - reflexivity.
  - discriminate.
Defined.

(** C4 as stated fails: for the where-condition [{'height': 180}] on a
    table without that column the business delete passes over the key
    and stamps every live row, and the business [get] with the same
    filter raises instead of returning [None]; and for a where-condition
    asking for the rows deleted at the instant of the call, [get] hands
    such a row back. *)
Lemma soft_delete_get_raises :
  let w := [("height", PScalar (SInt 180))] in
  let statement :=
    AsyncEasyapi.business_delete 200 (Some w) false "root" Sample.users in
  let w' := [("deleted_at", PScalar (STime 150))] in
  let statement' :=
    AsyncEasyapi.business_delete 150 (Some w') false "root" Sample.users in
  statement
  = Update [PEq "deleted_at" (PScalar SNone)]
           [("deleted_at", STime 200); ("updated_by", SStr "root")]
  /\ map (fun r => field r "deleted_at")
         (@execute Sample.engine statement Sample.stored)
     = [STime 200; STime 200; STime 150]
  /\ @AsyncEasyapi.get Sample.engine Sample.codec AsyncEasyapi.BusinessBaseDao
       false (Some w) Sample.users
       (@execute Sample.engine statement Sample.stored)
     = Raise (AttributeError "height")
  /\ @AsyncEasyapi.get Sample.engine Sample.codec AsyncEasyapi.BusinessBaseDao
       false (Some w) Sample.users
       (@execute Sample.engine statement Sample.stored)
     <> Ok None
  /\ @AsyncEasyapi.get Sample.engine Sample.codec AsyncEasyapi.BusinessBaseDao
       false (Some w') Sample.users
       (@execute Sample.engine statement' Sample.stored)
     = Ok (Some [("id", SInt 3); ("name", SStr "carol"); ("age", SInt 25);
                 ("created_at", SInt 120); ("created_by", SStr "root");
                 ("updated_at", SNone); ("updated_by", SStr "root");
                 ("deleted_at", SInt 150)]).
Proof.
  cbv zeta. repeat split. discriminate.
Qed.

(* ===================================================================== *)
(** ** Audit stamping *)
(* ===================================================================== *)

Section AuditStamps.

Import AsyncEasyapi FilterSpec.

Lemma In_keys_set {A} c k (v : A) d :
  In c (keys (dict_set k v d)) -> c = k \/ In c (keys d).
Proof.
  rewrite keys_dict_set. destruct (dict_mem k d); [tauto|].
  intros H. apply in_app_or in H as [H|[H|[]]]; auto.
Qed.

(** Keys of what [reformatter] returns: those given, and perhaps
    [deleted_at]. *)
Lemma In_keys_reformatter {A} `{HasNone A} cls unscoped (d : dict A) c :
  dict_wf d ->
  In c (keys (reformatter cls unscoped d)) ->
  In c (keys d) \/ (c = "deleted_at" /\ cls = BusinessBaseDao /\ unscoped = false).
Proof.
  intros Hwf. rewrite reformatter_shape by exact Hwf.
  rewrite keys_app. intros Hin. apply in_app_or in Hin as [Hin|Hin]; [now left|].
  destruct cls; [destruct Hin|].
  destruct unscoped; simpl in Hin; [destruct Hin|].
  destruct (dict_mem "deleted_at" d); simpl in Hin; [destruct Hin|].
  destruct Hin as [<-|[]]. now right.
Qed.

Lemma dict_get_reformatter {A} `{HasNone A} cls unscoped (d : dict A) c v :
  dict_wf d -> dict_get c d = Some v ->
  dict_get c (reformatter cls unscoped d) = Some v.
Proof.
  intros Hwf G. rewrite reformatter_shape by exact Hwf.
  now rewrite dict_get_app, G.
Qed.

(** The values a business insert sends. *)
Lemma business_insert_values now data who unscoped :
  match data with Some d => dict_wf d | None => True end ->
  exists values,
    business_insert now data who unscoped = Some (Insert values)
    /\ dict_wf values
    /\ dict_get "created_at" values = Some (STime now)
    /\ dict_get "created_by" values = Some (SStr who).
Proof.
  intros Hwf. unfold business_insert, insert.
  set (d := match data with Some d => d | None => [] end).
  assert (Hd : dict_wf d).
  { unfold d. destruct data; [exact Hwf|constructor]. }
  set (d2 := dict_set "created_by" (SStr who)
               (dict_set "created_at" (STime now) d)).
  assert (Hd2 : dict_wf d2) by (unfold d2; auto using dict_wf_set).
  eexists. split; [reflexivity|].
  split; [now apply dict_wf_reformatter|].
  split; apply dict_get_reformatter; try exact Hd2;
    unfold d2; rewrite !dict_get_set; reflexivity.
Qed.

(** The values a business update sends, and the keys among them. *)
Lemma business_update_values now where_dict data unscoped who t :
  dict_wf data ->
  exists values,
    business_update now where_dict data unscoped who t
    = Update (where_known t (reformatter BusinessBaseDao unscoped
                match where_dict with Some w => w | None => [] end))
             values
    /\ dict_wf values
    /\ dict_get "updated_at" values = Some (STime now)
    /\ dict_get "updated_by" values = Some (SStr who)
    /\ (forall c, In c (keys values) ->
          In c (keys data) \/ c = "updated_at" \/ c = "updated_by"
          \/ (c = "deleted_at" /\ unscoped = false))
    /\ (unscoped = false -> ~ In "deleted_at" (keys data) ->
          dict_get "deleted_at" values = Some SNone).
Proof.
  intros Hwf. unfold business_update, update.
  set (d2 := dict_set "updated_by" (SStr who)
               (dict_set "updated_at" (STime now) data)).
  assert (Hd2 : dict_wf d2) by (unfold d2; auto using dict_wf_set).
  eexists. split; [reflexivity|].
  split; [now apply dict_wf_reformatter|].
  split; [apply dict_get_reformatter; [exact Hd2|];
          unfold d2; rewrite !dict_get_set; reflexivity|].
  split; [apply dict_get_reformatter; [exact Hd2|];
          unfold d2; rewrite !dict_get_set; reflexivity|].
  split.
  - intros c Hc. apply In_keys_reformatter in Hc as [Hc|(-> & _ & ->)];
      [|auto|exact Hd2].
    unfold d2 in Hc. apply In_keys_set in Hc as [->|Hc]; [auto|].
    apply In_keys_set in Hc as [->|Hc]; auto.
  - intros -> Hdel. rewrite reformatter_shape by exact Hd2.
    assert (G : dict_get "deleted_at" d2 = None).
    { unfold d2. rewrite !dict_get_set. simpl. now apply dict_get_None. }
    rewrite dict_get_app, G. unfold dict_mem. rewrite G. reflexivity.
Qed.

(** A scoped update whose where-condition leaves [deleted_at] alone
    selects only rows whose [deleted_at] is NULL. *)
Lemma scoped_update_selects_live `{Backend} t (w : dict pyval) r :
  dict_wf w ->
  dict_mem "deleted_at" w = false ->
  hasattr_c t "deleted_at" = true ->
  satisfies (where_known t (reformatter BusinessBaseDao false w)) r = true ->
  field r "deleted_at" = SNone.
Proof.
  intros Hwf M Hc S.
  rewrite reformatter_shape in S by exact Hwf. simpl in S. rewrite M in S.
  simpl in S. rewrite where_known_app, satisfies_app in S.
  apply andb_prop in S as [_ S].
  unfold where_known in S. cbn [fold_left fst snd] in S. rewrite Hc in S.
  unfold attribute_of in S.
  destruct (is_member t "deleted_at"); simpl in S; [discriminate|].
  destruct (field r "deleted_at"); try discriminate. reflexivity.
Qed.

End AuditStamps.

(** C8, as the code has it.  A business insert sends, and the table
    then stores, a row whose [created_at] is the current time (so not
    null) and whose [created_by] is [modify_by].  A business update sets
    [updated_at] and [updated_by] on the rows it selects and leaves
    [created_at] and every other field that [data] does not name as it
    was, [deleted_at] apart: a scoped update whose [data] does not name
    [deleted_at] assigns NULL to it as well, which leaves the field as
    it was when the call is unscoped or the where-condition does not
    itself name [deleted_at]. *)
Theorem audit_stamping :
  forall (B : Backend) (now : Z) (modify_by : string) (unscoped : bool),
    (forall data rows,
        match data with Some d => dict_wf d | None => True end ->
        exists values stored,
          AsyncEasyapi.business_insert now data modify_by unscoped
            = Some (Insert values)
          /\ execute (Insert values) rows = rows ++ [stored]
          /\ field stored "created_at" = STime now
          /\ field stored "created_at" <> SNone
          /\ field stored "created_by" = SStr modify_by)
    /\ (forall t where_dict data,
          let w := match where_dict with Some w => w | None => [] end in
          dict_wf data -> dict_wf w ->
          exists conds values,
            AsyncEasyapi.business_update now where_dict data unscoped
              modify_by t = Update conds values
            /\ forall r,
                 let r' := if satisfies conds r then assign values r else r in
                 (forall rows, In r rows ->
                    In r' (execute (Update conds values) rows))
                 /\ (satisfies conds r = true ->
                     field r' "updated_at" = STime now
                     /\ field r' "updated_by" = SStr modify_by)
                 /\ (~ In "created_at" (keys data) ->
                     field r' "created_at" = field r "created_at")
                 /\ (forall c, ~ In c (keys data) ->
                       c <> "updated_at" -> c <> "updated_by" ->
                       c <> "deleted_at" ->
                       field r' c = field r c)
                 /\ (~ In "deleted_at" (keys data) ->
                     unscoped = false -> satisfies conds r = true ->
                     field r' "deleted_at" = SNone)
                 /\ (~ In "deleted_at" (keys data) ->
                     unscoped = true
                     \/ (dict_mem "deleted_at" w = false
                         /\ hasattr_c t "deleted_at" = true) ->
                     field r' "deleted_at" = field r "deleted_at")).
Proof.
  intros B now modify_by unscoped. split.
  - intros data rows Hwf.
    destruct (business_insert_values now data modify_by unscoped Hwf)
      as (values & E & Hv & Hat & Hby).
    exists values, (assign values []).
    split; [exact E|]. split; [reflexivity|].
    rewrite (field_assign_set values [] "created_at" (STime now)) by assumption.
    rewrite (field_assign_set values [] "created_by" (SStr modify_by))
      by assumption.
    repeat split; discriminate.
  - intros t where_dict data w Hd Hw.
    destruct (business_update_values now where_dict data unscoped modify_by t Hd)
      as (values & E & Hv & Hat & Hby & Hkeys & Hdel).
    fold w in E.
    eexists; exists values. split; [exact E|].
    intros r r'.
    assert (Frame : forall c, ~ In c (keys data) ->
              c <> "updated_at" -> c <> "updated_by" -> c <> "deleted_at" ->
              field r' c = field r c).
    { intros c H1 H2 H3 H4. unfold r'.
      destruct (satisfies _ r); [|reflexivity].
      apply field_assign_other. intros Hc.
      destruct (Hkeys c Hc) as [?|[?|[?|[? _]]]]; contradiction. }
    split.
    { intros rows Hr. simpl. apply in_map_iff. exists r. split; [reflexivity|exact Hr]. }
    split.
    { intros S. unfold r'. rewrite S.
      now rewrite (field_assign_set values r "updated_at" (STime now)),
        (field_assign_set values r "updated_by" (SStr modify_by)). }
    split.
    { intros Hc. apply Frame; [exact Hc|discriminate..]. }
    split; [exact Frame|].
    split.
    { intros Hc Hu S. unfold r'. rewrite S.
      apply (field_assign_set values r "deleted_at" SNone); auto. }
    intros Hc Hscope. unfold r'.
    destruct (satisfies _ r) eqn:S; [|reflexivity].
    destruct unscoped.
    + apply field_assign_other. intros Hin.
      destruct (Hkeys _ Hin) as [?|[?|[?|[_ ?]]]];
        try contradiction; discriminate.
    + destruct Hscope as [?|[M Hcol]]; [discriminate|].
      rewrite (field_assign_set values r "deleted_at" SNone) by auto.
      symmetry. now apply (scoped_update_selects_live t w).
Qed.

Lemma audit_stamping_witness :
  (exists values stored,
      AsyncEasyapi.business_insert 300 (Some [("name", SStr "dave")]) "alice"
        false = Some (Insert values)
      /\ @execute Sample.engine (Insert values) Sample.stored
         = Sample.stored ++ [stored]
      /\ field stored "created_at" = STime 300
      /\ field stored "created_by" = SStr "alice")
  /\ (let statement :=
        AsyncEasyapi.business_update 300
          (Some [("name", PScalar (SStr "bob"))]) [("age", SInt 42)] false
          "alice" Sample.users in
      exists bob',
        In bob' (@execute Sample.engine statement Sample.stored)
        /\ field bob' "age" = SInt 42
        /\ field bob' "updated_by" = SStr "alice"
        /\ field bob' "created_at" = field Sample.bob "created_at").
Proof.
  pose proof (audit_stamping Sample.engine 300 "alice" false) as [Hins Hupd].
  split.
  - destruct (Hins (Some [("name", SStr "dave")]) Sample.stored)
      as (values & stored & E & X & Hat & _ & Hby).
    { unfold dict_wf; simpl. constructor; [|constructor]. simpl; tauto. }
    exists values, stored. auto.
  - intros statement.
    destruct (Hupd Sample.users (Some [("name", PScalar (SStr "bob"))])
                [("age", SInt 42)]) as (conds & values & E & H).
    { unfold dict_wf; simpl. constructor; [|constructor]. simpl; tauto. }
    { unfold dict_wf; simpl. constructor; [|constructor]. simpl; tauto. }
    destruct (H Sample.bob) as (Hin & Hset & Hcreated & _).
    injection E as <- <-.
    eexists. split; [apply (Hin Sample.stored); simpl; tauto|].
    split; [reflexivity|]. split.
    + apply Hset. reflexivity.
    + apply Hcreated. simpl. intuition discriminate.
Defined.

(* ===================================================================== *)
(** ** The transaction scope *)
(* ===================================================================== *)

Section TransactionScope.

Import AsyncEasyapi.

Variable d : driver.
Hypothesis acquired : d Acquire = None.
Hypothesis begun : d Begin = None.

(** Once entered, the scope always attempts the commit, whatever the
    enclosed block did. *)
Lemma commit_always_attempted {A} (body : io A) :
  In Commit (fst (transaction d body)).
Proof.
  unfold transaction, async_with, aenter, aexit, await, io_bind, try_finally,
    try_except, raise.
  rewrite acquired, begun.
  destruct body as [tr [a|e]]; destruct (d Commit), (d Rollback), (d Close);
    simpl; rewrite ?in_app_iff; simpl; tauto.
Qed.

(** Once entered, the scope closes the connection on every path. *)
Lemma connection_always_closed {A} (body : io A) :
  In Close (fst (transaction d body)).
Proof.
  unfold transaction, async_with, aenter, aexit, await, io_bind, try_finally,
    try_except, raise.
  rewrite acquired, begun.
  destruct body as [tr [a|e]]; destruct (d Commit), (d Rollback), (d Close);
    simpl; rewrite ?in_app_iff; simpl; tauto.
Qed.

(** Normal completion: commit, close, and the value of the block. *)
Lemma commits_on_success {A} (tr : list call) (a : A) :
  d Commit = None -> d Close = None ->
  transaction d (tr, Ok a) = ([Acquire; Begin] ++ tr ++ [Commit; Close], Ok a).
Proof.
  intros Hc Hx.
  unfold transaction, async_with, aenter, aexit, await, io_bind, try_finally,
    try_except, raise.
  now rewrite acquired, begun, Hc, Hx.
Qed.

(** A failing commit is followed by a rollback, then the close, and the
    commit failure is what the caller sees. *)
Lemma rollback_on_commit_failure {A} (tr : list call) (a : A) e :
  d Commit = Some e -> d Rollback = None -> d Close = None ->
  transaction d (tr, Ok a)
  = ([Acquire; Begin] ++ tr ++ [Commit; Rollback; Close], Raise e).
Proof.
  intros Hc Hr Hx.
  unfold transaction, async_with, aenter, aexit, await, io_bind, try_finally,
    try_except, raise.
  now rewrite acquired, begun, Hc, Hr, Hx.
Qed.

(** A failing rollback is what the caller sees, after the close. *)
Lemma rollback_failure_surfaces {A} (tr : list call) (a : A) e e' :
  d Commit = Some e -> d Rollback = Some e' -> d Close = None ->
  transaction d (tr, Ok a)
  = ([Acquire; Begin] ++ tr ++ [Commit; Rollback; Close], Raise e').
Proof.
  intros Hc Hr Hx.
  unfold transaction, async_with, aenter, aexit, await, io_bind, try_finally,
    try_except, raise.
  now rewrite acquired, begun, Hc, Hr, Hx.
Qed.

(** A failing block: the commit goes through all the same, nothing is
    rolled back, and the failure of the block is re-raised. *)
Lemma commits_on_failure {A} (tr : list call) e :
  d Commit = None -> d Close = None ->
  transaction d (tr, @Raise A e)
  = ([Acquire; Begin] ++ tr ++ [Commit; Close], Raise e).
Proof.
  intros Hc Hx.
  unfold transaction, async_with, aenter, aexit, await, io_bind, try_finally,
    try_except, raise.
  now rewrite acquired, begun, Hc, Hx.
Qed.

(** The older variant never closes the connection. *)
Lemma esayapi_never_closes {A} (body : io A) :
  ~ In Close (fst body) -> ~ In Close (fst (AsyncEsayapi.transaction d body)).
Proof.
  unfold AsyncEsayapi.transaction, AsyncEsayapi.aexit, async_with, aenter,
    await, io_bind, try_except, raise.
  rewrite acquired, begun.
  destruct body as [tr [a|e]]; destruct (d Commit), (d Rollback);
    simpl; rewrite ?in_app_iff; simpl; intuition discriminate.
Qed.

End TransactionScope.

(** C5 as stated fails.  The scope at work on a block that raised, over
    a driver none of whose calls fails: the commit is issued and no
    rollback is, and the failure of the block reaches the caller after
    the work has been committed; in [async_esayapi] the connection is
    moreover never closed. *)
Lemma transaction_commits_failed_block :
  let healthy : AsyncEasyapi.driver := fun _ => None in
  let failing_block : AsyncEasyapi.io unit := ([], Raise (UserError "boom")) in
  AsyncEasyapi.transaction healthy failing_block
    = ([AsyncEasyapi.Acquire; AsyncEasyapi.Begin; AsyncEasyapi.Commit;
        AsyncEasyapi.Close], Raise (UserError "boom"))
  /\ ~ In AsyncEasyapi.Rollback
         (fst (AsyncEasyapi.transaction healthy failing_block))
  /\ AsyncEsayapi.transaction healthy failing_block
     = ([AsyncEasyapi.Acquire; AsyncEasyapi.Begin; AsyncEasyapi.Commit],
        Raise (UserError "boom"))
  /\ ~ In AsyncEasyapi.Close
         (fst (AsyncEsayapi.transaction healthy (AsyncEasyapi.ret tt))).
Proof.
  cbv zeta. repeat split; simpl; intuition discriminate.
Qed.

(** C5, as the code has it.  Once the scope of [async_easyapi] has been
    entered, every exit attempts the commit, whether the enclosed
    operations completed or raised, and closes the connection.  With a
    commit that goes through, the value of the block is returned, or its
    failure re-raised after the commit; a commit that fails is followed
    by a rollback attempt and then raised, unless the rollback fails
    too, in which case the failure of the rollback is raised. *)
Theorem transaction_scope :
  forall (A : Type) (d : AsyncEasyapi.driver) (body : AsyncEasyapi.io A),
    d AsyncEasyapi.Acquire = None ->
    d AsyncEasyapi.Begin = None ->
    let run := AsyncEasyapi.transaction d body in
    let entered := [AsyncEasyapi.Acquire; AsyncEasyapi.Begin] in
    In AsyncEasyapi.Commit (fst run)
    /\ In AsyncEasyapi.Close (fst run)
    /\ (forall tr a,
          body = (tr, Ok a) ->
          d AsyncEasyapi.Commit = None -> d AsyncEasyapi.Close = None ->
          run = (entered ++ tr ++ [AsyncEasyapi.Commit; AsyncEasyapi.Close],
                 Ok a))
    /\ (forall tr e,
          body = (tr, Raise e) ->
          d AsyncEasyapi.Commit = None -> d AsyncEasyapi.Close = None ->
          run = (entered ++ tr ++ [AsyncEasyapi.Commit; AsyncEasyapi.Close],
                 Raise e))
    /\ (forall tr r e,
          body = (tr, r) ->
          d AsyncEasyapi.Commit = Some e ->
          d AsyncEasyapi.Rollback = None -> d AsyncEasyapi.Close = None ->
          run = (entered ++ tr ++ [AsyncEasyapi.Commit; AsyncEasyapi.Rollback;
                                   AsyncEasyapi.Close],
                 Raise e))
    /\ (forall tr r e e',
          body = (tr, r) ->
          d AsyncEasyapi.Commit = Some e ->
          d AsyncEasyapi.Rollback = Some e' -> d AsyncEasyapi.Close = None ->
          run = (entered ++ tr ++ [AsyncEasyapi.Commit; AsyncEasyapi.Rollback;
                                   AsyncEasyapi.Close],
                 Raise e')).
Proof.
  intros A d body Ha Hb run entered.
  split; [now apply commit_always_attempted|].
  split; [now apply connection_always_closed|].
  split; [intros tr a -> Hc Hx; now apply commits_on_success|].
  split; [intros tr e -> Hc Hx; now apply commits_on_failure|].
  split.
  - intros tr r e -> Hc Hr Hx. unfold run.
    destruct r as [a|e0].
    + now apply rollback_on_commit_failure.
    + unfold AsyncEasyapi.transaction, AsyncEasyapi.async_with,
        AsyncEasyapi.aenter, AsyncEasyapi.aexit, AsyncEasyapi.await,
        AsyncEasyapi.io_bind, AsyncEasyapi.try_finally,
        AsyncEasyapi.try_except, AsyncEasyapi.raise.
      now rewrite Ha, Hb, Hc, Hr, Hx.
  - intros tr r e e' -> Hc Hr Hx. unfold run.
    destruct r as [a|e0].
    + now apply (rollback_failure_surfaces d Ha Hb tr a e e').
    + unfold AsyncEasyapi.transaction, AsyncEasyapi.async_with,
        AsyncEasyapi.aenter, AsyncEasyapi.aexit, AsyncEasyapi.await,
        AsyncEasyapi.io_bind, AsyncEasyapi.try_finally,
        AsyncEasyapi.try_except, AsyncEasyapi.raise.
      now rewrite Ha, Hb, Hc, Hr, Hx.
Qed.

Lemma transaction_scope_witness :
  let d : AsyncEasyapi.driver :=
    fun c => match c with
             | AsyncEasyapi.Commit => Some (OperationalError "deadlock")
             | _ => None
             end in
  AsyncEasyapi.transaction d (AsyncEasyapi.ret tt)
  = ([AsyncEasyapi.Acquire; AsyncEasyapi.Begin; AsyncEasyapi.Commit;
      AsyncEasyapi.Rollback; AsyncEasyapi.Close],
     Raise (OperationalError "deadlock")).
Proof.
  intros d.
  destruct (transaction_scope unit d (AsyncEasyapi.ret tt) eq_refl eq_refl)
    as (_ & _ & _ & _ & H & _).
  exact (H [] (Ok tt) (OperationalError "deadlock") eq_refl eq_refl eq_refl
           eq_refl).
Defined.

(* ===================================================================== *)
(** ** The controller *)
(* ===================================================================== *)

Section Facade.

Import Controller.

(** What a failure of the data layer becomes on its way through a
    controller method. *)
Lemma guarded_raise {A} (e : exn) :
  guarded (@Raise A e) =
  Raise (if caught e then BusinessError 500 500 (str e) else e).
Proof. unfold guarded. now destruct (caught e). Qed.

Lemma caught_classes e :
  caught e = true <->
  exists m, e = OperationalError m \/ e = IntegrityError m \/ e = DataError m.
Proof.
  split.
  - destruct e; simpl; try discriminate; eauto.
  - intros (m & [->|[->| ->]]); reflexivity.
Qed.

End Facade.

(** C6, as the code has it.  A failure of the data layer met by a
    controller method ([get], [query], [insert], [update], [delete]) is
    re-raised as [BusinessError(code=500, http_code=500, err_info=str(e))]
    exactly when it is an [OperationalError], an [IntegrityError] or a
    [DataError]; any other failure reaches the caller as it is. *)
Theorem facade_translates_three_classes :
  forall (d : Controller.dao) (e : exn),
    let seen := if Controller.caught e
                then BusinessError 500 500 (str e) else e in
    (Controller.caught e = true <->
       exists m, e = OperationalError m \/ e = IntegrityError m
                 \/ e = DataError m)
    /\ (forall id,
          Controller.dao_query d [("id", PScalar (SInt id))] None None = Raise e ->
          Controller.get d id = Raise seen)
    /\ (forall b q pager sorter,
          Controller.gather b (Controller.dao_query d q pager sorter)
            (Controller.dao_count d q) = Raise e ->
          Controller.query d b q pager sorter = Raise seen)
    /\ (forall v data,
          Controller.validate v data = Ok tt ->
          Controller.dao_insert d data = Raise e ->
          Controller.insert d v data = Raise seen)
    /\ (forall v id data,
          Controller.validate v data = Ok tt ->
          Controller.dao_update d [("id", PScalar (SInt id))] data = Raise e ->
          Controller.update d v id data = Raise seen)
    /\ (forall id,
          Controller.dao_delete d [("id", PScalar (SInt id))] = Raise e ->
          Controller.delete d id = Raise seen).
Proof.
  intros d e seen.
  split; [apply caught_classes|].
  split.
  { intros id H. unfold Controller.get. now rewrite H, guarded_raise. }
  split.
  { intros b q pager sorter H. unfold Controller.query.
    now rewrite H, guarded_raise. }
  split.
  { intros v data Hv H. unfold Controller.insert.
    rewrite Hv, H. simpl. apply guarded_raise. }
  split.
  { intros v id data Hv H. unfold Controller.update.
    rewrite Hv, H. simpl. apply guarded_raise. }
  intros id H. unfold Controller.delete. now rewrite H, guarded_raise.
Qed.

Lemma facade_translates_three_classes_witness :
  Controller.get (Sample.failing_dao (OperationalError "server has gone away")) 7
  = Raise (BusinessError 500 500 "server has gone away").
Proof.
  destruct (facade_translates_three_classes
              (Sample.failing_dao (OperationalError "server has gone away"))
              (OperationalError "server has gone away")) as (_ & H & _).
  exact (H 7 eq_refl).
Defined.

(** C6 as stated fails: a [ProgrammingError] of the driver goes through
    the controller untouched. *)
Lemma facade_leaks_programming_error :
  let e := ProgrammingError "(1146) table users does not exist" in
  Controller.get (Sample.failing_dao e) 7 = Raise e
  /\ Controller.delete (Sample.failing_dao e) 7 = Raise e
  /\ forall msg,
       Controller.get (Sample.failing_dao e) 7
       <> Raise (BusinessError 500 500 msg).
Proof.
  cbv zeta. repeat split. discriminate.
Qed.

(* ===================================================================== *)
(** ** Empty and None values *)
(* ===================================================================== *)

Section EmptyValues.

Import AsyncEasyapi FilterSpec.

(** The collection-valued variant passes over a falsy value. *)
Lemma esayapi_skips st t pre k v post : forall sql,
  truthy v = false ->
  AsyncEsayapi.filter_items st t (pre ++ (k, v) :: post) sql
  = AsyncEsayapi.filter_items st t (pre ++ post) sql.
Proof.
  induction pre as [|[k0 v0] pre IH]; intros sql Hv; simpl.
  - unfold AsyncEsayapi.filter_key. now rewrite Hv.
  - destruct (AsyncEsayapi.filter_key st t k0 v0 sql); simpl; [|reflexivity].
    now apply IH.
Qed.

(** A comparison or LIKE key with an empty list runs its loop zero
    times. *)
Lemma search_key_empty_loop t k sql :
  is_loop (fst (classify k)) = true ->
  search_key t k (PList []) sql = Ok sql.
Proof.
  unfold search_key. rewrite classify_chain.
  destruct (startswith "_gt_" k); [reflexivity|].
  destruct (startswith "_gte_" k); [reflexivity|].
  destruct (startswith "_lt_" k); [reflexivity|].
  destruct (startswith "_lte_" k); [reflexivity|].
  destruct (startswith "_like_" k); [reflexivity|].
  destruct (startswith "_in_" k); discriminate.
Qed.

Lemma search_sql_empty_loop t pre k post : forall sql,
  is_loop (fst (classify k)) = true ->
  search_sql sql (pre ++ (k, PList []) :: post) t
  = search_sql sql (pre ++ post) t.
Proof.
  induction pre as [|[k0 v0] pre IH]; intros sql Hk; simpl.
  - now rewrite search_key_empty_loop.
  - destruct (search_key t k0 v0 sql); simpl; [|reflexivity].
    now apply IH.
Qed.

(** [None] under an ordering comparison or under [_like_], on a column
    that exists. *)
Lemma search_key_none t k sql :
  is_column t (column k) = true ->
  (is_ordering (fst (classify k)) = true ->
   search_key t k (PScalar SNone) sql = Raise ArgumentError)
  /\ (fst (classify k) = OpLike ->
      search_key t k (PScalar SNone) sql = Raise TypeError).
Proof.
  unfold column. rewrite search_key_clauses. unfold Clauses.key_clauses.
  rewrite classify_chain.
  assert (C : forall op col, is_column t col = true ->
            (ps <- Clauses.traverse (cmp_clause t op col) (as_list (PScalar SNone)) ;;
             Ok (add_wheres ps sql)) = Raise ArgumentError).
  { intros op col Hc. simpl. unfold cmp_clause.
    now rewrite getattr_column. }
  destruct (startswith "_gt_" k);
    [cbn [fst snd]; intros Hc; split; [intros _; now apply C|discriminate]|].
  destruct (startswith "_gte_" k);
    [cbn [fst snd]; intros Hc; split; [intros _; now apply C|discriminate]|].
  destruct (startswith "_lt_" k);
    [cbn [fst snd]; intros Hc; split; [intros _; now apply C|discriminate]|].
  destruct (startswith "_lte_" k);
    [cbn [fst snd]; intros Hc; split; [intros _; now apply C|discriminate]|].
  destruct (startswith "_like_" k).
  { cbn [fst snd]. intros Hc. split; [discriminate|]. intros _. simpl.
    unfold like_clause. now rewrite getattr_column. }
  destruct (startswith "_in_" k); cbn [fst snd]; intros Hc; split; discriminate.
Qed.

End EmptyValues.

(** C9, as the code has it.  The collection-valued compiler of
    [async_esayapi] ([query] and [count]) passes over every key whose
    value is empty or [None]: the result is that of the mapping without
    the key.  In [search_sql] a comparison or LIKE key with an empty
    list likewise adds nothing and fails nothing, and [_in_] with an
    empty list gives one [IN] over the empty list; a [None] is never
    passed over: on a column, an unprefixed key gives the equality with
    NULL, an ordering comparison raises [ArgumentError] and [_like_]
    raises [TypeError]. *)
Theorem empty_values_compiled :
  forall (t : table) (pre post : dict pyval) (k : string) (sql : select),
    (forall st v,
        truthy v = false ->
        AsyncEsayapi.query_filter st t (Some (pre ++ (k, v) :: post)) sql
        = AsyncEsayapi.query_filter st t (Some (pre ++ post)) sql)
    /\ (FilterSpec.is_loop (fst (FilterSpec.classify k)) = true ->
        AsyncEasyapi.search_sql sql (pre ++ (k, PList []) :: post) t
        = AsyncEasyapi.search_sql sql (pre ++ post) t)
    /\ (forall c, k = String.append "_in_" c -> is_column t c = true ->
        AsyncEasyapi.search_key t k (PList []) sql
        = Ok (where_ (PIn c []) sql))
    /\ (FilterSpec.unprefixed k = true -> is_column t k = true ->
        AsyncEasyapi.search_key t k (PScalar SNone) sql
        = Ok (where_ (PEq k (PScalar SNone)) sql))
    /\ (FilterSpec.is_ordering (fst (FilterSpec.classify k)) = true ->
        is_column t (FilterSpec.column k) = true ->
        AsyncEasyapi.search_key t k (PScalar SNone) sql = Raise ArgumentError)
    /\ (fst (FilterSpec.classify k) = FilterSpec.OpLike ->
        is_column t (FilterSpec.column k) = true ->
        AsyncEasyapi.search_key t k (PScalar SNone) sql = Raise TypeError).
Proof.
  intros t pre post k sql.
  split.
  { intros st v Hv. unfold AsyncEsayapi.query_filter.
    assert (E : AsyncEsayapi.filter_items st t (pre ++ (k, v) :: post) sql
                = AsyncEsayapi.filter_items st t (pre ++ post) sql)
      by now apply esayapi_skips.
    destruct (pre ++ (k, v) :: post) as [|kv l] eqn:L;
      [destruct pre; discriminate|].
    rewrite E. now destruct (pre ++ post). }
  split; [now apply search_sql_empty_loop|].
  split.
  { intros c -> Hc.
    rewrite (search_key_refines t _ (PList []) sql).
    - unfold FilterSpec.key_preds.
      destruct (classify_prefixed c) as (_ & _ & _ & _ & _ & ->). reflexivity.
    - unfold FilterSpec.resolves.
      destruct (classify_prefixed c) as (_ & _ & _ & _ & _ & ->). exact Hc. }
  split.
  { intros Hu Hc.
    rewrite (search_key_refines t k (PScalar SNone) sql).
    - unfold FilterSpec.key_preds, FilterSpec.classify, FilterSpec.unprefixed in *.
      destruct (FilterSpec.longest_match k); [discriminate|reflexivity].
    - unfold FilterSpec.resolves, FilterSpec.classify, FilterSpec.unprefixed in *.
      destruct (FilterSpec.longest_match k); [discriminate|].
      now rewrite Hc. }
  split.
  - intros Ho Hc. now apply (search_key_none t k sql Hc).
  - intros Hl Hc. now apply (search_key_none t k sql Hc).
Qed.

Lemma empty_values_compiled_witness :
  AsyncEsayapi.query_filter AsyncEsayapi.LikeAsIs Sample.users
    (Some [("name", PList [SStr "bob"]); ("age", PList [])])
    (select_from AllColumns)
  = Ok (where_ (PIn "name" [SStr "bob"]) (select_from AllColumns))
  /\ AsyncEasyapi.search_sql (select_from AllColumns)
       [("name", PScalar (SStr "bob")); ("_gt_age", PList [])] Sample.users
     = Ok (where_ (PEq "name" (PScalar (SStr "bob"))) (select_from AllColumns)).
Proof.
  destruct (empty_values_compiled Sample.users
              [("name", PList [SStr "bob"])] [] "age" (select_from AllColumns))
    as (Hskip & _).
  destruct (empty_values_compiled Sample.users
              [("name", PScalar (SStr "bob"))] [] "_gt_age"
              (select_from AllColumns)) as (_ & Hloop & _).
  split.
  - etransitivity;
      [exact (Hskip AsyncEsayapi.LikeAsIs (PList []) eq_refl)|reflexivity].
  - etransitivity; [exact (Hloop eq_refl)|reflexivity].
Defined.

(** C9 as stated fails on [search_sql]: a [None] value is compiled into
    a predicate, not skipped, or makes the compilation raise, and an
    empty list under [_in_] is compiled too. *)
Lemma search_sql_keeps_none :
  AsyncEasyapi.search_sql (select_from AllColumns)
    [("deleted_at", PScalar SNone)] Sample.users
  = Ok (where_ (PEq "deleted_at" (PScalar SNone)) (select_from AllColumns))
  /\ AsyncEasyapi.search_sql (select_from AllColumns)
       [("deleted_at", PScalar SNone)] Sample.users
     <> AsyncEasyapi.search_sql (select_from AllColumns) [] Sample.users
  /\ AsyncEasyapi.search_sql (select_from AllColumns)
       [("_in_id", PList [])] Sample.users
     = Ok (where_ (PIn "id" []) (select_from AllColumns))
  /\ AsyncEasyapi.search_sql (select_from AllColumns)
       [("_gt_age", PScalar SNone)] Sample.users
     = Raise ArgumentError.
Proof.
  repeat split. discriminate.
Qed.

(** The unguarded [values[0]]: an empty list under a key without prefix
    raises [IndexError]. *)
Example empty_list_equality_raises :
  AsyncEasyapi.search_sql (select_from AllColumns)
    [("name", PList [])] Sample.users = Raise IndexError.
Proof. reflexivity. Qed.

(* ===================================================================== *)
(** ** Round trip of the transcoders *)
(* ===================================================================== *)

Section RoundTrip.

Context `{JsonCodec}.

Lemma strip_onto (data : row) : forall acc,
  NoDup (keys acc ++ keys data) ->
  fold_left (fun acc kv =>
               if negb (Easyapi.is_ignored (fst kv))
               then dict_set (fst kv) (snd kv) acc
               else acc) data acc
  = acc ++ filter (fun kv => negb (Easyapi.is_ignored (fst kv))) data.
Proof.
  induction data as [|[k v] data IH]; simpl; intros acc Hnd.
  - now rewrite app_nil_r.
  - assert (Hrest : NoDup (keys acc ++ keys data))
      by now apply NoDup_remove_1 in Hnd.
    destruct (Easyapi.is_ignored k); simpl.
    + now apply IH.
    + rewrite dict_set_fresh.
      * rewrite IH; [now rewrite <- app_assoc|].
        rewrite keys_app; simpl. now rewrite <- app_assoc.
      * apply NoDup_remove_2 in Hnd. intros Hin; apply Hnd, in_or_app; now left.
Qed.

(** [formatter] drops the audit columns and converts what is left. *)
Lemma formatter_strips (data : row) :
  dict_wf data ->
  Easyapi.formatter data
  = type_to_json (filter (fun kv => negb (Easyapi.is_ignored (fst kv))) data).
Proof.
  intros Hwf. unfold Easyapi.formatter. now rewrite strip_onto.
Qed.

Lemma filter_keeps_all (data : row) :
  (forall k, In k (keys data) -> Easyapi.is_ignored k = false) ->
  filter (fun kv => negb (Easyapi.is_ignored (fst kv))) data = data.
Proof.
  induction data as [|[k v] data IH]; simpl; intros Hk; [reflexivity|].
  rewrite (Hk k) by now left. simpl. f_equal. apply IH. auto.
Qed.

Lemma easyapi_reformatter_shape (data : row) :
  dict_wf data ->
  Easyapi.reformatter data = data
  \/ Easyapi.reformatter data = data ++ [("deleted_at", SNone)]
     /\ ~ In "deleted_at" (keys data).
Proof.
  intros Hwf. unfold Easyapi.reformatter. rewrite dict_copy_id by exact Hwf.
  destruct (negb _ && negb (dict_mem "deleted_at" data)) eqn:E; [|now left].
  apply andb_prop in E as [_ E]. apply negb_true_iff, dict_mem_false in E.
  right. split; [now apply dict_set_fresh|exact E].
Qed.

Lemma formatter_after_injection (data : row) :
  dict_wf data ->
  (forall k, In k (keys data) -> Easyapi.is_ignored k = false) ->
  Easyapi.formatter (data ++ [("deleted_at", SNone)]) = type_to_json data.
Proof.
  intros Hwf Hk. rewrite formatter_strips.
  - rewrite filter_app, filter_keeps_all by exact Hk. simpl.
    now rewrite app_nil_r.
  - unfold dict_wf in *. rewrite keys_app. simpl.
    apply NoDup_rev in Hwf. rewrite <- (rev_involutive (keys data ++ _)).
    apply NoDup_rev. rewrite rev_app_distr. simpl.
    constructor; [|exact Hwf]. rewrite <- in_rev. intros Hin.
    specialize (Hk _ Hin). discriminate.
Qed.

Lemma keys_type_to_json (data : row) : keys (type_to_json data) = keys data.
Proof.
  unfold type_to_json, keys. rewrite map_map. now apply map_ext.
Qed.

Lemma type_to_json_fixed (data : row) :
  (forall k v, In (k, v) data -> json_scalar v = v) ->
  type_to_json data = data.
Proof.
  unfold type_to_json.
  induction data as [|[k v] data IH]; simpl; intros Hv; [reflexivity|].
  rewrite (Hv k v) by now left. f_equal. apply IH. eauto.
Qed.

End RoundTrip.

(** C10, as the code has it.  For a record without repeated keys that
    names none of [created_at], [updated_at], [deleted_at]: the
    storage-direction transcoder of [async_easyapi]
    ([BusinessBaseDao.reformatter]) followed by its own [formatter]
    gives the record converted by [type_to_json] and, unless [unscoped]
    is set, the injected [deleted_at] after it; followed by the
    [formatter] of [easyapi], which strips the audit columns, either
    [reformatter] gives the converted record alone; so the original
    record whenever its values are JSON-safe already, and in any case a
    record the round trip leaves as it is. *)
Theorem transcoder_round_trip :
  forall (J : JsonCodec) (record : row) (unscoped : bool),
    dict_wf record ->
    (forall k, In k (keys record) -> Easyapi.is_ignored k = false) ->
    let own r :=
      AsyncEasyapi.formatter AsyncEasyapi.BusinessBaseDao
        (AsyncEasyapi.reformatter AsyncEasyapi.BusinessBaseDao unscoped r) in
    let via_async r :=
      Easyapi.formatter
        (AsyncEasyapi.reformatter AsyncEasyapi.BusinessBaseDao unscoped r) in
    let via_sync r := Easyapi.formatter (Easyapi.reformatter r) in
    own record
    = type_to_json record
      ++ (if unscoped then [] else [("deleted_at", json_scalar SNone)])
    /\ (via_async record = type_to_json record
        /\ via_sync record = type_to_json record)
    /\ ((forall k v, In (k, v) record -> json_scalar v = v) ->
        via_async record = record /\ via_sync record = record
        /\ (unscoped = true -> own record = record))
    /\ ((forall v, json_scalar (json_scalar v) = json_scalar v) ->
        via_async (via_async record) = via_async record
        /\ via_sync (via_sync record) = via_sync record).
Proof.
  intros J record unscoped Hwf Hk own via_async via_sync.
  assert (O : own record
              = type_to_json record
                ++ (if unscoped then []
                    else [("deleted_at", json_scalar SNone)])).
  { unfold own, AsyncEasyapi.formatter.
    rewrite reformatter_shape by exact Hwf.
    assert (M : dict_mem "deleted_at" record = false).
    { apply dict_mem_false. intros Hin. specialize (Hk _ Hin). discriminate. }
    rewrite M. unfold type_to_json. rewrite map_app.
    now destruct unscoped. }
  assert (A : forall r, dict_wf r ->
            (forall k, In k (keys r) -> Easyapi.is_ignored k = false) ->
            via_async r = type_to_json r).
  { intros r Hr Hkr. unfold via_async.
    rewrite reformatter_shape by exact Hr.
    destruct (negb unscoped && negb (dict_mem "deleted_at" r)).
    - now apply formatter_after_injection.
    - rewrite app_nil_r, formatter_strips by exact Hr.
      now rewrite filter_keeps_all. }
  assert (S : forall r, dict_wf r ->
            (forall k, In k (keys r) -> Easyapi.is_ignored k = false) ->
            via_sync r = type_to_json r).
  { intros r Hr Hkr. unfold via_sync.
    destruct (easyapi_reformatter_shape r Hr) as [->|[-> _]].
    - rewrite formatter_strips by exact Hr. now rewrite filter_keeps_all.
    - now apply formatter_after_injection. }
  split; [exact O|].
  split; [split; [now apply A|now apply S]|].
  split.
  { intros Hv. rewrite A, S by assumption.
    split; [now apply type_to_json_fixed|].
    split; [now apply type_to_json_fixed|].
    intros ->. rewrite O, app_nil_r. now apply type_to_json_fixed. }
  intros Hidem.
  assert (Hwf' : dict_wf (type_to_json record))
    by (unfold dict_wf; now rewrite keys_type_to_json).
  assert (Hk' : forall k, In k (keys (type_to_json record)) ->
                  Easyapi.is_ignored k = false)
    by (intros k; rewrite keys_type_to_json; apply Hk).
  assert (I : type_to_json (type_to_json record) = type_to_json record).
  { unfold type_to_json. rewrite map_map. apply map_ext.
    intros [k v]; simpl. now rewrite Hidem. }
  rewrite (A record), (S record) by assumption.
  rewrite A, S by assumption. now rewrite I.
Qed.

Lemma transcoder_round_trip_witness :
  let record := [("name", SStr "bob"); ("age", SInt 41)] in
  @AsyncEasyapi.formatter Sample.codec AsyncEasyapi.BusinessBaseDao
    (AsyncEasyapi.reformatter AsyncEasyapi.BusinessBaseDao false record)
  = record ++ [("deleted_at", SNone)]
  /\ @Easyapi.formatter Sample.codec
       (AsyncEasyapi.reformatter AsyncEasyapi.BusinessBaseDao false record)
     = record.
Proof.
  intros record.
  assert (Hwf : dict_wf record).
  { unfold dict_wf, record; simpl.
    constructor; [|constructor; [|constructor]]; simpl; intuition discriminate. }
  assert (Hk : forall k, In k (keys record) -> Easyapi.is_ignored k = false).
  { intros k [<-|[<-|[]]]; reflexivity. }
  destruct (transcoder_round_trip Sample.codec record false Hwf Hk)
    as (Hown & _ & Hsafe & _).
  split; [exact Hown|].
  apply Hsafe.
  intros k v [[= <- <-]|[[= <- <-]|[]]]; reflexivity.
Defined.

(** C10 as stated fails: [formatter] of [async_easyapi] does not strip,
    so after its [reformatter] the injected [deleted_at] comes back and
    the result is not the original record; and where the record holds a
    timestamp, the stripping [formatter] of [easyapi] returns it
    converted, not as it was. *)
Lemma async_formatter_keeps_deleted_at :
  let record := [("name", SStr "bob")] in
  let born := [("name", SStr "bob"); ("born", STime 7)] in
  @AsyncEasyapi.formatter Sample.codec AsyncEasyapi.BusinessBaseDao
    (AsyncEasyapi.reformatter AsyncEasyapi.BusinessBaseDao false record)
  = [("name", SStr "bob"); ("deleted_at", SNone)]
  /\ @AsyncEasyapi.formatter Sample.codec AsyncEasyapi.BusinessBaseDao
       (AsyncEasyapi.reformatter AsyncEasyapi.BusinessBaseDao false record)
     <> record
  /\ @Easyapi.formatter Sample.codec (Easyapi.reformatter born)
     = [("name", SStr "bob"); ("born", SInt 7)]
  /\ @Easyapi.formatter Sample.codec (Easyapi.reformatter born) <> born.
Proof.
  cbv zeta. repeat split; discriminate.
Qed.

(** C8 as stated fails: a scoped business update whose where-condition
    names [deleted_at] re-assigns NULL to it, a field [data] does not
    name; the selected row comes back undeleted. *)
Lemma scoped_update_clears_deleted_at :
  let data := [("age", SInt 26)] in
  let statement :=
    AsyncEasyapi.business_update 300
      (Some [("deleted_at", PScalar (STime 150))]) data false
      "alice" Sample.users in
  ~ In "deleted_at" (keys data)
  /\ statement
     = Update [PEq "deleted_at" (PScalar (STime 150))]
              [("age", SInt 26); ("updated_at", STime 300);
               ("updated_by", SStr "alice"); ("deleted_at", SNone)]
  /\ exists carol',
       @execute Sample.engine statement [Sample.carol_deleted] = [carol']
       /\ field Sample.carol_deleted "deleted_at" = STime 150
       /\ field carol' "deleted_at" = SNone
       /\ field carol' "deleted_at" <> field Sample.carol_deleted "deleted_at".
Proof.
  cbv zeta. split; [simpl; intuition discriminate|].
  split; [reflexivity|].
  eexists. repeat split. discriminate.
Qed.

(* ===================================================================== *)
(** ** Further properties of the reads *)
(* ===================================================================== *)

Section MoreReads.

Import AsyncEasyapi FilterSpec.

Lemma forallb_perm {A} (f : A -> bool) (l l' : list A) :
  Permutation l l' -> forallb f l = forallb f l'.
Proof.
  induction 1; simpl.
  - reflexivity.
  - now rewrite IHPermutation.
  - now rewrite !andb_assoc, (andb_comm (f y)).
  - congruence.
Qed.

(** An ordering is built on a column only: on the named one when the
    collection has it, on [id] when it has not. *)
Lemma getattr_or_id_column t key c :
  getattr_or_id t (SStr key) = Ok (Column c) ->
  c = (if hasattr_c t key then key else "id") /\ is_member t key = false.
Proof.
  unfold getattr_or_id, getattr_c, hasattr_c.
  destruct (is_member t "id"), (existsb (String.eqb "id") (columns t)),
    (is_member t key), (existsb (String.eqb key) (columns t));
    simpl; intros [= ]; subst; auto.
Qed.

Lemma first_last_inv cls unscoped query key t (descending : bool) s :
  (sql <- filtered cls unscoped AllColumns query t ;;
   a <- getattr_or_id t (SStr key) ;;
   ordered a descending sql) = Ok s ->
  exists sql0,
    filtered cls unscoped AllColumns query t = Ok sql0
    /\ getattr_or_id t (SStr key)
       = Ok (Column (if hasattr_c t key then key else "id"))
    /\ is_member t key = false
    /\ s = order_by (if hasattr_c t key then key else "id") descending sql0.
Proof.
  destruct (filtered cls unscoped AllColumns query t) as [sql0|e]; cbn [bind];
    [|discriminate].
  destruct (getattr_or_id t (SStr key)) as [a|e] eqn:G; cbn [bind];
    [|discriminate].
  intros H. apply ordered_inv in H as (c & -> & ->).
  apply getattr_or_id_column in G as [-> Hm]. eauto.
Qed.

End MoreReads.

(** X1.  In the pager of [BaseDao.query] a 0 fails the truth test like a
    missing key, but is still not [None]: a per-page of 0 applies no
    limit, a page of 0 applies no offset, and a per-page of 0 with a
    non-zero page gives OFFSET 0 and no limit, not the default page of
    30. *)
Theorem paging_zero :
  forall (sql : select) (pg : dict Z),
    (dict_get "_page" pg = Some 0 ->
       offset_ (AsyncEasyapi.paginate (Some pg) sql) = offset_ sql)
    /\ (dict_get "_per_page" pg = Some 0 -> dict_get "_page" pg = None ->
          AsyncEasyapi.paginate (Some pg) sql = sql)
    /\ (forall p, dict_get "_per_page" pg = Some 0 ->
          dict_get "_page" pg = Some p -> p <> 0 ->
          offset_ (AsyncEasyapi.paginate (Some pg) sql) = Some 0
          /\ limit_ (AsyncEasyapi.paginate (Some pg) sql) = limit_ sql).
Proof.
  intros sql pg. unfold AsyncEasyapi.paginate. split; [|split].
  - intros ->. simpl.
    destruct (dict_get "_per_page" pg) as [n|]; [|reflexivity].
    destruct (Z.eqb n 0); reflexivity.
  - intros -> ->. reflexivity.
  - intros p -> -> Hp. apply Z.eqb_neq in Hp. rewrite Hp. simpl.
    split; [f_equal; lia|reflexivity].
Qed.

Lemma paging_zero_witness :
  let pg := [("_page", 4); ("_per_page", 0)] in
  offset_ (AsyncEasyapi.paginate (Some pg) (select_from AllColumns)) = Some 0
  /\ limit_ (AsyncEasyapi.paginate (Some pg) (select_from AllColumns)) = None.
Proof.
  intros pg.
  destruct (paging_zero (select_from AllColumns) pg) as (_ & _ & H).
  apply (H 4); [reflexivity|reflexivity|discriminate].
Defined.

(** X2.  [query] and [count] filter alike: whenever [query] builds its
    statement for a filter, [count] builds one for the same filter with
    the same where clause, and with no limit, offset or ordering,
    whatever pager and sorter [query] was given. *)
Theorem count_shares_filter :
  forall cls unscoped query pager sorter t s,
    AsyncEasyapi.query_sql cls unscoped query pager sorter t = Ok s ->
    exists c,
      AsyncEasyapi.count_sql cls unscoped query t = Ok c
      /\ wheres c = wheres s
      /\ proj c = CountStar /\ proj s = AllColumns
      /\ limit_ c = None /\ offset_ c = None /\ order_by_ c = [].
Proof.
  intros cls unscoped query pager sorter t s H.
  apply query_sql_inv in H as (sql0 & F & Hs & _).
  apply sort_inv in Hs as (col & d & ->).
  destruct (paginate_frame pager sql0) as (Hw & _ & Hp).
  assert (W : wheres (order_by col d (AsyncEasyapi.paginate pager sql0))
              = wheres sql0) by exact Hw.
  assert (P : proj (order_by col d (AsyncEasyapi.paginate pager sql0))
              = proj sql0) by exact Hp.
  rewrite W, P. clear W P Hw Hp.
  unfold AsyncEasyapi.count_sql. unfold AsyncEasyapi.filtered in *.
  destruct (AsyncEasyapi.reformatter cls unscoped _) as [|kv q].
  - injection F as <-. eexists. split; [reflexivity|]. repeat split.
  - apply search_sql_inv in F as (ps & C & ->).
    rewrite search_sql_clauses, C. cbn [bind].
    eexists. split; [reflexivity|]. repeat split.
Qed.

Lemma count_shares_filter_witness :
  exists c,
    AsyncEasyapi.count_sql AsyncEasyapi.BusinessBaseDao false
      (Some [("_gte_age", PList [SInt 18])]) Sample.users = Ok c
    /\ wheres c = [PCmp Ge "age" (SInt 18); PEq "deleted_at" (PScalar SNone)].
Proof.
  destruct (count_shares_filter AsyncEasyapi.BusinessBaseDao false
              (Some [("_gte_age", PList [SInt 18])])
              (Some [("_page", 2)]) None Sample.users _ eq_refl)
    as (c & E & W & _).
  exists c. split; [exact E|]. rewrite W. reflexivity.
Defined.

(** X3.  [first] and [last] build the same statement but for the
    direction: whenever [first] builds its statement, the sorter key is
    no attribute of the column collection itself, and [last] builds one
    with the same where clause, no limit or offset, ordered by the
    sorter key when the table has it and by [id] when it has not,
    descending for [first] and ascending for [last]. *)
Theorem first_last_mirror :
  forall cls unscoped query key t s,
    AsyncEasyapi.first_sql cls unscoped query key t = Ok s ->
    is_member t key = false
    /\ exists s',
      AsyncEasyapi.last_sql cls unscoped query key t = Ok s'
      /\ wheres s' = wheres s
      /\ limit_ s = None /\ offset_ s = None
      /\ limit_ s' = None /\ offset_ s' = None
      /\ order_by_ s = [(if hasattr_c t key then key else "id", true)]
      /\ order_by_ s' = [(if hasattr_c t key then key else "id", false)].
Proof.
  intros cls unscoped query key t s H.
  apply first_last_inv in H as (sql0 & F & G & Hm & ->).
  split; [exact Hm|].
  unfold AsyncEasyapi.last_sql.
  rewrite F, G. cbn [bind AsyncEasyapi.ordered].
  eexists. split; [reflexivity|].
  apply filtered_inv in F as [ps ->]. simpl. repeat split.
Qed.

Lemma first_last_mirror_witness :
  exists s',
    AsyncEasyapi.last_sql AsyncEasyapi.BaseDao false None "created_on"
      Sample.users = Ok s'
    /\ order_by_ s' = [("id", false)].
Proof.
  destruct (first_last_mirror AsyncEasyapi.BaseDao false None "created_on"
              Sample.users _ eq_refl)
    as (_ & s' & E & _ & _ & _ & _ & _ & _ & O).
  exists s'. split; [exact E|exact O].
Defined.

(** X4.  Compiling a filter mapping is compiling its first part and
    then its second on the result: [search_sql] on [q1 ++ q2] is
    [search_sql] on [q1] followed by [search_sql] on [q2], failures
    included. *)
Theorem search_sql_splits :
  forall (t : table) (q1 q2 : dict pyval) (sql : select),
    AsyncEasyapi.search_sql sql (q1 ++ q2) t
    = (s <- AsyncEasyapi.search_sql sql q1 t ;;
       AsyncEasyapi.search_sql s q2 t).
Proof.
  intros t q1 q2. induction q1 as [|[k v] q1 IH]; intros sql; simpl.
  - reflexivity.
  - destruct (AsyncEasyapi.search_key t k v sql); simpl; [apply IH|reflexivity].
Qed.

(** X5.  The order of the keys of a filter mapping does not matter to
    the rows selected: two orderings of a mapping that resolves both
    compile, to clauses that the same rows pass. *)
Theorem search_sql_order_irrelevant :
  forall (t : table) (sql : select) (q q' : dict pyval),
    Permutation q q' ->
    FilterSpec.well_formed t q = true ->
    exists s s',
      AsyncEasyapi.search_sql sql q t = Ok s
      /\ AsyncEasyapi.search_sql sql q' t = Ok s'
      /\ forall (B : Backend) (r : row),
           satisfies (wheres s) r = satisfies (wheres s') r.
Proof.
  intros t sql q q' P Hwf.
  assert (Hwf' : FilterSpec.well_formed t q' = true).
  { unfold FilterSpec.well_formed in *. now rewrite <- (forallb_perm _ _ _ P). }
  do 2 eexists.
  split; [now apply search_sql_refines|].
  split; [now apply search_sql_refines|].
  intros B r. simpl. rewrite !satisfies_app, !satisfies_compile.
  f_equal. now apply forallb_perm.
Qed.

Lemma search_sql_order_irrelevant_witness :
  exists s s',
    AsyncEasyapi.search_sql (select_from AllColumns)
      [("name", PScalar (SStr "bob")); ("_lt_age", PList [SInt 50])]
      Sample.users = Ok s
    /\ AsyncEasyapi.search_sql (select_from AllColumns)
         [("_lt_age", PList [SInt 50]); ("name", PScalar (SStr "bob"))]
         Sample.users = Ok s'
    /\ forall (B : Backend) (r : row),
         satisfies (wheres s) r = satisfies (wheres s') r.
Proof.
  apply (search_sql_order_irrelevant Sample.users (select_from AllColumns)
           [("name", PScalar (SStr "bob")); ("_lt_age", PList [SInt 50])]
           [("_lt_age", PList [SInt 50]); ("name", PScalar (SStr "bob"))]).
  - apply perm_swap.
  - reflexivity.
Defined.

(** X6.  [search_sql] only ever narrows: whenever it returns, the
    projection, limit, offset and ordering of the query are untouched,
    the conjuncts already there are kept in front, and every row that
    passes the new clause passed the old one. *)
Theorem search_sql_only_narrows :
  forall (t : table) (sql s : select) (query : dict pyval),
    AsyncEasyapi.search_sql sql query t = Ok s ->
    proj s = proj sql /\ limit_ s = limit_ sql /\ offset_ s = offset_ sql
    /\ order_by_ s = order_by_ sql
    /\ (exists added, wheres s = wheres sql ++ added)
    /\ forall (B : Backend) (r : row),
         satisfies (wheres s) r = true -> satisfies (wheres sql) r = true.
Proof.
  intros t sql s query H. apply search_sql_inv in H as (ps & _ & ->). simpl.
  repeat split; eauto.
  intros B r. rewrite satisfies_app. intros S.
  now apply andb_prop in S as [S _].
Qed.

Lemma search_sql_only_narrows_witness :
  exists s,
    AsyncEasyapi.search_sql
      (limit 5 (select_from AllColumns))
      [("_like_name", PList [SStr "al"])] Sample.users = Ok s
    /\ limit_ s = Some 5.
Proof.
  eexists. split; [reflexivity|].
  destruct (search_sql_only_narrows Sample.users
              (limit 5 (select_from AllColumns)) _
              [("_like_name", PList [SStr "al"])] eq_refl) as (_ & L & _).
  exact L.
Defined.

(** X7.  Failures of [search_sql] on a name the collection has, after
    keys that resolve: an empty list under a key without prefix raises
    [IndexError]; a [_like_] value that is no string, on a column,
    raises [TypeError] once the strings before it have been compiled;
    in both cases the keys that follow are never looked at. *)
Theorem search_sql_value_errors :
  forall (t : table) (sql : select) (pre post : dict pyval),
    FilterSpec.well_formed t pre = true ->
    (forall k,
        FilterSpec.unprefixed k = true -> hasattr_c t k = true ->
        AsyncEasyapi.search_sql sql (pre ++ (k, PList []) :: post) t
        = Raise IndexError)
    /\ (forall c ss v vs,
          is_column t c = true -> FilterSpec.is_str v = false ->
          AsyncEasyapi.search_sql sql
            (pre ++ (String.append "_like_" c, PList (map SStr ss ++ v :: vs))
                 :: post) t
          = Raise TypeError).
Proof.
  intros t sql pre post Hpre. split.
  - intros k Hu Hc. apply search_sql_stops; [exact Hpre|].
    intros s. unfold AsyncEasyapi.search_key.
    pose proof (classify_chain k) as C.
    unfold FilterSpec.classify, FilterSpec.unprefixed in *.
    destruct (FilterSpec.longest_match k); [discriminate|].
    destruct (startswith "_gt_" k); [discriminate|].
    destruct (startswith "_gte_" k); [discriminate|].
    destruct (startswith "_lt_" k); [discriminate|].
    destruct (startswith "_lte_" k); [discriminate|].
    destruct (startswith "_like_" k); [discriminate|].
    destruct (startswith "_in_" k); [discriminate|].
    unfold AsyncEasyapi.eq_clause, getattr_c. unfold hasattr_c in Hc.
    destruct (is_member t k); [reflexivity|].
    cbn [orb] in Hc. now rewrite Hc.
  - intros c ss v vs Hc Hv. apply search_sql_stops; [exact Hpre|].
    intros s. unfold AsyncEasyapi.search_key.
    pose proof (classify_prefixed c) as (_ & _ & _ & _ & C & _).
    rewrite classify_chain in C.
    destruct (startswith "_gt_" _); [discriminate|].
    destruct (startswith "_gte_" _); [discriminate|].
    destruct (startswith "_lt_" _); [discriminate|].
    destruct (startswith "_lte_" _); [discriminate|].
    destruct (startswith "_like_" _); [|destruct (startswith "_in_" _); discriminate].
    clear C. pose proof (drop_prefix "_like_" c) as D.
    cbn [String.length] in D. rewrite D. cbn [AsyncEasyapi.as_list].
    revert s. induction ss as [|s0 ss IH]; intros s; simpl.
    + unfold AsyncEasyapi.like_clause.
      rewrite getattr_column by exact Hc. simpl. now destruct v.
    + unfold AsyncEasyapi.like_clause at 1.
      rewrite getattr_column by exact Hc. simpl. apply IH.
Qed.

Lemma search_sql_value_errors_witness :
  AsyncEasyapi.search_sql (select_from AllColumns)
    [("name", PList []); ("height", PScalar (SInt 1))] Sample.users
  = Raise IndexError
  /\ AsyncEasyapi.search_sql (select_from AllColumns)
       [("_like_name", PList [SStr "a"; SInt 7])] Sample.users
     = Raise TypeError.
Proof.
  destruct (search_sql_value_errors Sample.users (select_from AllColumns) []
              [("height", PScalar (SInt 1))] eq_refl) as (H1 & _).
  destruct (search_sql_value_errors Sample.users (select_from AllColumns) []
              [] eq_refl) as (_ & H2).
  split.
  - exact (H1 "name" eq_refl eq_refl).
  - exact (H2 "name" ["a"] (SInt 7) [] eq_refl eq_refl).
Defined.

(** X8.  Every ordered read needs an [id] column, named or not: the
    default [table.c.id] is evaluated before the lookup, so on a table
    without [id] the reads [query], [first] and [last] raise the
    attribute error for [id] even when the sorter names a column that
    exists; [get] and [count], which do not order, are unaffected. *)
Theorem ordered_reads_need_id :
  forall cls unscoped query t sql0,
    AsyncEasyapi.filtered cls unscoped AllColumns query t = Ok sql0 ->
    hasattr_c t "id" = false ->
    (forall pager sorter,
        AsyncEasyapi.query_sql cls unscoped query pager sorter t
        = Raise (AttributeError "id"))
    /\ (forall key,
          AsyncEasyapi.first_sql cls unscoped query key t
          = Raise (AttributeError "id"))
    /\ (forall key,
          AsyncEasyapi.last_sql cls unscoped query key t
          = Raise (AttributeError "id"))
    /\ AsyncEasyapi.get_sql cls unscoped query t = Ok sql0.
Proof.
  intros cls unscoped query t sql0 F Hid.
  unfold AsyncEasyapi.query_sql, AsyncEasyapi.first_sql, AsyncEasyapi.last_sql,
    AsyncEasyapi.get_sql, AsyncEasyapi.sort, AsyncEasyapi.getattr_or_id.
  rewrite F, (getattr_missing t "id" Hid). cbn [bind].
  repeat split.
  intros pager sorter.
  now destruct (match dict_get "_desc" _ with
                | Some v => scalar_truthy v | None => true end).
Qed.

Lemma ordered_reads_need_id_witness :
  let events := mkTable "events" ["at"; "kind"] ["keys"; "values"] in
  AsyncEasyapi.query_sql AsyncEasyapi.BaseDao false None None
    (Some [("_order_by", SStr "at")]) events
  = Raise (AttributeError "id").
Proof.
  intros events.
  destruct (ordered_reads_need_id AsyncEasyapi.BaseDao false None events
              (select_from AllColumns) eq_refl eq_refl) as (H & _).
  apply H.
Defined.



(* ===================================================================== *)
(** ** Further properties of the writes *)
(* ===================================================================== *)

Section MoreWrites.

Import AsyncEasyapi FilterSpec.


Lemma reformatter_fixed {A} `{HasNone A} cls unscoped (d : dict A) :
  dict_wf d ->
  reformatter cls unscoped (reformatter cls unscoped d)
  = reformatter cls unscoped d.
Proof.
  intros Hwf.
  pose proof (dict_wf_reformatter cls unscoped d Hwf) as Hwf'.
  pose proof (reformatter_shape cls unscoped d Hwf) as S.
  rewrite S in Hwf' |- *.
  rewrite (reformatter_shape cls unscoped _ Hwf').
  destruct cls; [now rewrite !app_nil_r|].
  destruct unscoped; cbn [negb andb]; [now rewrite !app_nil_r|].
  destruct (dict_mem "deleted_at" d) eqn:M; cbn [negb].
  - rewrite !app_nil_r, M. cbn [negb]. now rewrite app_nil_r.
  - assert (M' : dict_mem "deleted_at" (d ++ [("deleted_at", py_none)]) = true).
    { unfold dict_mem. rewrite dict_get_app. simpl.
      now destruct (dict_get "deleted_at" d). }
    rewrite M'. cbn [negb]. now rewrite app_nil_r.
Qed.

End MoreWrites.



(** X11.  [reformatter] is conservative and idempotent: on a mapping it
    keeps every entry, value and order, adds at most the one entry
    [deleted_at: None] at the end, never when the call is unscoped or
    the mapping names [deleted_at] already, and applied twice it gives
    what it gives applied once. *)
Theorem reformatter_conservative :
  forall cls unscoped (d : dict pyval),
    dict_wf d ->
    (exists extra,
        AsyncEasyapi.reformatter cls unscoped d = d ++ extra
        /\ (extra = [] \/ extra = [("deleted_at", PScalar SNone)])
        /\ (unscoped = true \/ dict_mem "deleted_at" d = true
            \/ cls = AsyncEasyapi.BaseDao -> extra = []))
    /\ (forall k v, dict_get k d = Some v ->
          dict_get k (AsyncEasyapi.reformatter cls unscoped d) = Some v)
    /\ AsyncEasyapi.reformatter cls unscoped
         (AsyncEasyapi.reformatter cls unscoped d)
       = AsyncEasyapi.reformatter cls unscoped d.
Proof.
  intros cls unscoped d Hwf.
  split; [|split].
  - rewrite reformatter_shape by exact Hwf.
    eexists. split; [reflexivity|].
    destruct cls; [split; auto|].
    destruct unscoped; simpl; [split; auto|].
    destruct (dict_mem "deleted_at" d); simpl; split; auto.
    intros [?|[?|?]]; discriminate.
  - intros k v G. now apply dict_get_reformatter.
  - now apply reformatter_fixed.
Qed.

Lemma reformatter_conservative_witness :
  AsyncEasyapi.reformatter AsyncEasyapi.BusinessBaseDao false
    (AsyncEasyapi.reformatter AsyncEasyapi.BusinessBaseDao false
       [("name", PScalar (SStr "bob"))])
  = [("name", PScalar (SStr "bob")); ("deleted_at", PScalar SNone)].
Proof.
  assert (Hwf : dict_wf [("name", PScalar (SStr "bob"))]).
  { unfold dict_wf; simpl. constructor; [|constructor]. simpl; tauto. }
  destruct (reformatter_conservative AsyncEasyapi.BusinessBaseDao false _ Hwf)
    as (_ & _ & H).
  etransitivity; [exact H|reflexivity].
Defined.

(* ===================================================================== *)
(** ** Further properties of the business layer *)
(* ===================================================================== *)

Section MoreBusiness.

Import AsyncEasyapi FilterSpec.

Lemma satisfies_In `{Backend} conds r p :
  satisfies conds r = true -> In p conds -> eval_pred r p = true.
Proof.
  unfold satisfies. rewrite forallb_forall. auto.
Qed.

Lemma eval_is_null `{Backend} r c :
  eval_pred r (PEq c (PScalar SNone)) = true -> field r c = SNone.
Proof. simpl. now destruct (field r c). Qed.

Lemma clauses_app t (q1 q2 : dict pyval) :
  Clauses.clauses t (q1 ++ q2)
  = (ps <- Clauses.clauses t q1 ;; qs <- Clauses.clauses t q2 ;;
     Ok (ps ++ qs)).
Proof.
  induction q1 as [|[k v] q1 IH]; simpl.
  - now destruct (Clauses.clauses t q2).
  - destruct (Clauses.key_clauses t k v) as [ps|e]; simpl; [|reflexivity].
    rewrite IH.
    destruct (Clauses.clauses t q1) as [ps1|e]; simpl; [|reflexivity].
    destruct (Clauses.clauses t q2) as [ps2|e]; simpl; [|reflexivity].
    now rewrite app_assoc.
Qed.

(** The clause of the injected [deleted_at: None]. *)
Lemma clauses_deleted_at t :
  Clauses.clauses t [("deleted_at", PScalar SNone)]
  = (a <- getattr_c t "deleted_at" ;; Ok [equals a (PScalar SNone)]).
Proof.
  unfold Clauses.clauses, Clauses.key_clauses, eq_clause. simpl.
  now destruct (getattr_c t "deleted_at").
Qed.

Lemma hd_error_filter_In {A} (f : A -> bool) l x :
  hd_error (filter f l) = Some x -> In x l /\ f x = true.
Proof.
  intros H. apply filter_In.
  destruct (filter f l) as [|y ys]; [discriminate|].
  injection H as ->. now left.
Qed.

End MoreBusiness.

(** X12.  A business read without [unscoped] whose filter does not name
    [deleted_at] sees live rows only: its statement carries the conjunct
    [deleted_at IS NULL], and the row [get] hands back is the
    transcoding of a stored row whose [deleted_at] is NULL. *)
Theorem scoped_read_sees_live_rows :
  forall (B : Backend) (J : JsonCodec) (t : table) (q : dict pyval)
         (rows : db) (found : row),
    dict_wf q ->
    dict_mem "deleted_at" q = false ->
    AsyncEasyapi.get AsyncEasyapi.BusinessBaseDao false (Some q) t rows
      = Ok (Some found) ->
    exists s r,
      AsyncEasyapi.get_sql AsyncEasyapi.BusinessBaseDao false (Some q) t = Ok s
      /\ In (PEq "deleted_at" (PScalar SNone)) (wheres s)
      /\ In r rows
      /\ field r "deleted_at" = SNone
      /\ found = AsyncEasyapi.formatter AsyncEasyapi.BusinessBaseDao r.
Proof.
  intros B J t q rows found Hwf M H.
  unfold AsyncEasyapi.get in H.
  destruct (AsyncEasyapi.get_sql _ _ _ t) as [s|e] eqn:G; [|discriminate].
  cbn [bind] in H.
  destruct (first_row s rows) as [r|] eqn:F; [|discriminate].
  injection H as <-.
  apply hd_error_filter_In in F as [Hin Hs].
  assert (Hd : In (PEq "deleted_at" (PScalar SNone)) (wheres s)).
  { unfold AsyncEasyapi.get_sql in G. rewrite filtered_clauses in G.
    rewrite reformatter_shape in G by exact Hwf. rewrite M in G.
    cbn [negb andb] in G. rewrite clauses_app, clauses_deleted_at in G.
    destruct (Clauses.clauses t q) as [ps|e]; cbn [bind] in G; [|discriminate].
    unfold getattr_c in G.
    destruct (is_member t "deleted_at").
    - cbn [bind equals] in G. injection G as <-.
      simpl in Hs. rewrite satisfies_app in Hs.
      apply andb_prop in Hs as [_ Hs]. discriminate.
    - destruct (existsb (String.eqb "deleted_at") (columns t));
        cbn [bind equals] in G; [|discriminate].
      injection G as <-. simpl. apply in_or_app; right; now left. }
  exists s, r. repeat split; auto.
  apply eval_is_null. now apply (satisfies_In (wheres s)).
Qed.

Lemma scoped_read_sees_live_rows_witness :
  exists r,
    In r Sample.stored
    /\ field r "deleted_at" = SNone
    /\ @AsyncEasyapi.get Sample.engine Sample.codec AsyncEasyapi.BusinessBaseDao
         false (Some [("_gt_age", PList [SInt 20])]) Sample.users Sample.stored
       = Ok (Some (@AsyncEasyapi.formatter Sample.codec
                     AsyncEasyapi.BusinessBaseDao r)).
Proof.
  assert (Hwf : dict_wf [("_gt_age", PList [SInt 20])]).
  { unfold dict_wf; simpl. constructor; [|constructor]. simpl; tauto. }
  destruct (scoped_read_sees_live_rows Sample.engine Sample.codec Sample.users
              [("_gt_age", PList [SInt 20])] Sample.stored _ Hwf eq_refl
              eq_refl) as (s & r & _ & _ & Hin & Hd & E).
  exists r. split; [exact Hin|]. split; [exact Hd|]. now rewrite <- E.
Defined.

(** X13.  With [unscoped] set the business class reads like the plain
    one: every read builds the statement [BaseDao] builds for the same
    filter. *)
Theorem unscoped_reads_are_plain :
  forall (t : table) (q : dict pyval) (u : bool),
    dict_wf q ->
    AsyncEasyapi.get_sql AsyncEasyapi.BusinessBaseDao true (Some q) t
      = AsyncEasyapi.get_sql AsyncEasyapi.BaseDao u (Some q) t
    /\ AsyncEasyapi.count_sql AsyncEasyapi.BusinessBaseDao true (Some q) t
       = AsyncEasyapi.count_sql AsyncEasyapi.BaseDao u (Some q) t
    /\ (forall key,
          AsyncEasyapi.first_sql AsyncEasyapi.BusinessBaseDao true (Some q) key t
          = AsyncEasyapi.first_sql AsyncEasyapi.BaseDao u (Some q) key t)
    /\ (forall key,
          AsyncEasyapi.last_sql AsyncEasyapi.BusinessBaseDao true (Some q) key t
          = AsyncEasyapi.last_sql AsyncEasyapi.BaseDao u (Some q) key t)
    /\ (forall pager sorter,
          AsyncEasyapi.query_sql AsyncEasyapi.BusinessBaseDao true (Some q)
            pager sorter t
          = AsyncEasyapi.query_sql AsyncEasyapi.BaseDao u (Some q) pager sorter t).
Proof.
  intros t q u Hwf.
  assert (F : forall p,
            AsyncEasyapi.filtered AsyncEasyapi.BusinessBaseDao true p (Some q) t
            = AsyncEasyapi.filtered AsyncEasyapi.BaseDao u p (Some q) t).
  { intros p. unfold AsyncEasyapi.filtered.
    rewrite !reformatter_shape by exact Hwf. reflexivity. }
  unfold AsyncEasyapi.get_sql, AsyncEasyapi.count_sql, AsyncEasyapi.first_sql,
    AsyncEasyapi.last_sql, AsyncEasyapi.query_sql.
  rewrite !F. repeat split.
Qed.

Lemma unscoped_reads_are_plain_witness :
  AsyncEasyapi.get_sql AsyncEasyapi.BusinessBaseDao true
    (Some [("id", PScalar (SInt 3))]) Sample.users
  = Ok (where_ (PEq "id" (PScalar (SInt 3))) (select_from AllColumns)).
Proof.
  assert (Hwf : dict_wf [("id", PScalar (SInt 3))]).
  { unfold dict_wf; simpl. constructor; [|constructor]. simpl; tauto. }
  destruct (unscoped_reads_are_plain Sample.users _ false Hwf) as (H & _).
  etransitivity; [exact H|reflexivity].
Defined.

(** X14.  A scoped business delete never touches a row that is deleted
    already, so it keeps the first deletion time, and repeating the
    delete with the same where-condition, at whatever later time and by
    whomever, changes nothing. *)
Theorem soft_delete_once :
  forall (B : Backend) (t : table) (w : dict pyval) (rows : db)
         (now later : Z) (who whoever : string),
    dict_wf w ->
    dict_mem "deleted_at" w = false ->
    hasattr_c t "deleted_at" = true ->
    let first_ := AsyncEasyapi.business_delete now (Some w) false who t in
    let second := AsyncEasyapi.business_delete later (Some w) false whoever t in
    (forall r, In r rows -> field r "deleted_at" <> SNone ->
               In r (execute first_ rows))
    /\ execute second (execute first_ rows) = execute first_ rows.
Proof.
  intros B t w rows now later who whoever Hwf M Hc first_ second.
  pose proof (fun r => scoped_update_selects_live t w r Hwf M Hc) as Live.
  set (conds := AsyncEasyapi.where_known t
                  (AsyncEasyapi.reformatter AsyncEasyapi.BusinessBaseDao false w))
    in *.
  assert (E1 : first_ = Update conds [("deleted_at", STime now);
                                      ("updated_by", SStr who)]) by reflexivity.
  assert (E2 : second = Update conds [("deleted_at", STime later);
                                      ("updated_by", SStr whoever)])
    by reflexivity.
  set (stamp1 := [("deleted_at", STime now); ("updated_by", SStr who)]) in *.
  set (stamp2 := [("deleted_at", STime later); ("updated_by", SStr whoever)])
    in *.
  assert (Dead : forall r, satisfies conds (assign stamp1 r) = false).
  { intros r. destruct (satisfies conds (assign stamp1 r)) eqn:S'; [|reflexivity].
    apply Live in S'.
    rewrite (field_assign_set stamp1 r "deleted_at" (STime now)) in S'.
    - discriminate.
    - unfold dict_wf, stamp1; simpl.
      constructor; [|constructor; [|constructor]]; simpl; intuition discriminate.
    - reflexivity. }
  rewrite E1, E2. cbn [execute]. split.
  - intros r Hin Hdel. apply in_map_iff. exists r. split; [|exact Hin].
    destruct (satisfies conds r) eqn:S; [|reflexivity].
    now apply Live in S.
  - rewrite map_map. apply map_ext. intros r.
    destruct (satisfies conds r) eqn:S.
    + now rewrite Dead.
    + now rewrite S.
Qed.

Lemma soft_delete_once_witness :
  let w := [("name", PScalar (SStr "bob"))] in
  let once := @execute Sample.engine
                (AsyncEasyapi.business_delete 200 (Some w) false "root"
                   Sample.users) Sample.stored in
  @execute Sample.engine
    (AsyncEasyapi.business_delete 900 (Some w) false "eve" Sample.users) once
  = once.
Proof.
  intros w once.
  assert (Hwf : dict_wf w).
  { unfold dict_wf, w; simpl. constructor; [|constructor]. simpl; tauto. }
  destruct (soft_delete_once Sample.engine Sample.users w Sample.stored 200 900
              "root" "eve" Hwf eq_refl eq_refl) as (_ & H).
  exact H.
Defined.

(** X15.  A business insert always builds a statement, also for no
    data at all, and stores what the caller gave: besides the two stamps
    every field of the data goes into the statement with its value; a
    [deleted_at] the caller supplies is kept, and otherwise a scoped
    insert sends [deleted_at] as NULL. *)
Theorem business_insert_keeps_data :
  forall (now : Z) (who : string) (unscoped : bool)
         (data : option (dict scalar)),
    let d := match data with Some d => d | None => [] end in
    dict_wf d ->
    exists values,
      AsyncEasyapi.business_insert now data who unscoped = Some (Insert values)
      /\ (forall c, c <> "created_at" -> c <> "created_by" ->
            c <> "deleted_at" -> dict_get c values = dict_get c d)
      /\ (forall v, dict_get "deleted_at" d = Some v ->
            dict_get "deleted_at" values = Some v)
      /\ (dict_get "deleted_at" d = None ->
            dict_get "deleted_at" values
            = if unscoped then None else Some SNone).
Proof.
  intros now who unscoped data d Hwf.
  unfold AsyncEasyapi.business_insert, AsyncEasyapi.insert. fold d.
  set (d2 := dict_set "created_by" (SStr who)
               (dict_set "created_at" (STime now) d)).
  assert (Hd2 : dict_wf d2) by (unfold d2; auto using dict_wf_set).
  assert (G : forall c, c <> "created_at" -> c <> "created_by" ->
                dict_get c d2 = dict_get c d).
  { intros c H1 H2. unfold d2. rewrite !dict_get_set.
    apply String.eqb_neq in H1, H2. now rewrite H1, H2. }
  eexists. split; [reflexivity|].
  rewrite reformatter_shape by exact Hd2. cbn [AsyncEasyapi.py_none
    AsyncEasyapi.scalar_none].
  assert (M : dict_mem "deleted_at" d2 = dict_mem "deleted_at" d).
  { unfold dict_mem. rewrite G by discriminate. reflexivity. }
  rewrite M. split; [|split].
  - intros c H1 H2 H3. rewrite dict_get_app, G by assumption.
    destruct (dict_get c d); [reflexivity|].
    destruct (negb unscoped && negb (dict_mem "deleted_at" d)); simpl;
      [|reflexivity].
    apply String.eqb_neq in H3. now rewrite H3.
  - intros v Hv. rewrite dict_get_app, G by discriminate. now rewrite Hv.
  - intros Hn. rewrite dict_get_app, G by discriminate. rewrite Hn.
    unfold dict_mem. rewrite Hn. now destruct unscoped.
Qed.

Lemma business_insert_keeps_data_witness :
  exists values,
    AsyncEasyapi.business_insert 300 None "alice" false = Some (Insert values)
    /\ dict_get "deleted_at" values = Some SNone.
Proof.
  destruct (business_insert_keeps_data 300 "alice" false None)
    as (values & E & _ & _ & Hd).
  { constructor. }
  exists values. split; [exact E|exact (Hd eq_refl)].
Defined.

(* ===================================================================== *)
(** ** Further properties of the controller *)
(* ===================================================================== *)

Section MoreFacade.

Import Controller.

Lemma guarded_uncaught {A} (r : result A) e :
  guarded r = Raise e -> caught e = false.
Proof.
  unfold guarded. destruct r as [a|e0]; [discriminate|].
  destruct (caught e0) eqn:C; intros [= <-]; [reflexivity|exact C].
Qed.

Lemma bind_raise {A B} (r : result A) (k : A -> result B) e :
  (x <- r ;; k x) = Raise e ->
  r = Raise e \/ exists a, r = Ok a /\ k a = Raise e.
Proof.
  destruct r as [a|e0]; simpl; intros H.
  - right. exists a. auto.
  - injection H as ->. now left.
Qed.

(** The validation block raises its own [BusinessError], or what the
    validator raised. *)
Lemma validate_raises v data e :
  validate v data = Raise e ->
  caught e = false \/ exists check, v = Some check /\ check data = Raise e.
Proof.
  unfold validate. destruct v as [check|]; [|discriminate].
  destruct (check data) as [[err|]|e0] eqn:C; cbn [bind].
  - intros [= <-]. now left.
  - discriminate.
  - intros [= <-]. right. eauto.
Qed.

End MoreFacade.

(** X16.  [get], [query] and [delete] of the controller never let an
    [OperationalError], an [IntegrityError] or a [DataError] through.
    [insert] and [update] let one through only when it is the validator
    that raised it: the validation stands outside the [try], so what
    the validator raises leaves the method as it is, whatever its
    class. *)
Theorem facade_never_leaks_caught :
  forall (d : Controller.dao) (e : exn),
    (forall id, Controller.get d id = Raise e -> Controller.caught e = false)
    /\ (forall b q pager sorter,
          Controller.query d b q pager sorter = Raise e ->
          Controller.caught e = false)
    /\ (forall id,
          Controller.delete d id = Raise e -> Controller.caught e = false)
    /\ (forall v data,
          Controller.insert d v data = Raise e ->
          Controller.caught e = false
          \/ exists check, v = Some check /\ check data = Raise e)
    /\ (forall v id data,
          Controller.update d v id data = Raise e ->
          Controller.caught e = false
          \/ exists check, v = Some check /\ check data = Raise e)
    /\ (forall check id data,
          check data = Raise e ->
          Controller.insert d (Some check) data = Raise e
          /\ Controller.update d (Some check) id data = Raise e).
Proof.
  intros d e. split; [|split; [|split; [|split; [|split]]]].
  - intros id H. unfold Controller.get in H.
    apply bind_raise in H as [H|(rows & _ & H)].
    + now apply guarded_uncaught in H.
    + destruct rows; discriminate.
  - intros b q pager sorter H. now apply guarded_uncaught in H.
  - intros id H. now apply guarded_uncaught in H.
  - intros v data H. unfold Controller.insert in H.
    apply bind_raise in H as [H|(u & _ & H)].
    + now apply validate_raises in H.
    + left. now apply guarded_uncaught in H.
  - intros v id data H. unfold Controller.update in H.
    apply bind_raise in H as [H|(u & _ & H)].
    + now apply validate_raises in H.
    + left. now apply guarded_uncaught in H.
  - intros check id data H.
    unfold Controller.insert, Controller.update, Controller.validate.
    rewrite H. split; reflexivity.
Qed.

Lemma facade_never_leaks_caught_witness :
  Controller.caught (BusinessError 500 500 "duplicate entry") = false.
Proof.
  destruct (facade_never_leaks_caught
              (Sample.failing_dao (IntegrityError "duplicate entry"))
              (BusinessError 500 500 "duplicate entry")) as (H & _).
  exact (H 7 eq_refl).
Defined.

(** X17.  A validator that objects, returning an error text, stops
    [insert] and [update] before the data layer is reached: the outcome
    is [BusinessError(code=500, http_code=200, err_info=err)] whatever
    the data layer would have done. *)
Theorem validation_short_circuits :
  forall (check : Controller.validator) (data : dict scalar) (err : string),
    check data = Ok (Some err) ->
    forall (d : Controller.dao) (id : Z),
      Controller.insert d (Some check) data = Raise (BusinessError 500 200 err)
      /\ Controller.update d (Some check) id data
         = Raise (BusinessError 500 200 err).
Proof.
  intros check data err H d id.
  unfold Controller.insert, Controller.update, Controller.validate.
  rewrite H. split; reflexivity.
Qed.

Lemma validation_short_circuits_witness :
  let check : Controller.validator :=
    fun data => if dict_mem "name" data then Ok None
                else Ok (Some "name is required") in
  Controller.insert (Sample.failing_dao (OperationalError "gone")) (Some check)
    [("age", SInt 3)]
  = Raise (BusinessError 500 200 "name is required").
Proof.
  intros check.
  exact (proj1 (validation_short_circuits check [("age", SInt 3)]
                  "name is required" eq_refl
                  (Sample.failing_dao (OperationalError "gone")) 0)).
Defined.

(** X18.  The controller's [query] returns exactly when both the list
    and the count return, and then hands back the two results as they
    are; a failing count fails the whole call even though the rows were
    fetched. *)
Theorem facade_query_needs_both :
  forall (d : Controller.dao) (b : bool) q pager sorter rows total,
    Controller.query d b q pager sorter = Ok (rows, total)
    <-> (Controller.dao_query d q pager sorter = Ok rows
         /\ Controller.dao_count d q = Ok total).
Proof.
  intros d b q pager sorter rows total.
  unfold Controller.query, Controller.gather, Controller.guarded.
  destruct (Controller.dao_query d q pager sorter) as [x|ex],
           (Controller.dao_count d q) as [y|ey]; split;
    try (intros [= -> ->]; now split);
    try (intros [[= ->] [= ->]]; reflexivity);
    try (intros [H1 H2]; discriminate).
  - destruct (Controller.caught ey); discriminate.
  - destruct (Controller.caught ex); discriminate.
  - destruct (Controller.caught _); discriminate.
Qed.

(* ===================================================================== *)
(** ** Further properties of the transaction scope *)
(* ===================================================================== *)

(** X19.  When entering the scope fails the block is not run and
    nothing is committed or rolled back; and when it is [begin] that
    fails, the connection just acquired is not closed. *)
Theorem enter_failures :
  forall (A : Type) (d : AsyncEasyapi.driver) (body : AsyncEasyapi.io A)
         (e : exn),
    (d AsyncEasyapi.Acquire = Some e ->
       AsyncEasyapi.transaction d body = ([AsyncEasyapi.Acquire], Raise e))
    /\ (d AsyncEasyapi.Acquire = None -> d AsyncEasyapi.Begin = Some e ->
          AsyncEasyapi.transaction d body
          = ([AsyncEasyapi.Acquire; AsyncEasyapi.Begin], Raise e)).
Proof.
  intros A d body e.
  unfold AsyncEasyapi.transaction, AsyncEasyapi.async_with, AsyncEasyapi.aenter,
    AsyncEasyapi.await, AsyncEasyapi.io_bind.
  split.
  - now intros ->.
  - now intros -> ->.
Qed.

Lemma enter_failures_witness :
  let d : AsyncEasyapi.driver :=
    fun c => match c with
             | AsyncEasyapi.Begin => Some (OperationalError "read only")
             | _ => None
             end in
  AsyncEasyapi.transaction d (AsyncEasyapi.ret tt)
  = ([AsyncEasyapi.Acquire; AsyncEasyapi.Begin],
     Raise (OperationalError "read only")).
Proof.
  intros d.
  exact (proj2 (enter_failures unit d (AsyncEasyapi.ret tt)
                  (OperationalError "read only")) eq_refl eq_refl).
Defined.

(** X20.  A failure of the final [close] is what the caller gets,
    whatever the block, the commit and the rollback did: it replaces
    the value of a block that completed, and the failure of one that
    did not. *)
Theorem close_failure_masks :
  forall (A : Type) (d : AsyncEasyapi.driver) (body : AsyncEasyapi.io A)
         (e : exn),
    d AsyncEasyapi.Acquire = None ->
    d AsyncEasyapi.Begin = None ->
    d AsyncEasyapi.Close = Some e ->
    snd (AsyncEasyapi.transaction d body) = Raise e.
Proof.
  intros A d body e Ha Hb Hx.
  unfold AsyncEasyapi.transaction, AsyncEasyapi.async_with, AsyncEasyapi.aenter,
    AsyncEasyapi.aexit, AsyncEasyapi.await, AsyncEasyapi.io_bind,
    AsyncEasyapi.try_finally, AsyncEasyapi.try_except, AsyncEasyapi.raise.
  rewrite Ha, Hb, Hx.
  destruct body as [tr [a|e0]];
    destruct (d AsyncEasyapi.Commit), (d AsyncEasyapi.Rollback); reflexivity.
Qed.

Lemma close_failure_masks_witness :
  let d : AsyncEasyapi.driver :=
    fun c => match c with
             | AsyncEasyapi.Close => Some (InterfaceError "broken pipe")
             | _ => None
             end in
  snd (AsyncEasyapi.transaction d
         ([], @Raise unit (UserError "boom")))
  = Raise (InterfaceError "broken pipe").
Proof.
  intros d.
  exact (close_failure_masks unit d _ (InterfaceError "broken pipe")
           eq_refl eq_refl eq_refl).
Defined.

(** X21.  The scope rolls back exactly when its commit fails: for a
    block that issues no rollback of its own, a rollback appears among
    the calls of the scope if and only if the commit raised. *)
Theorem rollback_iff_commit_fails :
  forall (A : Type) (d : AsyncEasyapi.driver) (body : AsyncEasyapi.io A),
    d AsyncEasyapi.Acquire = None ->
    d AsyncEasyapi.Begin = None ->
    ~ In AsyncEasyapi.Rollback (fst body) ->
    (In AsyncEasyapi.Rollback (fst (AsyncEasyapi.transaction d body))
     <-> d AsyncEasyapi.Commit <> None).
Proof.
  intros A d body Ha Hb Hbody.
  unfold AsyncEasyapi.transaction, AsyncEasyapi.async_with, AsyncEasyapi.aenter,
    AsyncEasyapi.aexit, AsyncEasyapi.await, AsyncEasyapi.io_bind,
    AsyncEasyapi.try_finally, AsyncEasyapi.try_except, AsyncEasyapi.raise.
  rewrite Ha, Hb.
  destruct body as [tr [a|e0]]; simpl in Hbody;
    destruct (d AsyncEasyapi.Commit), (d AsyncEasyapi.Rollback),
             (d AsyncEasyapi.Close);
    simpl; rewrite ?in_app_iff; simpl; split;
    try (intros; discriminate);
    try (intros _; tauto);
    try (intros [?|[?|[?|[?|?]]]]; try discriminate; tauto);
    try (intros [?|[?|[?|?]]]; try discriminate; tauto);
    intuition discriminate.
Qed.

Lemma rollback_iff_commit_fails_witness :
  ~ In AsyncEasyapi.Rollback
      (fst (AsyncEasyapi.transaction (fun _ => None)
              ([], @Raise unit (UserError "boom")))).
Proof.
  intros H.
  apply (rollback_iff_commit_fails unit (fun _ => None)
           ([], Raise (UserError "boom")) eq_refl eq_refl) in H.
  - now apply H.
  - simpl; tauto.
Defined.

(** X22.  The two variants of the scope differ by the final [close]
    and nothing else: over a driver whose [close] returns, the scope of
    [async_easyapi] makes the calls of [async_esayapi]'s followed by
    [close], and ends the same way. *)
Theorem variants_differ_by_close :
  forall (A : Type) (d : AsyncEasyapi.driver) (body : AsyncEasyapi.io A),
    d AsyncEasyapi.Acquire = None ->
    d AsyncEasyapi.Begin = None ->
    d AsyncEasyapi.Close = None ->
    AsyncEasyapi.transaction d body
    = (fst (AsyncEsayapi.transaction d body) ++ [AsyncEasyapi.Close],
       snd (AsyncEsayapi.transaction d body)).
Proof.
  intros A d body Ha Hb Hx.
  unfold AsyncEasyapi.transaction, AsyncEsayapi.transaction,
    AsyncEsayapi.aexit, AsyncEasyapi.async_with, AsyncEasyapi.aenter,
    AsyncEasyapi.aexit, AsyncEasyapi.await, AsyncEasyapi.io_bind,
    AsyncEasyapi.try_finally, AsyncEasyapi.try_except, AsyncEasyapi.raise.
  rewrite Ha, Hb, Hx.
  destruct body as [tr [a|e0]];
    destruct (d AsyncEasyapi.Commit), (d AsyncEasyapi.Rollback); simpl;
    rewrite <- ?app_assoc; reflexivity.
Qed.

Lemma variants_differ_by_close_witness :
  AsyncEasyapi.transaction (fun _ => None) (AsyncEasyapi.ret tt)
  = ([AsyncEasyapi.Acquire; AsyncEasyapi.Begin; AsyncEasyapi.Commit;
      AsyncEasyapi.Close], Ok tt).
Proof.
  etransitivity;
    [exact (variants_differ_by_close unit (fun _ => None) (AsyncEasyapi.ret tt)
              eq_refl eq_refl eq_refl)|reflexivity].
Defined.

Lemma facade_query_needs_both_witness :
  let d := Controller.mkDao (fun _ _ _ => Ok [Sample.alice])
             (fun _ => Raise (OperationalError "timeout"))
             (fun _ => Ok 0) (fun _ _ => Ok 0) (fun _ => Ok 0) in
  Controller.query d false [] None None <> Ok ([Sample.alice], 1).
Proof.
  intros d H.
  apply (facade_query_needs_both d false [] None None [Sample.alice] 1) in H.
  destruct H as [_ H]. discriminate.
Defined.

(* ===================================================================== *)
(** ** The collection-valued filter of async_esayapi *)
(* ===================================================================== *)



(* ===================================================================== *)
(** ** Class creation *)
(* ===================================================================== *)

Section ClassCreation.

Import Meta.

Lemma append_s_truthy (x : string) :
  attr_truthy (AStr (String.append x "s")) = true.
Proof. now destruct x. Qed.

(** [attrs.get('__tablename__') or derived], stored back. *)
Lemma tablename_settled (derived : string) (attrs : dict attr) :
  let tablename :=
    match dict_get "__tablename__" attrs with
    | Some a => if attr_truthy a then a
                else AStr (String.append derived "s")
    | None => AStr (String.append derived "s")
    end in
  let attrs' := dict_set "__tablename__" tablename attrs in
  (exists a, dict_get "__tablename__" attrs' = Some a
             /\ attr_truthy a = true
             /\ (forall given,
                   dict_get "__tablename__" attrs = Some given ->
                   attr_truthy given = true -> a = given))
  /\ (forall k, k <> "__tablename__" -> dict_get k attrs' = dict_get k attrs).
Proof.
  intros tablename attrs'. split.
  - exists tablename. unfold attrs'. rewrite dict_get_set, String.eqb_refl.
    split; [reflexivity|]. unfold tablename.
    destruct (dict_get "__tablename__" attrs) as [g|].
    + destruct (attr_truthy g) eqn:Tg.
      * split; [exact Tg|]. now intros given [= ->] _.
      * split; [apply append_s_truthy|]. intros given [= ->] T. congruence.
    + split; [apply append_s_truthy|]. intros given; discriminate.
  - intros k Hk. unfold attrs'. rewrite dict_get_set.
    apply String.eqb_neq in Hk. now rewrite Hk.
Qed.

End ClassCreation.

(** X24.  A data-access class that [DaoMetaClass] creates and that is
    not taken for a base class has a binding [__db__] other than [None]
    and ends up with a non-empty [__tablename__]: the one it declared
    when that is truthy, else the one derived from its name; every
    other attribute is as declared.  A class whose name merely contains
    [BaseDao] is taken for a base class in [async_easyapi] and created
    unchecked, where [async_esayapi] checks every class not named
    exactly [BaseDao]. *)
Theorem dao_class_creation :
  forall (str2hump : string -> string) (name : string)
         (attrs : dict Meta.attr),
    (Meta.contains "BaseDao" name = true ->
       Meta.DaoMetaClass_new str2hump name attrs = Meta.Created attrs)
    /\ (Meta.contains "BaseDao" name = false ->
        forall attrs',
          Meta.DaoMetaClass_new str2hump name attrs = Meta.Created attrs' ->
          (exists db, dict_get "__db__" attrs = Some db /\ db <> Meta.ANone)
          /\ (exists a, dict_get "__tablename__" attrs' = Some a
                        /\ Meta.attr_truthy a = true
                        /\ (forall given,
                              dict_get "__tablename__" attrs = Some given ->
                              Meta.attr_truthy given = true -> a = given))
          /\ (forall k, k <> "__tablename__" ->
                dict_get k attrs' = dict_get k attrs))
    /\ (name <> "BaseDao" ->
        dict_get "__db__" attrs = None ->
        Meta.DaoMetaClass_new_esayapi str2hump name attrs
        = Meta.NotImplemented "Should have __db__ value.").
Proof.
  intros str2hump name attrs.
  unfold Meta.DaoMetaClass_new, Meta.DaoMetaClass_new_esayapi, Meta.dao_new.
  split; [|split].
  - now intros ->.
  - intros -> attrs' H.
    destruct (dict_get "__db__" attrs) as [db|] eqn:Hdb; [|discriminate].
    destruct db; try discriminate; injection H as <-;
      (split; [eexists; split; [reflexivity|discriminate]|]);
      apply tablename_settled.
  - intros Hn Hdb.
    assert (E : String.eqb "BaseDao" name = false).
    { apply String.eqb_neq. congruence. }
    now rewrite E, Hdb.
Qed.

Lemma dao_class_creation_witness :
  let hump := fun s : string => s in
  Meta.DaoMetaClass_new hump "UserDao" [("__db__", Meta.AObj "mysql")]
  = Meta.Created [("__db__", Meta.AObj "mysql");
                  ("__tablename__", Meta.AStr "Users")]
  /\ Meta.DaoMetaClass_new hump "BusinessBaseDao" [] = Meta.Created [].
Proof.
  intros hump.
  destruct (dao_class_creation hump "BusinessBaseDao" []) as (H & _).
  split; [reflexivity|exact (H eq_refl)].
Defined.

(* ===================================================================== *)
(** ** The synchronous variant *)
(* ===================================================================== *)

(** X25.  In [easyapi] the [unscoped] flag travels inside the mapping
    and [reformatter] leaves it there.  A business read whose filter
    carries a truthy [unscoped] therefore fails on the flag itself, with
    the attribute error for a column [unscoped], unless the table has
    such a column; the where loop of [update] and [delete] passes over
    the flag and builds the where clause of the mapping without it, with
    no condition on [deleted_at].  A business read with no filter at
    all fails too, on [None.items()]. *)
Theorem easyapi_unscoped_flag :
  forall (t : table) (pre post : dict pyval) (v : pyval),
    let q := pre ++ ("unscoped", v) :: post in
    dict_wf q ->
    truthy v = true ->
    FilterSpec.well_formed t pre = true ->
    hasattr_c t "unscoped" = false ->
    EasyapiDao.get_sql AsyncEasyapi.BusinessBaseDao (Some q) t
      = Raise (AttributeError "unscoped")
    /\ EasyapiDao.count_sql AsyncEasyapi.BusinessBaseDao (Some q) t
       = Raise (AttributeError "unscoped")
    /\ EasyapiDao.where_clause AsyncEasyapi.BusinessBaseDao (Some q) t
       = Ok (AsyncEasyapi.where_known t (pre ++ post))
    /\ EasyapiDao.get_sql AsyncEasyapi.BusinessBaseDao None t
       = Raise (AttributeError "items").
Proof.
  intros t pre post v q Hwf Hv Hpre Hc.
  assert (G : dict_get "unscoped" q = Some v).
  { apply In_dict_get; [exact Hwf|]. unfold q. apply in_or_app; right; now left. }
  assert (R : EasyapiDao.business_reformatter q = q).
  { unfold EasyapiDao.business_reformatter. rewrite G, Hv. cbn [negb andb].
    now apply dict_copy_id. }
  assert (F : forall p,
            EasyapiDao.filtered AsyncEasyapi.BusinessBaseDao p (Some q) t
            = Raise (AttributeError "unscoped")).
  { intros p. unfold EasyapiDao.filtered. cbn [EasyapiDao.reformatter bind].
    rewrite R. unfold q.
    destruct (pre ++ ("unscoped", v) :: post) as [|kv l] eqn:E;
      [destruct pre; discriminate|].
    rewrite <- E. apply search_sql_stops; [exact Hpre|].
    intros sql.
    exact (search_key_unknown t "unscoped" v sql Hc eq_refl). }
  unfold EasyapiDao.get_sql, EasyapiDao.count_sql.
  split; [apply F|]. split; [apply F|]. split; [|reflexivity].
  unfold EasyapiDao.where_clause. cbn [EasyapiDao.reformatter bind].
  rewrite R. f_equal. unfold q.
  rewrite !where_known_filter, !filter_app. cbn [filter fst]. now rewrite Hc.
Qed.

Lemma easyapi_unscoped_flag_witness :
  let q := [("name", PScalar (SStr "carol")); ("unscoped", PScalar (SBool true))] in
  EasyapiDao.get_sql AsyncEasyapi.BusinessBaseDao (Some q) Sample.users
    = Raise (AttributeError "unscoped")
  /\ EasyapiDao.where_clause AsyncEasyapi.BusinessBaseDao (Some q) Sample.users
     = Ok [PEq "name" (PScalar (SStr "carol"))].
Proof.
  intros q.
  assert (Hwf : dict_wf q).
  { unfold dict_wf, q; simpl.
    constructor; [|constructor; [|constructor]]; simpl; intuition discriminate. }
  destruct (easyapi_unscoped_flag Sample.users
              [("name", PScalar (SStr "carol"))] [] (PScalar (SBool true))
              Hwf eq_refl eq_refl eq_refl) as (H1 & _ & H3 & _).
  split; [exact H1|]. etransitivity; [exact H3|reflexivity].
Defined.
